(** * HabitPulse: streaks, history normalisation and reminders

    A shallow embedding of the habit store and of the reminder engine of
    [src/app/layout.tsx] (the [HomePage] component and its helpers), with
    the properties of the specification stated over it.

    Conventions of the embedding.
    - A JavaScript [Date] is its time value: [Some t] with [t] the number of
      milliseconds since the epoch, or [None] for an Invalid Date.
    - Local time is UTC shifted by a fixed offset [tzo] (milliseconds): the
      time zone has no daylight-saving transition in the period observed.
    - Strings are Rocq strings, read as sequences of code units below 256.
    - The counters [streak] and [longestStreak] are integers.
    - One event reads the clock once: the readings of a handler and of
      the render that follows it are taken at the same instant.
    - The habits after an event are those that the updater passed to
      [setHabits] returns on the habits before it, whether React runs the
      updater inside the call or at the next render: updaters run in the
      order of their calls.
    - The interval callback tests [triggered], which only its updater
      fills, right after the call of [setHabits]: what it finds there
      depends on when React runs the updater. The source does not decide
      that, so a tick carries it ([dispatch]), and the statements about
      ticks hold for both cases unless they name one.
    - The dismissal of the toast after five seconds is left out.
    - What the JavaScript engine does with strings that the language
      definition leaves open ([Date] parsing, [Number]) is a parameter, the
      record [Engine], constrained by [EngineLaws]; [refEngine] is an
      instance on which the definitions can be run. *)

From Stdlib Require Import ZArith List String Ascii Bool Lia QArith_base Sorted.
Import ListNotations.
Local Open Scope string_scope.
Local Open Scope Z_scope.

(** ** Exceptions *)

Inductive exn : Type :=
| RangeError
| SyntaxError.

Inductive result (A : Type) : Type :=
| Ok (a : A)
| Throw (e : exn).
Arguments Ok {A} a.
Arguments Throw {A} e.

Definition bind {A B : Type} (r : result A) (k : A -> result B) : result B :=
  match r with
  | Ok a => k a
  | Throw e => Throw e
  end.

Notation "x <- r ;; k" := (bind r (fun x => k))
  (at level 61, r at next level, right associativity).

(** [Array.prototype.map] with a callback that may throw: the first
    exception aborts the traversal. *)
Fixpoint mapM {A B : Type} (f : A -> result B) (l : list A) : result (list B) :=
  match l with
  | [] => Ok []
  | a :: l' => b <- f a ;; bs <- mapM f l' ;; Ok (b :: bs)
  end.

(** ** Calendar arithmetic (proleptic Gregorian calendar) *)

Definition msPerSecond : Z := 1000.
Definition msPerMinute : Z := 60000.
Definition msPerHour : Z := 3600000.
Definition msPerDay : Z := 86400000.

(** [Day(t)] of ECMAScript: the day number of a time value. *)
Definition Day (t : Z) : Z := t / msPerDay.
Definition TimeWithinDay (t : Z) : Z := t mod msPerDay.

Definition daysPerEra : Z := 146097.
Definition eraShift : Z := 719468.

(** Year (counted from 1 March), month and day of the [doe]-th day of a
    400-year era. *)
Definition civil_of_doe (doe : Z) : Z * Z * Z :=
  let yoe := (doe - doe / 1460 + doe / 36524 - doe / 146096) / 365 in
  let doy := doe - (365 * yoe + yoe / 4 - yoe / 100) in
  let mp := (5 * doy + 2) / 153 in
  let d := doy - (153 * mp + 2) / 5 + 1 in
  let m := if mp <? 10 then mp + 3 else mp - 9 in
  ((if m <=? 2 then yoe + 1 else yoe), m, d).

(** Year, month (1..12) and day of month of a day number. *)
Definition civil_from_days (z : Z) : Z * Z * Z :=
  let era := (z + eraShift) / daysPerEra in
  let doe := (z + eraShift) mod daysPerEra in
  let '(y, m, d) := civil_of_doe doe in
  (y + 400 * era, m, d).

(** [MakeDay]: the day number of a calendar date. *)
Definition days_from_civil (y m d : Z) : Z :=
  let y' := if m <=? 2 then y - 1 else y in
  let era := y' / 400 in
  let yoe := y' mod 400 in
  let mp := if 2 <? m then m - 3 else m + 9 in
  let doy := (153 * mp + 2) / 5 + d - 1 in
  let doe := yoe * 365 + yoe / 4 - yoe / 100 + doy in
  era * daysPerEra + doe - eraShift.

Definition is_leap (y : Z) : bool :=
  (y mod 4 =? 0) && (negb (y mod 100 =? 0) || (y mod 400 =? 0)).

Definition days_in_month (y m : Z) : Z :=
  if m =? 2 then (if is_leap y then 29 else 28)
  else if (m =? 4) || (m =? 6) || (m =? 9) || (m =? 11) then 30
  else 31.

Definition valid_civil (y m d : Z) : bool :=
  (1 <=? m) && (m <=? 12) && (1 <=? d) && (d <=? days_in_month y m).

(** ** Decimal fields *)

Definition digit_char (d : Z) : ascii := ascii_of_N (Z.to_N (48 + d)).

Definition digit_val (c : ascii) : option Z :=
  let n := Z.of_N (N_of_ascii c) in
  if (48 <=? n) && (n <=? 57) then Some (n - 48) else None.

Fixpoint digits_from (fuel : nat) (n : Z) (acc : string) : string :=
  match fuel with
  | O => acc
  | S fuel' =>
      let acc' := String (digit_char (n mod 10)) acc in
      if n <? 10 then acc' else digits_from fuel' (n / 10) acc'
  end.

(** [String(n)] for a non-negative integer. *)
Definition decimal (n : Z) : string :=
  digits_from (S (Z.to_nat (Z.log2 n))) n "".

Fixpoint zeros (k : nat) : string :=
  match k with
  | O => ""
  | S k' => String "0" (zeros k')
  end.

(** [padStart(targetLength, "0")]. *)
Definition padStart0 (s : string) (targetLength : nat) : string :=
  zeros (targetLength - String.length s) ++ s.

(** [addLeadingZeros] of date-fns: sign, then the absolute value padded. *)
Definition addLeadingZeros (n : Z) (targetLength : nat) : string :=
  (if n <? 0 then "-" else "") ++ padStart0 (decimal (Z.abs n)) targetLength.

(** The [k] decimal digits of [v], most significant first. *)
Fixpoint fixed (k : nat) (v : Z) : string :=
  match k with
  | O => ""
  | S k' => String (digit_char (v / 10 ^ Z.of_nat k')) (fixed k' (v mod 10 ^ Z.of_nat k'))
  end.

(** Reads exactly [k] decimal digits. *)
Fixpoint read_digits (k : nat) (acc : Z) (s : string) : option (Z * string) :=
  match k with
  | O => Some (acc, s)
  | S k' =>
      match s with
      | String c s' =>
          match digit_val c with
          | Some d => read_digits k' (10 * acc + d) s'
          | None => None
          end
      | EmptyString => None
      end
  end.

(** ** The JavaScript engine *)

(** A JavaScript number: NaN, an infinity, or a finite value. *)
Inductive number : Type :=
| NaN
| Infinity (negative : bool)
| Finite (q : Q).

(** What the embedding takes from the engine and its environment:
    [tzo], local time minus UTC in milliseconds; [Date_parse], the time
    value of [new Date(s)], [None] when the date is invalid;
    [StringToNumber], the value of [Number(s)]. *)
Class Engine : Type := {
  tzo : Z;
  Date_parse : string -> option Z;
  StringToNumber : string -> number
}.

Definition Date : Type := option Z.

Definition pad (n : Z) (width : nat) : string := padStart0 (decimal n) width.

(** The year of [Date.prototype.toISOString]: four digits, or a sign and six
    digits outside the years 0..9999. *)
Definition isoYear (y : Z) : string :=
  if (0 <=? y) && (y <=? 9999) then pad y 4
  else (if y <? 0 then "-" else "+") ++ pad (Z.abs y) 6.

(** [d.toISOString()] for a valid date. *)
Definition toISOString_ms (t : Z) : string :=
  let '(y, m, d) := civil_from_days (Day t) in
  let ms := TimeWithinDay t in
  isoYear y ++ "-" ++ pad m 2 ++ "-" ++ pad d 2 ++ "T"
  ++ pad (ms / msPerHour) 2 ++ ":" ++ pad ((ms / msPerMinute) mod 60) 2 ++ ":"
  ++ pad ((ms / msPerSecond) mod 60) 2 ++ "." ++ pad (ms mod 1000) 3 ++ "Z".

(** [d.toISOString()]: a RangeError on an Invalid Date. *)
Definition toISOString (d : Date) : result string :=
  match d with
  | Some t => Ok (toISOString_ms t)
  | None => Throw RangeError
  end.

(** [ToIntegerOrInfinity] on a finite number: truncation toward zero. *)
Definition truncate (q : Q) : Z := Z.quot (Qnum q) (Zpos (Qden q)).

(** [Math.round(a / b)] for a positive [b]. *)
Definition Math_round_div (a b : Z) : Z := (2 * a + b) / (2 * b).

(** [Number.isNaN(v)], [v] possibly [undefined] ([None]). *)
Definition Number_isNaN (v : option number) : bool :=
  match v with
  | Some NaN => true
  | _ => false
  end.

(** A string or [null] used as a condition. *)
Definition truthy (v : option string) : bool :=
  match v with
  | Some s => negb (s =? "")%string
  | None => false
  end.

Definition is_white (c : ascii) : bool :=
  let n := Z.of_N (N_of_ascii c) in
  ((9 <=? n) && (n <=? 13)) || (n =? 32) || (n =? 160).

Fixpoint trimStart (s : string) : string :=
  match s with
  | String c s' => if is_white c then trimStart s' else s
  | EmptyString => EmptyString
  end.

Fixpoint trimEnd (s : string) : string :=
  match s with
  | String c s' =>
      match trimEnd s' with
      | EmptyString => if is_white c then EmptyString else String c EmptyString
      | r => String c r
      end
  | EmptyString => EmptyString
  end.

(** [s.trim()]. *)
Definition trim (s : string) : string := trimEnd (trimStart s).

(** [s.split(sep)] for a one-character separator. *)
Fixpoint split (sep : ascii) (s : string) : list string :=
  match s with
  | EmptyString => [EmptyString]
  | String c s' =>
      if Ascii.eqb c sep then EmptyString :: split sep s'
      else match split sep s' with
           | w :: ws => String c w :: ws
           | [] => [String c EmptyString]
           end
  end.

Definition option_string_eqb (a b : option string) : bool :=
  match a, b with
  | Some x, Some y => (x =? y)%string
  | None, None => true
  | _, _ => false
  end.

Section DateFns.
Context {E : Engine}.

(** [new Date(s)]. *)
Definition new_Date (s : string) : Date := Date_parse s.

Definition startOfDay_ms (t : Z) : Z := Day (t + tzo) * msPerDay - tzo.

(** [startOfDay(d)]: [setHours(0, 0, 0, 0)] on a copy. *)
Definition startOfDay (d : Date) : Date := option_map startOfDay_ms d.

(** [isSameDay(a, b)]: the two starts of day have the same time value; an
    Invalid Date is on no day. *)
Definition isSameDay (a b : Date) : bool :=
  match startOfDay a, startOfDay b with
  | Some x, Some y => x =? y
  | _, _ => false
  end.

(** [isToday(d)], the clock reading [now]. *)
Definition isToday (now : Z) (d : Date) : bool := isSameDay d (Some now).

(** [differenceInCalendarDays(l, r)]; [None] is NaN. *)
Definition differenceInCalendarDays (l r : Date) : option Z :=
  match startOfDay l, startOfDay r with
  | Some a, Some b => Some (Math_round_div ((a + tzo) - (b + tzo)) msPerDay)
  | _, _ => None
  end.

(** [format(d, "yyyy-MM-dd")] for a valid date: the local calendar date,
    the year of an era (1 - y for a year y that is not positive). *)
Definition format_ms (t : Z) : string :=
  let '(y, m, d) := civil_from_days (Day (t + tzo)) in
  let year := if 0 <? y then y else 1 - y in
  addLeadingZeros year 4 ++ "-" ++ addLeadingZeros m 2 ++ "-" ++ addLeadingZeros d 2.

(** [format(d, "yyyy-MM-dd")]: a RangeError on an Invalid Date. *)
Definition format (d : Date) : result string :=
  match d with
  | Some t => Ok (format_ms t)
  | None => Throw RangeError
  end.

(** [d.setHours(hours, minutes, 0, 0)], [minutes] possibly [undefined]:
    an Invalid Date unless both are finite; then the local day of [d] at
    the truncated hour and minute. (JavaScript makes a time value beyond
    the range of [Date] NaN; such a value is far from every clock reading,
    so that the window test below has the same outcome on it.) *)
Definition setHours (d : Date) (hours minutes : option number) : Date :=
  match d, hours, minutes with
  | Some t, Some (Finite h), Some (Finite m) =>
      Some (Day (t + tzo) * msPerDay
            + (truncate h * msPerHour + truncate m * msPerMinute) - tzo)
  | _, _, _ => None
  end.

End DateFns.

(** ** Data model *)

Module Habit.
Record t : Type := mk {
  id : string;
  name : string;
  reminderTime : option string;
  createdAt : string;
  history : list string;
  streak : Z;
  longestStreak : Z;
  lastCompleted : option string;
  reminderLastNotified : option string
}.

Definition with_history (v : list string) (h : t) : t :=
  mk (id h) (name h) (reminderTime h) (createdAt h) v
     (streak h) (longestStreak h) (lastCompleted h) (reminderLastNotified h).

Definition with_reminderLastNotified (v : option string) (h : t) : t :=
  mk (id h) (name h) (reminderTime h) (createdAt h) (history h)
     (streak h) (longestStreak h) (lastCompleted h) v.
End Habit.

Module Toast.
Record t : Type := mk {
  id : string;
  message : string
}.
End Toast.

Inductive NotificationPermission : Type :=
| granted
| denied
| default
| unsupported.

(** The state of [HomePage] (the filter, which only selects what is shown,
    is left out). *)
Module State.
Record t : Type := mk {
  habits : list Habit.t;
  loaded : bool;
  name : string;
  time : string;
  toast : option Toast.t;
  notificationPermission : NotificationPermission
}.

Definition with_habits (v : list Habit.t) (s : t) : t :=
  mk v (loaded s) (name s) (time s) (toast s) (notificationPermission s).

Definition with_loaded (v : bool) (s : t) : t :=
  mk (habits s) v (name s) (time s) (toast s) (notificationPermission s).

Definition with_toast (v : option Toast.t) (s : t) : t :=
  mk (habits s) (loaded s) (name s) (time s) v (notificationPermission s).

(** The state of the first render. *)
Definition initial : t := mk [] false "" "" None default.
End State.

(** When React runs the updater that a handler passes to [setHabits]:
    inside the call, which it does when no update of the component is
    pending (the state after a render that changed nothing), or at the next
    render, which it does otherwise (the state after any render that
    changed the state). The source does not decide it; a tick receives it
    as it receives the clock. *)
Inductive dispatch : Type :=
| AtCall
| AtRender.

(** What a handler does besides updating the state. *)
Inductive effect : Type :=
| ShowToast (toast : Toast.t)
| NewNotification (title body tag : string)
| ConsoleError (label : string).

(** The item found under [STORAGE_KEY]: text that [JSON.parse] rejects, or
    the habits it yields (a habit stored without a history has the empty
    one, as [habit.history ?? []] reads it). *)
Inductive blob : Type :=
| Malformed
| Json (parsed : list Habit.t).

Definition quote : string := String (ascii_of_nat 34) EmptyString.

(** ** Operations *)

(** [createHabit], with the value of [crypto.randomUUID()] and the clock. *)
Definition createHabit (uuid : string) (now : Z) (name : string)
    (reminderTime : option string) : Habit.t :=
  {| Habit.id := uuid;
     Habit.name := trim name;
     Habit.reminderTime := reminderTime;
     Habit.createdAt := toISOString_ms now;
     Habit.history := [];
     Habit.streak := 0;
     Habit.longestStreak := 0;
     Habit.lastCompleted := None;
     Habit.reminderLastNotified := None |}.

(** The [filter] of [uniqueHistory]: keeps the first occurrence of a key,
    [seen] the keys met so far. *)
Fixpoint filter_seen (seen : list string) (keys : list string) : list string :=
  match keys with
  | [] => []
  | key :: keys' =>
      if existsb (String.eqb key) seen then filter_seen seen keys'
      else key :: filter_seen (key :: seen) keys'
  end.

Section Operations.
Context {E : Engine}.

Definition uniqueHistory (history : list string) : result (list string) :=
  keys <- mapM (fun iso => format (startOfDay (new_Date iso))) history ;;
  mapM (fun key => toISOString (new_Date (key ++ "T00:00:00")))
       (filter_seen [] keys).

Definition hasCompletedToday (now : Z) (habit : Habit.t) : bool :=
  existsb (fun iso => isToday now (new_Date iso)) (Habit.history habit).

(** The body of the [map] callback of the reminder interval: the habit
    after the tick, and [triggered] after the possible [push]. *)
Definition remind (now : Z) (todayKey : string) (habit : Habit.t)
    (triggered : list Habit.t) : Habit.t * list Habit.t :=
  if negb (truthy (Habit.reminderTime habit)) then (habit, triggered)
  else
    let parts :=
      map StringToNumber
          (split ":" (match Habit.reminderTime habit with
                      | Some s => s
                      | None => EmptyString
                      end)) in
    let hours := nth_error parts 0 in
    let minutes := nth_error parts 1 in
    if Number_isNaN hours || Number_isNaN minutes then (habit, triggered)
    else
      let target := setHours (Some now) hours minutes in
      let diff := option_map (fun tg => now - tg) target in
      let withinWindow :=
        match diff with
        | Some d => (0 <=? d) && (d <=? 60 * 1000)
        | None => false
        end in
      let alreadyNotifiedToday :=
        option_string_eqb (Habit.reminderLastNotified habit) (Some todayKey) in
      let alreadyCompletedToday := hasCompletedToday now habit in
      if withinWindow && negb alreadyNotifiedToday && negb alreadyCompletedToday
      then (Habit.with_reminderLastNotified (Some todayKey) habit,
            (triggered ++ [habit])%list)
      else (habit, triggered).

(** [current.map(...)] of the reminder interval, threading [triggered]. *)
Fixpoint remind_all (now : Z) (todayKey : string) (current : list Habit.t)
    (triggered : list Habit.t) : list Habit.t * list Habit.t :=
  match current with
  | [] => ([], triggered)
  | habit :: rest =>
      let '(habit', triggered') := remind now todayKey habit triggered in
      let '(rest', triggered'') := remind_all now todayKey rest triggered' in
      (habit' :: rest', triggered'')
  end.

(** The callback of the reminder interval; [uuid] is the identifier drawn
    for the toast. The only [push] on [triggered] is in the updater passed
    to [setHabits]: the test [triggered.length > 0], which follows the call
    of [setHabits], sees what the updater pushed when React ran it inside
    the call, and the empty array when React left it for the next render.
    The habits are those that the updater returns in both cases. *)
Definition reminderTick (updater : dispatch) (now : Z) (uuid : string)
    (s : State.t) : State.t * list effect :=
  let todayKey := format_ms now in
  let '(habits', pushed) := remind_all now todayKey (State.habits s) [] in
  let triggered :=
    match updater with
    | AtCall => pushed
    | AtRender => []
    end in
  let s' := State.with_habits habits' s in
  match triggered with
  | [] => (s', [])
  | targetHabit :: _ =>
      let message := "Time for " ++ quote ++ Habit.name targetHabit ++ quote in
      let toast := Toast.mk uuid message in
      (State.with_toast (Some toast) s',
       ShowToast toast ::
       match State.notificationPermission s with
       | granted =>
           [NewNotification "HabitPulse Reminder" message (Habit.id targetHabit)]
       | _ => []
       end)
  end.

(** [handleAddHabit]. *)
Definition handleAddHabit (uuid : string) (now : Z) (s : State.t) : State.t :=
  if (trim (State.name s) =? "")%string then s
  else
    let habit :=
      createHabit uuid now (State.name s)
        (if (State.time s =? "")%string then None else Some (State.time s)) in
    State.mk (habit :: State.habits s) (State.loaded s) "" ""
             (State.toast s) (State.notificationPermission s).

(** The [map] callback of [completeHabit]. *)
Definition complete (today : Date) (todayIso : string) (habitId : string)
    (habit : Habit.t) : result Habit.t :=
  if negb (Habit.id habit =? habitId)%string then Ok habit
  else if existsb (fun iso => isSameDay (new_Date iso) today) (Habit.history habit)
  then Ok habit
  else
    let lastDate :=
      if truthy (Habit.lastCompleted habit)
      then Some (startOfDay
                   (new_Date (match Habit.lastCompleted habit with
                              | Some s => s
                              | None => EmptyString
                              end)))
      else None in
    newHistory <- uniqueHistory (Habit.history habit ++ [todayIso])%list ;;
    let difference := option_map (differenceInCalendarDays today) lastDate in
    let continuing :=
      match difference with
      | Some (Some 1) => true
      | _ => false
      end in
    let streak := if continuing then Habit.streak habit + 1 else 1 in
    let longestStreak := Z.max streak (Habit.longestStreak habit) in
    Ok {| Habit.id := Habit.id habit;
          Habit.name := Habit.name habit;
          Habit.reminderTime := Habit.reminderTime habit;
          Habit.createdAt := Habit.createdAt habit;
          Habit.history := newHistory;
          Habit.streak := streak;
          Habit.longestStreak := longestStreak;
          Habit.lastCompleted := Some todayIso;
          Habit.reminderLastNotified := Habit.reminderLastNotified habit |}.

(** The state updater of [completeHabit]. *)
Definition completeHabit (now : Z) (habitId : string) (current : list Habit.t)
    : result (list Habit.t) :=
  let today := startOfDay (Some now) in
  todayIso <- toISOString today ;;
  mapM (complete today todayIso habitId) current.

(** The [map] callback of [resetHabit]. *)
Definition reset (habitId : string) (habit : Habit.t) : Habit.t :=
  if (Habit.id habit =? habitId)%string
  then {| Habit.id := Habit.id habit;
          Habit.name := Habit.name habit;
          Habit.reminderTime := Habit.reminderTime habit;
          Habit.createdAt := Habit.createdAt habit;
          Habit.history := [];
          Habit.streak := 0;
          Habit.longestStreak := 0;
          Habit.lastCompleted := None;
          Habit.reminderLastNotified := None |}
  else habit.

(** The state updater of [resetHabit]. *)
Definition resetHabit (habitId : string) (current : list Habit.t) : list Habit.t :=
  map (reset habitId) current.

(** The body of the [try] of the load effect: [None] when nothing is
    stored, the habits to set otherwise. *)
Definition loadStored (stored : option blob) : result (option (list Habit.t)) :=
  match stored with
  | None => Ok None
  | Some Malformed => Throw SyntaxError
  | Some (Json parsed) =>
      habits <- mapM (fun habit =>
                        history <- uniqueHistory (Habit.history habit) ;;
                        Ok (Habit.with_history history habit)) parsed ;;
      Ok (Some habits)
  end.

(** The load effect. *)
Definition load (stored : option blob) (s : State.t) : State.t * list effect :=
  match loadStored stored with
  | Ok (Some habits) => (State.with_loaded true (State.with_habits habits s), [])
  | Ok None => (State.with_loaded true s, [])
  | Throw _ => (State.with_loaded true s, [ConsoleError "Failed to load habits"])
  end.

End Operations.

(** ** Events of the component *)

Inductive event : Type :=
| Mount (stored : option blob) (permission : NotificationPermission)
| ChangeName (value : string)
| ChangeTime (value : string)
| AddHabit (uuid : string) (now : Z)
| CompleteHabit (habitId : string) (now : Z)
| ResetHabit (habitId : string)
| Tick (now : Z) (uuid : string) (updater : dispatch).

Section Component.
Context {E : Engine}.

(** One event handled: the first effects (load, permission), the form
    fields, the three buttons, and the interval callback, which exists only
    once the store is loaded and not empty. *)
Definition step (ev : event) (s : State.t) : result (State.t * list effect) :=
  match ev with
  | Mount stored permission =>
      let '(s', fx) := load stored s in
      Ok (State.mk (State.habits s') (State.loaded s') (State.name s')
                   (State.time s') (State.toast s') permission, fx)
  | ChangeName value =>
      Ok (State.mk (State.habits s) (State.loaded s) value (State.time s)
                   (State.toast s) (State.notificationPermission s), [])
  | ChangeTime value =>
      Ok (State.mk (State.habits s) (State.loaded s) (State.name s) value
                   (State.toast s) (State.notificationPermission s), [])
  | AddHabit uuid now => Ok (handleAddHabit uuid now s, [])
  | CompleteHabit habitId now =>
      habits <- completeHabit now habitId (State.habits s) ;;
      Ok (State.with_habits habits s, [])
  | ResetHabit habitId =>
      Ok (State.with_habits (resetHabit habitId (State.habits s)) s, [])
  | Tick now uuid updater =>
      if State.loaded s && negb (List.length (State.habits s) =? 0)%nat
      then Ok (reminderTick updater now uuid s)
      else Ok (s, [])
  end.

Fixpoint run (evs : list event) (s : State.t) : result (State.t * list effect) :=
  match evs with
  | [] => Ok (s, [])
  | ev :: evs' =>
      r <- step ev s ;;
      r' <- run evs' (fst r) ;;
      Ok (fst r', (snd r ++ snd r')%list)
  end.

(** The habit is pushed to [triggered] by a tick at [now]. *)
Definition fires (now : Z) (habit : Habit.t) : bool :=
  match snd (remind now (format_ms now) habit []) with
  | [] => false
  | _ :: _ => true
  end.

(** The number of ticks of a run at which the habit at position [i] is
    triggered; the run stops at the first exception. *)
Fixpoint fire_count (i : nat) (evs : list event) (s : State.t) : nat :=
  match evs with
  | [] => O
  | ev :: evs' =>
      let here :=
        match ev, nth_error (State.habits s) i with
        | Tick now _ _, Some habit =>
            if State.loaded s && fires now habit then 1%nat else O
        | _, _ => O
        end in
      match step ev s with
      | Ok r => (here + fire_count i evs' (fst r))%nat
      | Throw _ => here
      end
  end.

(** The local day number of an instant. *)
Definition localDay (t : Z) : Z := Day (t + tzo).

Definition event_on_day (n : Z) (ev : event) : Prop :=
  match ev with
  | AddHabit _ now | CompleteHabit _ now | Tick now _ _ => localDay now = n
  | _ => True
  end.

Definition tick_or_complete (ev : event) : Prop :=
  match ev with
  | Tick _ _ _ | CompleteHabit _ _ => True
  | _ => False
  end.

End Component.

Definition toasts (fx : list effect) : list Toast.t :=
  flat_map (fun e => match e with ShowToast t => [t] | _ => [] end) fx.

(** ** Ranges *)

(** The instants whose UTC year has four digits. *)
Definition iso_range (t : Z) : Prop :=
  -62167219200000 <= t < 253402300800000.

(** Day numbers of 0001-01-01 and of 9999-12-31. *)
Definition minDay : Z := -719162.
Definition maxDay : Z := 2932896.

Section Ranges.
Context {E : Engine}.

(** The instants whose local date lies in the years 1..9999 (the last day
    left out). *)
Definition civil_range (t : Z) : Prop := minDay <= localDay t < maxDay.

Definition entry_ok (iso : string) : bool :=
  match new_Date iso with
  | Some t => (minDay <=? localDay t) && (localDay t <? maxDay)
  | None => false
  end.

(** Every entry of a history is a valid date of the years 1..9999. *)
Definition history_ok (history : list string) : bool := forallb entry_ok history.

(** The local days of the entries of a history that are valid dates. *)
Definition days_of (history : list string) : list Z :=
  flat_map (fun iso => match new_Date iso with
                       | Some t => [localDay t]
                       | None => []
                       end) history.

Definition completed_on (n : Z) (habit : Habit.t) : Prop :=
  In n (days_of (Habit.history habit)).

End Ranges.

(** What the embedding assumes of the engine: an offset of at most a day;
    [Date.parse] inverts [toISOString]; a date and time without offset is
    read as local time; the empty string is no date. *)
Class EngineLaws (E : Engine) : Prop := {
  tzo_range : - msPerDay <= tzo <= msPerDay;
  parse_toISOString :
    forall t, iso_range t -> Date_parse (toISOString_ms t) = Some t;
  parse_local_midnight :
    forall t, civil_range t ->
      Date_parse (format_ms t ++ "T00:00:00") = Some (startOfDay_ms t);
  parse_empty : Date_parse "" = None
}.

(** ** A reference engine *)

Definition obind {A B : Type} (o : option A) (k : A -> option B) : option B :=
  match o with
  | Some a => k a
  | None => None
  end.

Notation "' pat <~ o ;; k" :=
  (obind o (fun x => match x with pat => k end))
  (at level 61, pat pattern, o at next level, right associativity).

Definition expect (c : ascii) (s : string) : option string :=
  match s with
  | String c' s' => if Ascii.eqb c' c then Some s' else None
  | EmptyString => None
  end.

(** The UTC offset of a date-time string: absent (local time), or given. *)
Inductive zone : Type :=
| LocalZone
| Offset (ms : Z).

Definition read_zone (s : string) : option zone :=
  match s with
  | EmptyString => Some LocalZone
  | String c s' =>
      if Ascii.eqb c "Z" then
        match s' with
        | EmptyString => Some (Offset 0)
        | _ => None
        end
      else if Ascii.eqb c "+" || Ascii.eqb c "-" then
        '(h, s1) <~ read_digits 2 0 s' ;;
        's2 <~ expect ":" s1 ;;
        '(m, s3) <~ read_digits 2 0 s2 ;;
        match s3 with
        | EmptyString =>
            if (h <=? 23) && (m <=? 59) then
              let off := h * msPerHour + m * msPerMinute in
              Some (Offset (if Ascii.eqb c "-" then - off else off))
            else None
        | _ => None
        end
      else None
  end.

(** Optional [:ss] and [.sss]. *)
Definition read_seconds (s : string) : option (Z * Z * string) :=
  match expect ":" s with
  | None => Some (0, 0, s)
  | Some s1 =>
      '(sec, s2) <~ read_digits 2 0 s1 ;;
      match expect "." s2 with
      | None => Some (sec, 0, s2)
      | Some s3 => '(ms, s4) <~ read_digits 3 0 s3 ;; Some (sec, ms, s4)
      end
  end.

Definition valid_time (h m s ms : Z) : bool :=
  (m <=? 59) && (s <=? 59)
  && ((h <=? 23) || ((h =? 24) && (m =? 0) && (s =? 0) && (ms =? 0))).

(** [HH:mm], [HH:mm:ss] or [HH:mm:ss.sss] and the offset: the milliseconds
    within the day and the zone. *)
Definition read_time (s : string) : option (Z * zone) :=
  '(h, s1) <~ read_digits 2 0 s ;;
  's2 <~ expect ":" s1 ;;
  '(m, s3) <~ read_digits 2 0 s2 ;;
  '(sec, ms, s4) <~ read_seconds s3 ;;
  'z <~ read_zone s4 ;;
  if valid_time h m sec ms
  then Some (h * msPerHour + m * msPerMinute + sec * msPerSecond + ms, z)
  else None.

(** [YYYY], [YYYY-MM] or [YYYY-MM-DD]. *)
Definition read_date (s : string) : option (Z * Z * Z * string) :=
  '(y, s1) <~ read_digits 4 0 s ;;
  match expect "-" s1 with
  | None => Some (y, 1, 1, s1)
  | Some s2 =>
      '(m, s3) <~ read_digits 2 0 s2 ;;
      match expect "-" s3 with
      | None => Some (y, m, 1, s3)
      | Some s4 => '(d, s5) <~ read_digits 2 0 s4 ;; Some (y, m, d, s5)
      end
  end.

(** [Date.parse] on the date-time string format of ECMAScript with a
    four-digit year: a date alone is UTC, a date and time without offset is
    local. Every other string is an Invalid Date in this instance. *)
Definition ref_Date_parse (offset : Z) (s : string) : option Z :=
  '(y, m, d, rest) <~ read_date s ;;
  if valid_civil y m d then
    let day := days_from_civil y m d in
    match rest with
    | EmptyString => Some (day * msPerDay)
    | String c rest' =>
        if Ascii.eqb c "T" then
          '(ms, z) <~ read_time rest' ;;
          Some (day * msPerDay + ms
                - match z with
                  | LocalZone => offset
                  | Offset o => o
                  end)
        else None
    end
  else None.

Fixpoint read_number (acc : Z) (s : string) : option Z :=
  match s with
  | EmptyString => Some acc
  | String c s' =>
      match digit_val c with
      | Some d => read_number (10 * acc + d) s'
      | None => None
      end
  end.

(** [Number] on the strings of decimal digits (the empty one is 0), as
    the fields of a time input are; NaN elsewhere in this instance. *)
Definition ref_StringToNumber (s : string) : number :=
  match read_number 0 s with
  | Some n => Finite (inject_Z n)
  | None => NaN
  end.

(** The reference engine of a zone [offset] milliseconds ahead of UTC. *)
Definition refEngine (offset : Z) : Engine :=
  {| tzo := offset;
     Date_parse := ref_Date_parse offset;
     StringToNumber := ref_StringToNumber |}.

(** ** Exhaustive checks over finite ranges *)

Fixpoint forall_from (fuel : nat) (z : Z) (p : Z -> bool) : bool :=
  match fuel with
  | O => true
  | S fuel' => p z && forall_from fuel' (z + 1) p
  end.

(** What is checked of each day of an era. *)
Definition doe_check (doe : Z) : bool :=
  let '(y, m, d) := civil_of_doe doe in
  let y' := if m <=? 2 then y - 1 else y in
  valid_civil y m d && (0 <=? y') && (y' <=? 399)
  && (days_from_civil y m d =? doe - eraShift)
  && (if doe <? 306 then y =? 0 else 1 <=? y)
  && (if doe <? 146037 then y <=? 399 else y =? 400).

Definition pad_check (width : nat) (v : Z) : bool :=
  (pad v width =? fixed width v)%string
  && (addLeadingZeros v width =? fixed width v)%string.

(** ** The statements of the specification *)

(** Keeps the first occurrence of each day, [seen] the days met so far. *)
Fixpoint first_days (seen : list Z) (days : list Z) : list Z :=
  match days with
  | [] => []
  | n :: days' =>
      if existsb (Z.eqb n) seen then first_days seen days'
      else n :: first_days (n :: seen) days'
  end.

Section Specification.
Context {E : Engine}.

(** Local midnight of the day [n]. *)
Definition midnight (n : Z) : Z := n * msPerDay - tzo.

(** The history of the specification: the entries that are no valid date
    are dropped, and the entries of one local day collapse to one entry,
    local midnight of that day. *)
Definition spec_history (history : list string) : list string :=
  map (fun n => toISOString_ms (midnight n)) (first_days [] (days_of history)).

(** Load as the specification has it, on the habits read from storage. *)
Definition spec_load (parsed : list Habit.t) : list Habit.t :=
  map (fun habit => Habit.with_history (spec_history (Habit.history habit)) habit)
      parsed.

(** "The previous last-completed day is exactly one calendar day before
    today." *)
Definition follows_previous_day (now : Z) (habit : Habit.t) : bool :=
  match Habit.lastCompleted habit with
  | Some iso =>
      match new_Date iso with
      | Some t => localDay t =? localDay now - 1
      | None => false
      end
  | None => false
  end.

(** Today's entry, as [completeHabit] writes it. *)
Definition todayIso (now : Z) : string := toISOString_ms (startOfDay_ms now).

(** Complete on one habit, at the clock reading [now]. *)
Definition complete_at (now : Z) (habit : Habit.t) : result Habit.t :=
  complete (startOfDay (Some now)) (todayIso now) (Habit.id habit) habit.

(** A habit qualifies at a tick: "its reminder time parses to numeric hour
    and minute, the elapsed time since today's target instant lies in
    [0, 60000] milliseconds, its last-reminder-fired date is not today, and
    it has no completion for today." *)
Definition Qualifies (now : Z) (habit : Habit.t) : Prop :=
  exists (reminderTime hh mm : string) (rest : list string) (hours minutes : Q),
    Habit.reminderTime habit = Some reminderTime
    /\ split ":" reminderTime = hh :: mm :: rest
    /\ StringToNumber hh = Finite hours
    /\ StringToNumber mm = Finite minutes
    /\ (let target :=
          midnight (localDay now)
          + truncate hours * msPerHour + truncate minutes * msPerMinute in
        0 <= now - target <= 60000)
    /\ Habit.reminderLastNotified habit <> Some (format_ms now)
    /\ ~ completed_on (localDay now) habit.

(** The habits after a tick, in the words of the specification: every
    qualifying habit is marked with today's date key. *)
Definition mark_fired (now : Z) (habit : Habit.t) : Habit.t :=
  if fires now habit
  then Habit.with_reminderLastNotified (Some (format_ms now)) habit
  else habit.

(** The text of a reminder. *)
Definition reminder_message (habit : Habit.t) : string :=
  "Time for " ++ quote ++ Habit.name habit ++ quote.

End Specification.

(** The day numbers of the years 1..9999 (the last day left out). *)
Definition day_range (n : Z) : Prop := minDay <= n < maxDay.

Section Derived.
Context {E : Engine}.

(** The date key of a day. *)
Definition dayKey (n : Z) : string := format_ms (midnight n).

(** The habit that [complete] builds when it does not return early. *)
Definition completed (now : Z) (newHistory : list string) (habit : Habit.t)
    : Habit.t :=
  let streak :=
    if follows_previous_day now habit then Habit.streak habit + 1 else 1 in
  {| Habit.id := Habit.id habit;
     Habit.name := Habit.name habit;
     Habit.reminderTime := Habit.reminderTime habit;
     Habit.createdAt := Habit.createdAt habit;
     Habit.history := newHistory;
     Habit.streak := streak;
     Habit.longestStreak := Z.max streak (Habit.longestStreak habit);
     Habit.lastCompleted := Some (todayIso now);
     Habit.reminderLastNotified := Habit.reminderLastNotified habit |}.

End Derived.



(** The characters of a string. *)
Fixpoint chars (s : string) : list ascii :=
  match s with
  | EmptyString => []
  | String c s' => c :: chars s'
  end.

(** The habit at position [i] carries the date key [key] as its
    last-reminder-fired date (or there is no such habit). *)
Definition notified_at (key : string) (i : nat) (s : State.t) : Prop :=
  match nth_error (State.habits s) i with
  | Some habit => Habit.reminderLastNotified habit = Some key
  | None => True
  end.

(** What Reset leaves of a habit. *)
Definition cleared (habit : Habit.t) : Habit.t :=
  {| Habit.id := Habit.id habit;
     Habit.name := Habit.name habit;
     Habit.reminderTime := Habit.reminderTime habit;
     Habit.createdAt := Habit.createdAt habit;
     Habit.history := [];
     Habit.streak := 0;
     Habit.longestStreak := 0;
     Habit.lastCompleted := None;
     Habit.reminderLastNotified := None |}.

Section WellFormed.
Context {E : Engine}.

(** The history of a habit holds valid dates of the years 1..9999, on
    pairwise distinct local days. *)
Definition habit_ok (habit : Habit.t) : Prop :=
  history_ok (Habit.history habit) = true
  /\ NoDup (days_of (Habit.history habit)).

Definition store_ok (s : State.t) : Prop := Forall habit_ok (State.habits s).

(** The clock of an event is in the years 1..9999, and so are the
    timestamps that it reads from storage. *)
Definition event_ok (ev : event) : Prop :=
  match ev with
  | Mount (Some (Json parsed)) _ =>
      Forall (fun habit => history_ok (Habit.history habit) = true) parsed
  | AddHabit _ now | CompleteHabit _ now | Tick now _ _ => civil_range now
  | _ => True
  end.

End WellFormed.

(** ** Concrete data *)

(** Clock readings of 1 January 2024 (UTC): 08:00, 09:00:10, 09:00:30,
    09:00:40, 09:00:45 and 10:00; 09:00:30 of 2 January 2024. *)
Definition jan1_0800 : Z := 1704096000000.
Definition jan1_090010 : Z := 1704099610000.
Definition jan1_090030 : Z := 1704099630000.
Definition jan1_090040 : Z := 1704099640000.
Definition jan1_090045 : Z := 1704099645000.
Definition jan1_1000 : Z := 1704103200000.
Definition jan2_090030 : Z := 1704186030000.

(** A habit created on 1 January 2024 at 08:00 UTC, reminder at 09:00. *)
Definition reading : Habit.t :=
  createHabit "habit-1" jan1_0800 "Read" (Some "09:00").

(** Runs from the first render: a habit "Run" with the reminder time 09:00
    is added, a tick at 09:00:10 triggers it, it is reset, and a tick at
    09:00:40 triggers it again; [first] and [second] say when React runs
    the updater of each tick. *)
Definition rearmed (first second : dispatch) : list event :=
  [ Mount None default;
    ChangeName "Run"; ChangeTime "09:00"; AddHabit "habit-1" jan1_0800;
    Tick jan1_090010 "toast-1" first;
    ResetHabit "habit-1";
    Tick jan1_090040 "toast-2" second ].

(** The run in which React runs both updaters inside the call, as it does
    on the page when a render that changed nothing precedes each tick. *)
Definition rearmed_run : list event := rearmed AtCall AtCall.

(** The toast of the habit "Run" with the identifier [uuid], when the
    updater ran inside the call. *)
Definition run_toast (uuid : string) (updater : dispatch) : list Toast.t :=
  match updater with
  | AtCall => [Toast.mk uuid ("Time for " ++ quote ++ "Run" ++ quote)]
  | AtRender => []
  end.

(** Two stored habits, the first with two timestamps of 1 January 2024 and
    a text that is no date. *)
Definition stored_walk : Habit.t :=
  {| Habit.id := "habit-1";
     Habit.name := "Walk";
     Habit.reminderTime := None;
     Habit.createdAt := "2024-01-01T07:00:00.000Z";
     Habit.history :=
       ["2024-01-01T08:00:00Z"; "not a date"; "2024-01-01T23:00:00Z"];
     Habit.streak := 1;
     Habit.longestStreak := 1;
     Habit.lastCompleted := Some "2024-01-01T08:00:00Z";
     Habit.reminderLastNotified := None |}.

Definition stored_read : Habit.t :=
  {| Habit.id := "habit-2";
     Habit.name := "Read";
     Habit.reminderTime := Some "09:00";
     Habit.createdAt := "2024-01-01T07:30:00.000Z";
     Habit.history := [];
     Habit.streak := 0;
     Habit.longestStreak := 0;
     Habit.lastCompleted := None;
     Habit.reminderLastNotified := None |}.

(** A habit completed on 1 January 2024. *)
Definition walked : Habit.t :=
  {| Habit.id := "habit-2";
     Habit.name := "Walk";
     Habit.reminderTime := None;
     Habit.createdAt := "2023-12-31T18:00:00.000Z";
     Habit.history := ["2024-01-01T00:00:00.000Z"];
     Habit.streak := 1;
     Habit.longestStreak := 4;
     Habit.lastCompleted := Some "2024-01-01T00:00:00.000Z";
     Habit.reminderLastNotified := None |}.

(** A stored habit with three timestamps on two days. *)
Definition stored_run : Habit.t :=
  {| Habit.id := "habit-3";
     Habit.name := "Run";
     Habit.reminderTime := Some "07:30";
     Habit.createdAt := "2024-01-01T07:00:00.000Z";
     Habit.history :=
       ["2024-01-01T08:00:00Z"; "2024-01-01T23:00:00Z"; "2024-01-02T06:15:00Z"];
     Habit.streak := 2;
     Habit.longestStreak := 2;
     Habit.lastCompleted := Some "2024-01-02T06:15:00Z";
     Habit.reminderLastNotified := None |}.

(** ** The view, the permission request and the persisted item *)

(** The three views of the list. *)
Module Filter.
Inductive t : Type :=
| all
| today
| reminders.
End Filter.

(** A dot of the history grid. *)
Module Cell.
Record t : Type := mk {
  day : Date;
  active : bool
}.
End Cell.

Section View.
Context {E : Engine}.

(** [addDays(d, amount)]: the same local time of day, [amount] days on. *)
Definition addDays (d : Date) (amount : Z) : Date :=
  option_map (fun t => t + amount * msPerDay) d.

(** The [for] loop of [getCompletionHistory], at [i = k - 1]. *)
Fixpoint completion_cells (today : Date) (habit : Habit.t) (k : nat)
    (cells : list Cell.t) : list Cell.t :=
  match k with
  | O => cells
  | S i =>
      let day := addDays today (- Z.of_nat i) in
      let active :=
        existsb (fun iso => isSameDay (new_Date iso) day) (Habit.history habit) in
      completion_cells today habit i (cells ++ [Cell.mk day active])%list
  end.

(** [getCompletionHistory(habit, days)], [days] a count (21 where it is
    called). *)
Definition getCompletionHistory (now : Z) (habit : Habit.t) (days : nat)
    : list Cell.t :=
  completion_cells (startOfDay (Some now)) habit days [].

(** [filteredHabits]. *)
Definition filteredHabits (filter : Filter.t) (now : Z) (habits : list Habit.t)
    : list Habit.t :=
  match filter with
  | Filter.all => habits
  | Filter.today =>
      List.filter (fun habit => negb (hasCompletedToday now habit)) habits
  | Filter.reminders =>
      List.filter (fun habit => truthy (Habit.reminderTime habit)) habits
  end.

End View.

(** [requestNotifications], with what [Notification.requestPermission()]
    resolves to, or the exception it raises. *)
Definition requestNotifications (outcome : result NotificationPermission)
    (s : State.t) : State.t * list effect :=
  match State.notificationPermission s with
  | default =>
      match outcome with
      | Ok permission =>
          (State.mk (State.habits s) (State.loaded s) (State.name s)
                    (State.time s) (State.toast s) permission, [])
      | Throw _ => (s, [ConsoleError "Permission error"])
      end
  | _ => (s, [])
  end.


(** ** Runs of consecutive days *)

(** The number of days just before [next], each the day before the one
    that follows it, at the head of a list of days read backwards. *)
Fixpoint run_back (next : Z) (days_back : list Z) : Z :=
  match days_back with
  | [] => 0
  | d :: rest => if d =? next - 1 then 1 + run_back d rest else 0
  end.

(** The length of the run of consecutive days that ends a list of days. *)
Definition trailing_run (days : list Z) : Z :=
  match rev days with
  | [] => 0
  | d :: rest => 1 + run_back d rest
  end.

Fixpoint longest_back (days_back : list Z) : Z :=
  match days_back with
  | [] => 0
  | d :: rest => Z.max (1 + run_back d rest) (longest_back rest)
  end.

(** The length of the longest run of consecutive days in a list of days. *)
Definition longest_run (days : list Z) : Z := longest_back (rev days).

Definition last_day (days : list Z) : option Z :=
  match rev days with
  | [] => None
  | d :: _ => Some d
  end.

Section Sound.
Context {E : Engine}.

(** The entry of the day [n]. *)
Definition iso_midnight (n : Z) : string := toISOString_ms (midnight n).

(** A habit as the operations build it: one entry per completed day, local
    midnight of that day, in the order of completion; the last-completed
    date is the last entry; the streak is the run of consecutive days that
    ends the history, the longest streak the longest run in it. *)
Definition habit_sound (habit : Habit.t) : Prop :=
  let days := days_of (Habit.history habit) in
  Forall day_range days
  /\ NoDup days
  /\ Habit.history habit = map iso_midnight days
  /\ Habit.lastCompleted habit = option_map iso_midnight (last_day days)
  /\ Habit.streak habit = trailing_run days
  /\ Habit.longestStreak habit = longest_run days.

(** The clock of an event is in the years 1..9999, and the habits that it
    reads from storage are sound. *)
Definition event_sound (ev : event) : Prop :=
  match ev with
  | Mount (Some (Json parsed)) _ => Forall habit_sound parsed
  | AddHabit _ now | CompleteHabit _ now | Tick now _ _ => civil_range now
  | _ => True
  end.

End Sound.

(** The clock reading of an event. *)
Definition clock_of (ev : event) : option Z :=
  match ev with
  | AddHabit _ now | CompleteHabit _ now | Tick now _ _ => Some now
  | _ => None
  end.

(** The clock readings of a list of events do not go back, from [t] on. *)
Fixpoint chronological (t : Z) (evs : list event) : Prop :=
  match evs with
  | [] => True
  | ev :: evs' =>
      match clock_of ev with
      | Some now => t <= now /\ chronological now evs'
      | None => chronological t evs'
      end
  end.

Section Cells.
Context {E : Engine}.

(** The cell of the day [i] days before today. *)
Definition cell_before (today : Date) (habit : Habit.t) (i : nat) : Cell.t :=
  Cell.mk (addDays today (- Z.of_nat i))
    (existsb (fun iso => isSameDay (new_Date iso) (addDays today (- Z.of_nat i)))
             (Habit.history habit)).

End Cells.

(** A sequence of permission requests. *)
Fixpoint requests (outcomes : list (result NotificationPermission))
    (s : State.t) : State.t * list effect :=
  match outcomes with
  | [] => (s, [])
  | outcome :: outcomes' =>
      let '(s', fx) := requestNotifications outcome s in
      let '(s'', fx') := requests outcomes' s' in
      (s'', (fx ++ fx')%list)
  end.

(** The event reads no habit from storage. *)
Definition no_stored (ev : event) : Prop :=
  match ev with
  | Mount (Some (Json _)) _ => False
  | _ => True
  end.

Section Chrono.
Context {E : Engine}.

(** A sound habit whose days of completion increase along the history and
    are not after the day of [t]. *)
Definition habit_chrono (t : Z) (habit : Habit.t) : Prop :=
  habit_sound habit
  /\ StronglySorted Z.lt (days_of (Habit.history habit))
  /\ Forall (fun d => d <= localDay t) (days_of (Habit.history habit)).

End Chrono.

(** The last clock reading of a list of events, [t] when there is none. *)
Fixpoint last_clock (t : Z) (evs : list event) : Z :=
  match evs with
  | [] => t
  | ev :: evs' =>
      match clock_of ev with
      | Some now => last_clock now evs'
      | None => last_clock t evs'
      end
  end.

(** The ticks at the clock readings [times], each with the identifier
    drawn for its toast and with the moment at which React runs its
    updater. *)
Definition ticks (times : list (Z * (string * dispatch))) : list event :=
  map (fun p => Tick (fst p) (fst (snd p)) (snd (snd p))) times.

(** Clock readings that do not go back and are at most [gap] apart. *)
Fixpoint spaced {A : Type} (gap : Z) (times : list (Z * A)) : Prop :=
  match times with
  | p :: ((q :: _) as rest) => fst p <= fst q <= fst p + gap /\ spaced gap rest
  | _ => True
  end.

(** The fields of a habit that no operation changes. *)
Definition identity (habit : Habit.t)
    : string * string * option string * string :=
  (Habit.id habit, Habit.name habit, Habit.reminderTime habit,
   Habit.createdAt habit).

Definition is_mount (ev : event) : bool :=
  match ev with
  | Mount _ _ => true
  | _ => false
  end.

Definition is_tick (ev : event) : bool :=
  match ev with
  | Tick _ _ _ => true
  | _ => false
  end.

(** The native notifications among the effects. *)
Definition natives (fx : list effect) : list effect :=
  List.filter (fun e => match e with NewNotification _ _ _ => true | _ => false end)
              fx.

Section Due.
Context {E : Engine}.

(** The habit has the reminder time of target instant [target] on the day
    [n], is not marked for that day and has no completion on it. *)
Definition due (n target : Z) (habit : Habit.t) : Prop :=
  exists (reminderTime hh mm : string) (rest : list string) (hours minutes : Q),
    Habit.reminderTime habit = Some reminderTime
    /\ split ":" reminderTime = hh :: mm :: rest
    /\ StringToNumber hh = Finite hours
    /\ StringToNumber mm = Finite minutes
    /\ target = midnight n + truncate hours * msPerHour
                + truncate minutes * msPerMinute
    /\ Habit.reminderLastNotified habit <> Some (dayKey n)
    /\ ~ completed_on n habit.

End Due.

(** ** Further concrete data *)

(** Clock readings of 1 January 2024 (UTC): 08:59:40 and 09:00:00. *)
Definition jan1_085940 : Z := 1704099580000.
Definition jan1_0900 : Z := 1704099600000.

(** A run from the first render: a habit is added and completed on two
    days in a row, with a tick in between. *)
Definition two_day_run : list event :=
  [ Mount None granted;
    ChangeName " Read "; ChangeTime "09:00"; AddHabit "habit-1" jan1_0800;
    Tick jan1_090030 "toast-1" AtRender;
    CompleteHabit "habit-1" jan1_1000;
    CompleteHabit "habit-1" jan2_090030 ].

(** A store of two habits, loaded. *)
Definition two_habits : State.t :=
  State.mk [reading; walked] true "" "" None default.

(** The value of a computation that does not throw, [a] otherwise. *)
Definition value_or {A : Type} (r : result A) (a : A) : A :=
  match r with
  | Ok v => v
  | Throw _ => a
  end.

(** The store after "Read" is completed on 1 January at 08:00, and the
    completed habit. *)
Definition read_once_store : list Habit.t :=
  value_or (@completeHabit (refEngine 0) jan1_0800 "habit-1" [reading; walked])
           [].

Definition read_once : Habit.t := hd reading read_once_store.

(** The form filled in, over a store of one habit. *)
Definition typed_read : State.t :=
  State.mk [walked] true "  Read " "09:00" None default.

(** A loaded store whose permission is decided. *)
Definition granted_store : State.t :=
  State.mk [reading; walked] true "" "" None granted.

(** Events after the first render: a habit is added, a tick, a reset and
    a completion. *)
Definition busy_day : list event :=
  [ ChangeName "Run"; ChangeTime ""; AddHabit "habit-3" jan1_0800;
    Tick jan1_090030 "toast-1" AtRender;
    ResetHabit "habit-2";
    CompleteHabit "habit-1" jan1_1000 ].

(** Ticks and completions over two days. *)
Definition later_run : list event :=
  [ Tick jan1_090030 "toast-1" AtCall;
    CompleteHabit "habit-1" jan1_1000;
    CompleteHabit "habit-2" jan2_090030;
    Tick jan2_090030 "toast-2" AtRender ].

(** Three ticks of 1 January 2024, 30 seconds apart, around 09:00. *)
Definition morning_ticks : list (Z * (string * dispatch)) :=
  [ (jan1_085940, ("toast-1", AtRender)); (jan1_090010, ("toast-2", AtRender));
    (jan1_090040, ("toast-3", AtCall)) ].

(** A loaded store that holds an entry that is no date. *)
Definition unchecked_store : State.t :=
  State.mk [stored_walk; stored_read] true "" "" None default.

(** * Properties *)

(** ** Calendar arithmetic *)

Ltac unfold_ms := unfold msPerDay, msPerHour, msPerMinute, msPerSecond in *.

Lemma forall_from_spec (p : Z -> bool) (fuel : nat) :
  forall z, forall_from fuel z p = true ->
  forall k, z <= k < z + Z.of_nat fuel -> p k = true.
Proof.
  induction fuel as [|fuel IH]; intros z Hall k Hk.
  - simpl in Hk. lia.
  - simpl in Hall. apply andb_true_iff in Hall as [Hz Hrest].
    destruct (Z.eq_dec k z) as [->|Hne]; [exact Hz|].
    apply (IH (z + 1) Hrest). lia.
Qed.

Lemma doe_check_all (doe : Z) : 0 <= doe < daysPerEra -> doe_check doe = true.
Proof.
  intros Hdoe.
  apply (forall_from_spec doe_check (Z.to_nat daysPerEra) 0).
  - vm_compute. reflexivity.
  - rewrite Z2Nat.id by (unfold daysPerEra; lia). lia.
Qed.

Lemma is_leap_shift (y e : Z) : is_leap (y + 400 * e) = is_leap y.
Proof.
  unfold is_leap.
  replace ((y + 400 * e) mod 4) with (y mod 4)
    by (replace (y + 400 * e) with (y + (100 * e) * 4) by ring;
        now rewrite Z.mod_add by lia).
  replace ((y + 400 * e) mod 100) with (y mod 100)
    by (replace (y + 400 * e) with (y + (4 * e) * 100) by ring;
        now rewrite Z.mod_add by lia).
  replace ((y + 400 * e) mod 400) with (y mod 400)
    by (replace (y + 400 * e) with (y + e * 400) by ring;
        now rewrite Z.mod_add by lia).
  reflexivity.
Qed.

Lemma valid_civil_shift (y e m d : Z) :
  valid_civil (y + 400 * e) m d = valid_civil y m d.
Proof.
  unfold valid_civil, days_in_month. now rewrite is_leap_shift.
Qed.

Lemma days_from_civil_shift (y e m d : Z) :
  days_from_civil (y + 400 * e) m d = days_from_civil y m d + e * daysPerEra.
Proof.
  unfold days_from_civil.
  assert (Hy : (if m <=? 2 then y + 400 * e - 1 else y + 400 * e)
               = (if m <=? 2 then y - 1 else y) + e * 400)
    by (destruct (m <=? 2); ring).
  rewrite Hy. set (y' := if m <=? 2 then y - 1 else y).
  rewrite Z.div_add by lia. rewrite Z.mod_add by lia. ring.
Qed.

(** The calendar date of a day number is a date of the calendar, and
    [days_from_civil] gives the day number back. *)
Lemma civil_from_days_spec (z : Z) :
  let '(y, m, d) := civil_from_days z in
  valid_civil y m d = true /\ days_from_civil y m d = z.
Proof.
  unfold civil_from_days.
  assert (Hdoe : 0 <= (z + eraShift) mod daysPerEra < daysPerEra)
    by (apply Z.mod_pos_bound; unfold daysPerEra; lia).
  pose proof (doe_check_all _ Hdoe) as Hc. unfold doe_check in Hc.
  pose proof (Z.div_mod (z + eraShift) daysPerEra ltac:(discriminate)) as Hdm.
  destruct (civil_of_doe ((z + eraShift) mod daysPerEra)) as [[y m] d].
  do 5 (apply andb_true_iff in Hc as [Hc ?]).
  rewrite valid_civil_shift, days_from_civil_shift. split; [exact Hc|].
  match goal with H : (days_from_civil _ _ _ =? _) = true |- _ =>
    apply Z.eqb_eq in H; rewrite H end.
  unfold daysPerEra in *. lia.
Qed.

(** The year of a day number, bounded from the day number. *)
Lemma civil_from_days_year (z : Z) :
  let '(y, _, _) := civil_from_days z in
  (-719528 <= z -> 0 <= y) /\ (minDay <= z -> 1 <= y) /\ (z <= maxDay -> y <= 9999).
Proof.
  unfold civil_from_days.
  assert (Hdoe : 0 <= (z + eraShift) mod daysPerEra < daysPerEra)
    by (apply Z.mod_pos_bound; unfold daysPerEra; lia).
  pose proof (doe_check_all _ Hdoe) as Hc. unfold doe_check in Hc.
  pose proof (Z.div_mod (z + eraShift) daysPerEra ltac:(discriminate)) as Hdm.
  set (doe := (z + eraShift) mod daysPerEra) in *.
  set (era := (z + eraShift) / daysPerEra) in *.
  destruct (civil_of_doe doe) as [[y m] d].
  do 5 (apply andb_true_iff in Hc as [Hc ?]). clear Hc.
  unfold daysPerEra, eraShift, minDay, maxDay in *.
  destruct (doe <? 306) eqn:H306; destruct (doe <? 146037) eqn:H146037;
    repeat match goal with
           | H : (_ <? _) = true |- _ => apply Z.ltb_lt in H
           | H : (_ <? _) = false |- _ => apply Z.ltb_ge in H
           | H : (_ <=? _) = true |- _ => apply Z.leb_le in H
           | H : (_ =? _) = true |- _ => apply Z.eqb_eq in H
           end;
    repeat split; intros; lia.
Qed.

(** ** Decimal fields *)

Lemma digit_val_digit_char (d : Z) : 0 <= d <= 9 -> digit_val (digit_char d) = Some d.
Proof.
  intros Hd.
  assert (Hcases : d = 0 \/ d = 1 \/ d = 2 \/ d = 3 \/ d = 4 \/ d = 5 \/ d = 6
                   \/ d = 7 \/ d = 8 \/ d = 9) by lia.
  repeat (destruct Hcases as [-> | Hcases]; [reflexivity|]). now subst.
Qed.

Lemma read_digits_fixed (k : nat) :
  forall v acc rest, 0 <= v < 10 ^ Z.of_nat k ->
  read_digits k acc (fixed k v ++ rest) = Some (acc * 10 ^ Z.of_nat k + v, rest).
Proof.
  induction k as [|k IH]; intros v acc rest Hv.
  - simpl in *. f_equal. f_equal. lia.
  - rewrite Nat2Z.inj_succ, Z.pow_succ_r in * by lia.
    assert (Hp : 0 < 10 ^ Z.of_nat k) by (apply Z.pow_pos_nonneg; lia).
    set (p := 10 ^ Z.of_nat k) in *.
    pose proof (Z.div_mod v p ltac:(lia)) as Hdm.
    pose proof (Z.mod_pos_bound v p Hp) as Hm.
    assert (Hq : 0 <= v / p <= 9).
    { split; [apply Z.div_pos; lia|].
      assert (v / p < 10); [|lia]. apply Z.div_lt_upper_bound; lia. }
    cbn [fixed read_digits append]. fold p.
    rewrite digit_val_digit_char by exact Hq.
    rewrite IH by exact Hm. f_equal. f_equal. fold p. lia.
Qed.

Lemma pad_fixed (width : nat) (bound v : Z) :
  forall_from (Z.to_nat bound) 0 (pad_check width) = true ->
  0 <= v < bound ->
  pad v width = fixed width v /\ addLeadingZeros v width = fixed width v.
Proof.
  intros Hall Hv.
  pose proof (forall_from_spec _ _ _ Hall v) as Hc.
  rewrite Z2Nat.id in Hc by lia. specialize (Hc ltac:(lia)).
  unfold pad_check in Hc. apply andb_true_iff in Hc as [H1 H2].
  split; now apply String.eqb_eq.
Qed.

Lemma pad2 (v : Z) : 0 <= v < 100 ->
  pad v 2 = fixed 2 v /\ addLeadingZeros v 2 = fixed 2 v.
Proof. apply pad_fixed. vm_compute. reflexivity. Qed.

Lemma pad3 (v : Z) : 0 <= v < 1000 ->
  pad v 3 = fixed 3 v /\ addLeadingZeros v 3 = fixed 3 v.
Proof. apply pad_fixed. vm_compute. reflexivity. Qed.

Lemma pad4 (v : Z) : 0 <= v < 10000 ->
  pad v 4 = fixed 4 v /\ addLeadingZeros v 4 = fixed 4 v.
Proof. apply pad_fixed. vm_compute. reflexivity. Qed.

(** ** The reference engine satisfies the laws *)

Lemma append_assoc (a b c : string) : (a ++ b) ++ c = a ++ (b ++ c).
Proof. induction a as [|x a IH]; simpl; [reflexivity | now rewrite IH]. Qed.

Lemma read_digits_fixed0 (k : nat) (v : Z) (rest : string) :
  0 <= v < 10 ^ Z.of_nat k ->
  read_digits k 0 (fixed k v ++ rest) = Some (v, rest).
Proof. intros Hv. rewrite read_digits_fixed by exact Hv. f_equal. Qed.

Lemma expect_cons (c : ascii) (s : string) : expect c (String c s) = Some s.
Proof. unfold expect. now rewrite Ascii.eqb_refl. Qed.

Lemma valid_civil_bounds (y m d : Z) :
  valid_civil y m d = true -> 1 <= m <= 12 /\ 1 <= d <= 31.
Proof.
  unfold valid_civil, days_in_month. intros H.
  repeat (apply andb_true_iff in H as [H ?]).
  repeat match goal with
         | H : (_ <=? _) = true |- _ => apply Z.leb_le in H
         end.
  destruct (m =? 2); [destruct (is_leap y)|
    destruct ((m =? 4) || (m =? 6) || (m =? 9) || (m =? 11))]; lia.
Qed.

Lemma read_date_fixed (y m d : Z) (rest : string) :
  0 <= y < 10000 -> 0 <= m < 100 -> 0 <= d < 100 ->
  read_date (fixed 4 y ++ String "-" (fixed 2 m ++ String "-" (fixed 2 d ++ rest)))
  = Some (y, m, d, rest).
Proof.
  intros Hy Hm Hd. unfold read_date.
  rewrite read_digits_fixed0 by (simpl; lia). cbn [obind].
  rewrite expect_cons, read_digits_fixed0 by (simpl; lia). cbn [obind].
  rewrite expect_cons, read_digits_fixed0 by (simpl; lia). reflexivity.
Qed.

Lemma read_time_fixed (h m s ms : Z) :
  0 <= h <= 23 -> 0 <= m <= 59 -> 0 <= s <= 59 -> 0 <= ms < 1000 ->
  read_time (fixed 2 h ++ String ":" (fixed 2 m ++ String ":" (fixed 2 s
             ++ String "." (fixed 3 ms ++ "Z"))))
  = Some (h * msPerHour + m * msPerMinute + s * msPerSecond + ms, Offset 0).
Proof.
  intros Hh Hm Hs Hms. unfold read_time, read_seconds.
  rewrite read_digits_fixed0 by (simpl; lia). cbn [obind].
  rewrite expect_cons. cbn [obind].
  rewrite read_digits_fixed0 by (simpl; lia). cbn [obind].
  rewrite expect_cons, read_digits_fixed0 by (simpl; lia). cbn [obind].
  rewrite expect_cons, read_digits_fixed0 by (simpl; lia). cbn [obind].
  change (read_zone "Z") with (Some (Offset 0)). cbn [obind].
  unfold valid_time.
  replace (m <=? 59) with true by (symmetry; apply Z.leb_le; lia).
  replace (s <=? 59) with true by (symmetry; apply Z.leb_le; lia).
  replace (h <=? 23) with true by (symmetry; apply Z.leb_le; lia).
  reflexivity.
Qed.

Lemma time_fields (t : Z) :
  let ms := TimeWithinDay t in
  0 <= ms / msPerHour <= 23 /\ 0 <= (ms / msPerMinute) mod 60 <= 59
  /\ 0 <= (ms / msPerSecond) mod 60 <= 59 /\ 0 <= ms mod 1000 < 1000
  /\ ms / msPerHour * msPerHour + (ms / msPerMinute) mod 60 * msPerMinute
     + (ms / msPerSecond) mod 60 * msPerSecond + ms mod 1000 = ms.
Proof.
  unfold TimeWithinDay. unfold_ms.
  pose proof (Z.mod_pos_bound t 86400000 ltac:(lia)) as Hms.
  set (ms := t mod 86400000) in *. clearbody ms.
  Z.to_euclidean_division_equations. lia.
Qed.

Lemma ref_parse_toISOString (offset t : Z) :
  iso_range t -> ref_Date_parse offset (toISOString_ms t) = Some t.
Proof.
  intros Ht. unfold toISOString_ms, ref_Date_parse.
  pose proof (civil_from_days_spec (Day t)) as Hspec.
  pose proof (civil_from_days_year (Day t)) as Hyear.
  destruct (civil_from_days (Day t)) as [[y m] d].
  destruct Hspec as [Hvalid Hday]. destruct Hyear as (Hy0 & _ & Hy1).
  pose proof (valid_civil_bounds _ _ _ Hvalid) as [Hm Hd].
  assert (HDay : -719528 <= Day t <= maxDay).
  { unfold Day, iso_range, maxDay in *. unfold_ms.
    Z.to_euclidean_division_equations. lia. }
  specialize (Hy0 (proj1 HDay)). specialize (Hy1 (proj2 HDay)).
  pose proof (time_fields t) as (Hh & Hmi & Hs & Hms & Hsum).
  unfold isoYear.
  replace ((0 <=? y) && (y <=? 9999)) with true
    by (symmetry; apply andb_true_iff; split; apply Z.leb_le; lia).
  rewrite (proj1 (pad4 y ltac:(lia))), (proj1 (pad2 m ltac:(lia))),
    (proj1 (pad2 d ltac:(lia))), (proj1 (pad2 (TimeWithinDay t / msPerHour) ltac:(lia))),
    (proj1 (pad2 ((TimeWithinDay t / msPerMinute) mod 60) ltac:(lia))),
    (proj1 (pad2 ((TimeWithinDay t / msPerSecond) mod 60) ltac:(lia))),
    (proj1 (pad3 (TimeWithinDay t mod 1000) ltac:(lia))).
  cbn [append].
  rewrite read_date_fixed by lia. cbn [obind]. rewrite Hvalid.
  rewrite Ascii.eqb_refl.
  rewrite read_time_fixed by assumption. cbn [obind].
  rewrite Hday, Hsum. f_equal. unfold Day, TimeWithinDay. unfold_ms.
  Z.to_euclidean_division_equations. lia.
Qed.

Lemma ref_parse_local (E : Engine) (t : Z) :
  civil_range t ->
  ref_Date_parse tzo (format_ms t ++ "T00:00:00") = Some (startOfDay_ms t).
Proof.
  unfold civil_range, localDay. intros Ht.
  unfold format_ms, ref_Date_parse, startOfDay_ms.
  pose proof (civil_from_days_spec (Day (t + tzo))) as Hspec.
  pose proof (civil_from_days_year (Day (t + tzo))) as Hyear.
  destruct (civil_from_days (Day (t + tzo))) as [[y m] d].
  destruct Hspec as [Hvalid Hday]. destruct Hyear as (_ & Hy0 & Hy1).
  pose proof (valid_civil_bounds _ _ _ Hvalid) as [Hm Hd].
  specialize (Hy0 (proj1 Ht)). specialize (Hy1 ltac:(lia)).
  replace (0 <? y) with true by (symmetry; apply Z.ltb_lt; lia).
  rewrite (proj2 (pad4 y ltac:(lia))), (proj2 (pad2 m ltac:(lia))),
    (proj2 (pad2 d ltac:(lia))).
  rewrite !append_assoc. cbn [append].
  rewrite read_date_fixed by lia. cbn [obind]. rewrite Hvalid.
  rewrite Ascii.eqb_refl.
  change (read_time "00:00:00") with (Some (0, LocalZone)). cbn [obind].
  rewrite Hday. f_equal. lia.
Qed.

Lemma refEngine_laws (offset : Z) :
  - msPerDay <= offset <= msPerDay -> EngineLaws (refEngine offset).
Proof.
  intros Hoff. constructor.
  - exact Hoff.
  - intros t Ht. apply ref_parse_toISOString. exact Ht.
  - intros t Ht. apply (ref_parse_local (refEngine offset) t Ht).
  - reflexivity.
Qed.

(** ** Traversals that may throw *)

Lemma mapM_ok_map {A B : Type} (f : A -> result B) (g : A -> B) (l : list A) :
  (forall a, In a l -> f a = Ok (g a)) -> mapM f l = Ok (map g l).
Proof.
  induction l as [|a l IH]; intros Hf; [reflexivity|].
  simpl. rewrite (Hf a) by now left. simpl.
  rewrite IH by (intros; apply Hf; now right). reflexivity.
Qed.

Lemma mapM_throws {A B : Type} (f : A -> result B) (l : list A) (a : A) (e : exn) :
  In a l -> f a = Throw e -> exists e', mapM f l = Throw e'.
Proof.
  induction l as [|b l IH]; intros Hin Ha; [contradiction|].
  simpl. destruct Hin as [->|Hin].
  - rewrite Ha. now exists e.
  - destruct (f b); simpl; [|eauto].
    destruct (IH Hin Ha) as [e' ->]. simpl. eauto.
Qed.

Lemma mapM_Forall2 {A B : Type} (f : A -> result B) (l : list A) :
  forall l', mapM f l = Ok l' -> Forall2 (fun a b => f a = Ok b) l l'.
Proof.
  induction l as [|a l IH]; simpl; intros l' H.
  - injection H as <-. constructor.
  - destruct (f a) eqn:Ha; simpl in H; [|discriminate].
    destruct (mapM f l) eqn:Hl; simpl in H; [|discriminate].
    injection H as <-. constructor; auto.
Qed.

Lemma Forall2_nth_error {A B : Type} (R : A -> B -> Prop) (l : list A) (l' : list B) :
  Forall2 R l l' ->
  forall i a, nth_error l i = Some a -> exists b, nth_error l' i = Some b /\ R a b.
Proof.
  induction 1 as [|x y l l' Hxy _ IH]; intros [|i] a Hi; simpl in *;
    try discriminate.
  - injection Hi as <-. eauto.
  - eauto.
Qed.

(** ** Days *)

Section Days.
Context {E : Engine}.

Lemma localDay_midnight (n : Z) : localDay (midnight n) = n.
Proof.
  unfold localDay, midnight, Day.
  replace (n * msPerDay - tzo + tzo) with (n * msPerDay) by ring.
  apply Z.div_mul. discriminate.
Qed.

Lemma startOfDay_ms_midnight (t : Z) : startOfDay_ms t = midnight (localDay t).
Proof. reflexivity. Qed.

Lemma localDay_startOfDay (t : Z) : localDay (startOfDay_ms t) = localDay t.
Proof. rewrite startOfDay_ms_midnight. apply localDay_midnight. Qed.

Lemma midnight_inj (a b : Z) : midnight a = midnight b -> a = b.
Proof. unfold midnight. unfold_ms. lia. Qed.

Lemma isSameDay_Some (a b : Z) :
  isSameDay (Some a) (Some b) = (localDay a =? localDay b).
Proof.
  unfold isSameDay. cbn [startOfDay option_map].
  rewrite !startOfDay_ms_midnight.
  destruct (Z.eqb_spec (localDay a) (localDay b)) as [->|Hne].
  - apply Z.eqb_refl.
  - apply Z.eqb_neq. intros H. apply Hne. now apply midnight_inj.
Qed.

Lemma differenceInCalendarDays_Some (a b : Z) :
  differenceInCalendarDays (Some a) (Some b) = Some (localDay a - localDay b).
Proof.
  unfold differenceInCalendarDays. cbn [startOfDay option_map].
  rewrite !startOfDay_ms_midnight. unfold midnight, Math_round_div. f_equal.
  unfold_ms. Z.to_euclidean_division_equations. lia.
Qed.

Lemma format_ms_localDay (a b : Z) :
  localDay a = localDay b -> format_ms a = format_ms b.
Proof. unfold format_ms, localDay. now intros ->. Qed.

Lemma existsb_sameDay (history : list string) (t : Z) :
  existsb (fun iso => isSameDay (new_Date iso) (Some t)) history = true
  <-> In (localDay t) (days_of history).
Proof.
  unfold days_of. rewrite existsb_exists, in_flat_map. split.
  - intros (iso & Hin & Hsame). exists iso. split; [exact Hin|].
    destruct (new_Date iso) as [a|]; [|discriminate].
    rewrite isSameDay_Some in Hsame. apply Z.eqb_eq in Hsame. now left.
  - intros (iso & Hin & Hday). exists iso. split; [exact Hin|].
    destruct (new_Date iso) as [a|]; [|contradiction].
    destruct Hday as [Hday|[]]. rewrite isSameDay_Some. now apply Z.eqb_eq.
Qed.

Lemma hasCompletedToday_iff (now : Z) (habit : Habit.t) :
  hasCompletedToday now habit = true <-> completed_on (localDay now) habit.
Proof. apply existsb_sameDay. Qed.

Lemma days_of_app (h1 h2 : list string) :
  days_of (h1 ++ h2) = (days_of h1 ++ days_of h2)%list.
Proof. unfold days_of. apply flat_map_app. Qed.

End Days.

(** ** First occurrences *)

Lemma first_days_In (days : list Z) :
  forall seen n, In n (first_days seen days) <-> In n days /\ ~ In n seen.
Proof.
  induction days as [|d days IH]; intros seen n; simpl.
  - tauto.
  - destruct (existsb (Z.eqb d) seen) eqn:Hd.
    + rewrite IH. apply existsb_exists in Hd as (x & Hx & Hdx).
      apply Z.eqb_eq in Hdx. subst x. split; [tauto|].
      intros [[->|H] Hn]; tauto.
    + assert (Hnot : ~ In d seen).
      { intros Hin.
        assert (Ht : existsb (Z.eqb d) seen = true)
          by (apply existsb_exists; exists d; split;
              [exact Hin | apply Z.eqb_refl]).
        congruence. }
      simpl. rewrite IH. simpl. split.
      * intros [->|[H1 H2]]; tauto.
      * intros [[->|H] Hn]; [now left|].
        destruct (Z.eq_dec d n); [now left | right; tauto].
Qed.

Lemma first_days_NoDup (days : list Z) :
  forall seen, NoDup (first_days seen days).
Proof.
  induction days as [|d days IH]; intros seen; simpl; [constructor|].
  destruct (existsb (Z.eqb d) seen); [apply IH|].
  constructor; [|apply IH]. rewrite first_days_In. simpl. tauto.
Qed.

Lemma first_days_length (days : list Z) :
  forall seen, (List.length (first_days seen days) <= List.length days)%nat.
Proof.
  induction days as [|d days IH]; intros seen; simpl; [lia|].
  destruct (existsb (Z.eqb d) seen); simpl.
  - specialize (IH seen). lia.
  - specialize (IH (d :: seen)). lia.
Qed.

Lemma existsb_eqb_false (n : Z) (seen : list Z) :
  ~ In n seen -> existsb (Z.eqb n) seen = false.
Proof.
  intros Hn. apply not_true_iff_false. intros H.
  apply existsb_exists in H as (x & Hx & Hnx). apply Z.eqb_eq in Hnx. now subst.
Qed.

Lemma first_days_snoc (days : list Z) (n : Z) :
  forall seen, ~ In n days -> ~ In n seen ->
  first_days seen (days ++ [n]) = (first_days seen days ++ [n])%list.
Proof.
  induction days as [|d days IH]; intros seen Hdays Hseen; simpl.
  - now rewrite existsb_eqb_false.
  - simpl in Hdays. destruct (existsb (Z.eqb d) seen).
    + apply IH; tauto.
    + simpl. f_equal. apply IH; [tauto|]. simpl. intros [H|H]; [|tauto].
      apply Hdays. now left.
Qed.

Lemma first_days_NoDup_id (days : list Z) :
  forall seen, NoDup days -> (forall n, In n days -> ~ In n seen) ->
  first_days seen days = days.
Proof.
  induction days as [|d days IH]; intros seen Hnd Hseen; simpl; [reflexivity|].
  inversion Hnd as [|? ? Hd Hnd']; subst.
  rewrite existsb_eqb_false by (apply Hseen; now left).
  f_equal. apply IH; [exact Hnd'|].
  intros n Hn [<-|Hin]; [contradiction|]. apply (Hseen n); [now right|exact Hin].
Qed.

(** ** History normalisation *)

Section Normalisation.
Context {E : Engine} {L : EngineLaws E}.

Lemma iso_range_midnight (n : Z) : day_range n -> iso_range (midnight n).
Proof.
  pose proof tzo_range as Htz.
  unfold day_range, iso_range, midnight, minDay, maxDay. unfold_ms. lia.
Qed.

Lemma civil_range_midnight (n : Z) : day_range n -> civil_range (midnight n).
Proof. unfold civil_range. now rewrite localDay_midnight. Qed.

Lemma format_ms_dayKey (t : Z) : format_ms t = dayKey (localDay t).
Proof. apply format_ms_localDay. now rewrite localDay_midnight. Qed.

Lemma parse_dayKey (n : Z) :
  day_range n -> new_Date (dayKey n ++ "T00:00:00") = Some (midnight n).
Proof.
  intros Hn. unfold new_Date, dayKey.
  rewrite parse_local_midnight by now apply civil_range_midnight.
  now rewrite startOfDay_ms_midnight, localDay_midnight.
Qed.

Lemma dayKey_inj (a b : Z) :
  day_range a -> day_range b -> dayKey a = dayKey b -> a = b.
Proof.
  intros Ha Hb Hkey. apply midnight_inj.
  pose proof (parse_dayKey a Ha) as H1. pose proof (parse_dayKey b Hb) as H2.
  rewrite Hkey in H1. congruence.
Qed.

Lemma parse_midnight_iso (n : Z) :
  day_range n -> new_Date (toISOString_ms (midnight n)) = Some (midnight n).
Proof. intros Hn. apply parse_toISOString. now apply iso_range_midnight. Qed.

Lemma entry_ok_spec (iso : string) :
  entry_ok iso = true <-> exists t, new_Date iso = Some t /\ day_range (localDay t).
Proof.
  unfold entry_ok, day_range. destruct (new_Date iso) as [t|].
  - rewrite andb_true_iff, Z.leb_le, Z.ltb_lt. split.
    + intros H. now exists t.
    + intros (t' & Ht' & H). injection Ht' as ->. exact H.
  - split; [discriminate|]. intros (t & Ht & _). discriminate.
Qed.

Lemma history_ok_days (history : list string) :
  history_ok history = true -> Forall day_range (days_of history).
Proof.
  unfold history_ok, days_of. rewrite forallb_forall, Forall_forall.
  intros Hok n Hn. apply in_flat_map in Hn as (iso & Hin & Hn).
  apply Hok, entry_ok_spec in Hin as (t & Ht & Hr).
  rewrite Ht in Hn. destruct Hn as [<-|[]]. exact Hr.
Qed.

Lemma history_ok_keys (history : list string) :
  history_ok history = true ->
  mapM (fun iso => format (startOfDay (new_Date iso))) history
  = Ok (map dayKey (days_of history)).
Proof.
  unfold history_ok. induction history as [|iso history IH]; intros Hok;
    [reflexivity|].
  cbn [forallb] in Hok. apply andb_true_iff in Hok as [Hiso Hok].
  apply entry_ok_spec in Hiso as (t & Ht & _).
  cbn [mapM]. rewrite Ht, (IH Hok). cbn [startOfDay option_map format bind].
  unfold days_of. cbn [flat_map]. rewrite Ht. cbn [map app].
  rewrite format_ms_dayKey, localDay_startOfDay. reflexivity.
Qed.

Lemma filter_seen_keys (days : list Z) :
  forall seen, Forall day_range days -> Forall day_range seen ->
  filter_seen (map dayKey seen) (map dayKey days)
  = map dayKey (first_days seen days).
Proof.
  induction days as [|d days IH]; intros seen Hdays Hseen; [reflexivity|].
  inversion Hdays as [|? ? Hd Hdays']; subst. cbn [map filter_seen first_days].
  assert (Hex : existsb (String.eqb (dayKey d)) (map dayKey seen)
                = existsb (Z.eqb d) seen).
  { clear IH. induction seen as [|x seen IHs]; [reflexivity|].
    inversion Hseen as [|? ? Hx Hseen']; subst. cbn [map existsb].
    rewrite (IHs Hseen'). f_equal.
    destruct (Z.eqb_spec d x) as [->|Hne]; [apply String.eqb_refl|].
    apply String.eqb_neq. intros Hk. apply Hne. now apply dayKey_inj. }
  rewrite Hex. destruct (existsb (Z.eqb d) seen).
  - now apply IH.
  - cbn [map]. f_equal. apply (IH (d :: seen)); [exact Hdays'|now constructor].
Qed.

Lemma keys_to_iso (days : list Z) :
  Forall day_range days ->
  mapM (fun key => toISOString (new_Date (key ++ "T00:00:00"))) (map dayKey days)
  = Ok (map (fun n => toISOString_ms (midnight n)) days).
Proof.
  induction 1 as [|n days Hn _ IH]; [reflexivity|].
  cbn [map mapM]. rewrite parse_dayKey by exact Hn. rewrite IH. reflexivity.
Qed.

Lemma first_days_range (days : list Z) :
  forall seen, Forall day_range days -> Forall day_range (first_days seen days).
Proof.
  intros seen Hdays. apply Forall_forall. intros n Hn.
  apply first_days_In in Hn as [Hn _].
  now apply (proj1 (Forall_forall _ _) Hdays).
Qed.

(** On a history of valid dates, [uniqueHistory] computes the history of the
    specification. *)
Lemma uniqueHistory_ok (history : list string) :
  history_ok history = true -> uniqueHistory history = Ok (spec_history history).
Proof.
  intros Hok. unfold uniqueHistory, spec_history.
  rewrite history_ok_keys by exact Hok. cbn [bind].
  pose proof (history_ok_days _ Hok) as Hdays.
  change (@nil string) with (map dayKey []).
  rewrite (filter_seen_keys _ [] Hdays (Forall_nil _)).
  apply keys_to_iso. now apply first_days_range.
Qed.

(** An entry that is no valid date makes [uniqueHistory] throw. *)
Lemma uniqueHistory_invalid (history : list string) (iso : string) :
  In iso history -> new_Date iso = None ->
  exists e, uniqueHistory history = Throw e.
Proof.
  intros Hin Hiso. unfold uniqueHistory.
  destruct (mapM_throws (fun iso => format (startOfDay (new_Date iso)))
              history iso RangeError Hin) as [e He].
  - now rewrite Hiso.
  - exists e. now rewrite He.
Qed.

Lemma days_of_midnights (days : list Z) :
  Forall day_range days ->
  days_of (map (fun n => toISOString_ms (midnight n)) days) = days.
Proof.
  induction 1 as [|n days Hn _ IH]; [reflexivity|].
  unfold days_of in *. cbn [map flat_map].
  rewrite parse_midnight_iso by exact Hn. rewrite IH, localDay_midnight.
  reflexivity.
Qed.

Lemma history_ok_midnights (days : list Z) :
  Forall day_range days ->
  history_ok (map (fun n => toISOString_ms (midnight n)) days) = true.
Proof.
  unfold history_ok. induction 1 as [|n days Hn _ IH]; [reflexivity|].
  cbn [map forallb]. rewrite IH, andb_true_r.
  apply entry_ok_spec. exists (midnight n).
  split; [now apply parse_midnight_iso | now rewrite localDay_midnight].
Qed.

Lemma days_of_spec_history (history : list string) :
  history_ok history = true ->
  days_of (spec_history history) = first_days [] (days_of history).
Proof.
  intros Hok. apply days_of_midnights, first_days_range.
  now apply history_ok_days.
Qed.

Lemma history_ok_spec_history (history : list string) :
  history_ok history = true -> history_ok (spec_history history) = true.
Proof.
  intros Hok. apply history_ok_midnights, first_days_range.
  now apply history_ok_days.
Qed.

Lemma days_of_length (history : list string) :
  (List.length (days_of history) <= List.length history)%nat.
Proof.
  unfold days_of. induction history as [|iso history IH]; simpl; [lia|].
  destruct (new_Date iso); simpl; lia.
Qed.

Lemma history_ok_days_length (history : list string) :
  history_ok history = true ->
  List.length (days_of history) = List.length history.
Proof.
  unfold history_ok, days_of.
  induction history as [|iso history IH]; simpl; [reflexivity|].
  intros Hok. apply andb_true_iff in Hok as [Hiso Hok].
  apply entry_ok_spec in Hiso as (t & Ht & _). rewrite Ht. simpl.
  now rewrite IH.
Qed.

(** Today's entry, as [completeHabit] writes it. *)
Lemma entry_ok_today (now : Z) :
  civil_range now -> entry_ok (toISOString_ms (startOfDay_ms now)) = true.
Proof.
  intros Hnow. apply entry_ok_spec. exists (startOfDay_ms now).
  rewrite startOfDay_ms_midnight. split.
  - now apply parse_midnight_iso.
  - now rewrite localDay_midnight.
Qed.

Lemma history_ok_app (h1 h2 : list string) :
  history_ok (h1 ++ h2) = history_ok h1 && history_ok h2.
Proof. unfold history_ok. apply forallb_app. Qed.

End Normalisation.

(** ** Complete *)

Section Complete.
Context {E : Engine} {L : EngineLaws E}.

Lemma completeHabit_mapM (now : Z) (habitId : string) (current : list Habit.t) :
  completeHabit now habitId current
  = mapM (complete (startOfDay (Some now)) (todayIso now) habitId) current.
Proof.
  unfold completeHabit, todayIso.
  cbn [startOfDay option_map toISOString bind]. reflexivity.
Qed.

Lemma complete_other (today : Date) (iso habitId : string) (habit : Habit.t) :
  Habit.id habit <> habitId -> complete today iso habitId habit = Ok habit.
Proof.
  intros Hne. unfold complete.
  now rewrite (proj2 (String.eqb_neq _ _) Hne).
Qed.

Lemma done_today_iff (now : Z) (habit : Habit.t) :
  existsb (fun iso => isSameDay (new_Date iso) (startOfDay (Some now)))
          (Habit.history habit) = true
  <-> completed_on (localDay now) habit.
Proof.
  cbn [startOfDay option_map]. unfold completed_on.
  rewrite existsb_sameDay, localDay_startOfDay. reflexivity.
Qed.

Lemma complete_done (now : Z) (iso habitId : string) (habit : Habit.t) :
  completed_on (localDay now) habit ->
  complete (startOfDay (Some now)) iso habitId habit = Ok habit.
Proof.
  intros Hdone. unfold complete.
  destruct (negb (Habit.id habit =? habitId)%string); [reflexivity|].
  now rewrite (proj2 (done_today_iff now habit) Hdone).
Qed.

(** [continuing], computed by [complete], says that the last completion
    is on the day before today. *)
Lemma continuing_follows (now : Z) (habit : Habit.t) :
  match
    option_map (differenceInCalendarDays (startOfDay (Some now)))
      (if truthy (Habit.lastCompleted habit)
       then Some (startOfDay
                    (new_Date (match Habit.lastCompleted habit with
                               | Some s => s
                               | None => EmptyString
                               end)))
       else None)
  with
  | Some (Some 1) => true
  | _ => false
  end = follows_previous_day now habit.
Proof.
  unfold follows_previous_day, truthy.
  destruct (Habit.lastCompleted habit) as [s|]; [|reflexivity].
  destruct (String.eqb_spec s "") as [->|Hs]; cbn [negb option_map].
  - unfold new_Date. now rewrite parse_empty.
  - destruct (new_Date s) as [t|]; [|reflexivity].
    cbn [startOfDay option_map]. rewrite differenceInCalendarDays_Some.
    rewrite !localDay_startOfDay.
    destruct (Z.eqb_spec (localDay t) (localDay now - 1)) as [Heq|Hne].
    + replace (localDay now - localDay t) with 1 by lia. reflexivity.
    + destruct (localDay now - localDay t) as [|[p|p|]|p] eqn:Hd;
        try reflexivity. lia.
Qed.

(** The three outcomes of [complete] on the targeted habit. *)
Lemma complete_at_cases (now : Z) (habit : Habit.t) :
  (completed_on (localDay now) habit /\ complete_at now habit = Ok habit)
  \/ (~ completed_on (localDay now) habit
      /\ exists newHistory,
           uniqueHistory (Habit.history habit ++ [todayIso now])%list
           = Ok newHistory
           /\ complete_at now habit = Ok (completed now newHistory habit))
  \/ (~ completed_on (localDay now) habit
      /\ exists e,
           uniqueHistory (Habit.history habit ++ [todayIso now])%list = Throw e
           /\ complete_at now habit = Throw e).
Proof.
  unfold complete_at, complete. rewrite String.eqb_refl. cbn [negb].
  pose proof (done_today_iff now habit) as Hdone.
  destruct (existsb _ (Habit.history habit)).
  - left. split; [now apply Hdone | reflexivity].
  - right. assert (Hnot : ~ completed_on (localDay now) habit)
      by (intros H; apply Hdone in H; discriminate).
    destruct (uniqueHistory (Habit.history habit ++ [todayIso now])%list)
      as [newHistory|e] eqn:Hu; cbn [bind].
    + left. split; [exact Hnot|]. exists newHistory. split; [reflexivity|].
      rewrite continuing_follows. reflexivity.
    + right. split; [exact Hnot|]. exists e. now split.
Qed.

Lemma parse_todayIso (now : Z) :
  civil_range now -> new_Date (todayIso now) = Some (startOfDay_ms now).
Proof.
  intros Hnow. unfold todayIso. rewrite startOfDay_ms_midnight.
  now apply parse_midnight_iso.
Qed.

(** Complete on a habit of valid history that has no completion today. *)
Lemma complete_at_ok (now : Z) (habit : Habit.t) :
  civil_range now -> history_ok (Habit.history habit) = true ->
  ~ completed_on (localDay now) habit ->
  complete_at now habit
  = Ok (completed now (spec_history (Habit.history habit ++ [todayIso now])%list)
                  habit).
Proof.
  intros Hnow Hok Hnot.
  assert (Hok' : history_ok (Habit.history habit ++ [todayIso now])%list = true).
  { rewrite history_ok_app, Hok. unfold history_ok. cbn [forallb andb].
    unfold todayIso. now rewrite entry_ok_today. }
  destruct (complete_at_cases now habit)
    as [[Hdone _]|[(_ & h & Hu & Hc)|(_ & e & Hu & _)]].
  - contradiction.
  - rewrite uniqueHistory_ok in Hu by exact Hok'. injection Hu as <-. exact Hc.
  - rewrite uniqueHistory_ok in Hu by exact Hok'. discriminate.
Qed.

Lemma days_of_completed (now : Z) (history : list string) :
  civil_range now -> history_ok history = true ->
  ~ In (localDay now) (days_of history) ->
  days_of (spec_history (history ++ [todayIso now])%list)
  = (first_days [] (days_of history) ++ [localDay now])%list.
Proof.
  intros Hnow Hok Hnot.
  assert (Hok' : history_ok (history ++ [todayIso now])%list = true).
  { rewrite history_ok_app, Hok. unfold history_ok. cbn [forallb andb].
    unfold todayIso. now rewrite entry_ok_today. }
  rewrite days_of_spec_history by exact Hok'.
  rewrite days_of_app. unfold days_of at 2. cbn [flat_map].
  rewrite parse_todayIso by exact Hnow. cbn [app].
  rewrite localDay_startOfDay. apply first_days_snoc; [exact Hnot|tauto].
Qed.

Lemma completed_on_completed (now n : Z) (habit : Habit.t) :
  civil_range now -> history_ok (Habit.history habit) = true ->
  ~ completed_on (localDay now) habit ->
  completed_on n
    (completed now (spec_history (Habit.history habit ++ [todayIso now])%list)
               habit)
  <-> completed_on n habit \/ n = localDay now.
Proof.
  intros Hnow Hok Hnot. unfold completed_on, completed. cbn [Habit.history].
  rewrite days_of_completed by assumption.
  rewrite in_app_iff, first_days_In. simpl. intuition.
Qed.

Lemma follows_completed (now later : Z) (newHistory : list string)
    (habit : Habit.t) :
  civil_range now ->
  follows_previous_day later (completed now newHistory habit)
  = (localDay now =? localDay later - 1).
Proof.
  intros Hnow. unfold follows_previous_day, completed.
  cbn [Habit.lastCompleted].
  rewrite parse_todayIso by exact Hnow. now rewrite localDay_startOfDay.
Qed.

Lemma history_ok_completed (now : Z) (history : list string) :
  civil_range now -> history_ok history = true ->
  history_ok (spec_history (history ++ [todayIso now])%list) = true.
Proof.
  intros Hnow Hok. apply history_ok_spec_history.
  rewrite history_ok_app, Hok. unfold history_ok. cbn [forallb andb].
  unfold todayIso. now rewrite entry_ok_today.
Qed.

End Complete.

Section CompleteClaims.
Context {E : Engine} {L : EngineLaws E}.

Lemma complete_at_streak (now : Z) (habit habit' : Habit.t) :
  ~ completed_on (localDay now) habit ->
  complete_at now habit = Ok habit' ->
  Habit.streak habit'
  = if follows_previous_day now habit then Habit.streak habit + 1 else 1.
Proof.
  intros Hnot Hc.
  destruct (complete_at_cases now habit)
    as [[Hdone _]|[(_ & h & _ & Hc')|(_ & e & _ & Hc')]].
  - contradiction.
  - rewrite Hc' in Hc. injection Hc as <-. reflexivity.
  - rewrite Hc' in Hc. discriminate.
Qed.

Lemma complete_as_complete_at (now : Z) (habit : Habit.t) :
  complete (startOfDay (Some now)) (todayIso now) (Habit.id habit) habit
  = complete_at now habit.
Proof. reflexivity. Qed.

(** Complete on a habit of valid history that has no completion today
    succeeds; what the next Complete will find. *)
Lemma complete_at_next (now : Z) (habit : Habit.t) :
  civil_range now -> history_ok (Habit.history habit) = true ->
  ~ completed_on (localDay now) habit ->
  exists habit',
    complete_at now habit = Ok habit'
    /\ Habit.streak habit'
       = (if follows_previous_day now habit then Habit.streak habit + 1 else 1)
    /\ history_ok (Habit.history habit') = true
    /\ (forall n, completed_on n habit'
                  <-> completed_on n habit \/ n = localDay now)
    /\ (forall later, follows_previous_day later habit'
                      = (localDay now =? localDay later - 1)).
Proof.
  intros Hnow Hok Hnot. eexists. split; [now apply complete_at_ok|].
  split; [reflexivity|]. split; [now apply history_ok_completed|].
  split.
  - intros n. now apply completed_on_completed.
  - intros later. now apply follows_completed.
Qed.

(** C1. A Complete that is not a same-day no-op sets the streak to the
    previous streak plus 1 when the previous last-completed day is exactly
    one calendar day before today, and to exactly 1 otherwise (also when
    there is no previous completion). Completions on the consecutive days
    D, D+1, D+2 yield the streaks 1, 2, 3; completions on D and D+2 yield
    streak 1 after D+2. *)
Theorem complete_streak_rule :
  (forall now habitId current current' i habit,
      completeHabit now habitId current = Ok current' ->
      nth_error current i = Some habit ->
      Habit.id habit = habitId ->
      ~ completed_on (localDay now) habit ->
      exists habit',
        nth_error current' i = Some habit'
        /\ Habit.streak habit'
           = if follows_previous_day now habit
             then Habit.streak habit + 1 else 1)
  /\ (forall d0 d1 d2 habit,
        civil_range d0 -> civil_range d1 -> civil_range d2 ->
        localDay d1 = localDay d0 + 1 -> localDay d2 = localDay d0 + 2 ->
        history_ok (Habit.history habit) = true ->
        ~ completed_on (localDay d0) habit ->
        ~ completed_on (localDay d1) habit ->
        ~ completed_on (localDay d2) habit ->
        follows_previous_day d0 habit = false ->
        exists h1 h2 h3,
          complete_at d0 habit = Ok h1 /\ complete_at d1 h1 = Ok h2
          /\ complete_at d2 h2 = Ok h3
          /\ Habit.streak h1 = 1 /\ Habit.streak h2 = 2 /\ Habit.streak h3 = 3)
  /\ (forall d0 d2 habit,
        civil_range d0 -> civil_range d2 ->
        localDay d2 = localDay d0 + 2 ->
        history_ok (Habit.history habit) = true ->
        ~ completed_on (localDay d0) habit ->
        ~ completed_on (localDay d2) habit ->
        exists h1 h3,
          complete_at d0 habit = Ok h1 /\ complete_at d2 h1 = Ok h3
          /\ Habit.streak h3 = 1).
Proof.
  split; [|split].
  - intros now habitId current current' i habit Hc Hi Hid Hnot.
    rewrite completeHabit_mapM in Hc. apply mapM_Forall2 in Hc.
    destruct (Forall2_nth_error _ _ _ Hc i habit Hi) as (habit' & Hi' & Hh).
    exists habit'. split; [exact Hi'|]. subst habitId.
    rewrite complete_as_complete_at in Hh. now apply complete_at_streak.
  - intros d0 d1 d2 habit R0 R1 R2 D1 D2 Hok N0 N1 N2 Hf.
    destruct (complete_at_next d0 habit R0 Hok N0)
      as (h1 & C1 & S1 & Hok1 & On1 & F1).
    assert (N11 : ~ completed_on (localDay d1) h1)
      by (rewrite On1; intros [H|H]; [contradiction|lia]).
    destruct (complete_at_next d1 h1 R1 Hok1 N11)
      as (h2 & C2 & S2 & Hok2 & On2 & F2).
    assert (N22 : ~ completed_on (localDay d2) h2)
      by (rewrite On2, On1; intros [[H|H]|H]; [contradiction|lia|lia]).
    destruct (complete_at_next d2 h2 R2 Hok2 N22)
      as (h3 & C3 & S3 & _).
    exists h1, h2, h3. repeat split; try assumption.
    + now rewrite S1, Hf.
    + rewrite S2, F1, S1, Hf.
      now replace (localDay d0 =? localDay d1 - 1) with true
        by (symmetry; apply Z.eqb_eq; lia).
    + rewrite S3, F2, S2, F1, S1, Hf.
      replace (localDay d1 =? localDay d2 - 1) with true
        by (symmetry; apply Z.eqb_eq; lia).
      now replace (localDay d0 =? localDay d1 - 1) with true
        by (symmetry; apply Z.eqb_eq; lia).
  - intros d0 d2 habit R0 R2 D2 Hok N0 N2.
    destruct (complete_at_next d0 habit R0 Hok N0)
      as (h1 & C1 & S1 & Hok1 & On1 & F1).
    assert (N21 : ~ completed_on (localDay d2) h1)
      by (rewrite On1; intros [H|H]; [contradiction|lia]).
    destruct (complete_at_next d2 h1 R2 Hok1 N21)
      as (h3 & C3 & S3 & _).
    exists h1, h3. repeat split; try assumption.
    rewrite S3, F1.
    now replace (localDay d0 =? localDay d2 - 1) with false
      by (symmetry; apply Z.eqb_neq; lia).
Qed.

Lemma spec_history_length (history : list string) :
  (List.length (spec_history history) <= List.length history)%nat.
Proof.
  unfold spec_history. rewrite length_map.
  pose proof (first_days_length (days_of history) []).
  pose proof (days_of_length history). lia.
Qed.

Lemma completed_length (now : Z) (habit : Habit.t) :
  civil_range now -> history_ok (Habit.history habit) = true ->
  ~ completed_on (localDay now) habit ->
  let habit' :=
    completed now (spec_history (Habit.history habit ++ [todayIso now])%list)
              habit in
  (List.length (Habit.history habit') <= List.length (Habit.history habit) + 1)%nat
  /\ (NoDup (days_of (Habit.history habit)) ->
      List.length (Habit.history habit')
      = (List.length (Habit.history habit) + 1)%nat).
Proof.
  intros Hnow Hok Hnot. cbn [completed Habit.history]. split.
  - pose proof (spec_history_length (Habit.history habit ++ [todayIso now])%list)
      as Hlen.
    rewrite length_app in Hlen. simpl in Hlen. exact Hlen.
  - intros Hnd.
    rewrite <- (length_map (fun iso => iso) (spec_history _)), map_id.
    unfold spec_history. rewrite length_map.
    assert (Hok' : history_ok (Habit.history habit ++ [todayIso now])%list = true).
    { rewrite history_ok_app, Hok. unfold history_ok. cbn [forallb andb].
      unfold todayIso. now rewrite entry_ok_today. }
    pose proof (days_of_completed now (Habit.history habit) Hnow Hok Hnot) as Hd.
    rewrite days_of_spec_history in Hd by exact Hok'.
    rewrite Hd, length_app. simpl.
    rewrite first_days_NoDup_id by (auto; intros ? ? []).
    now rewrite history_ok_days_length.
Qed.

(** Two calls of the [map] callback of [completeHabit] on one calendar
    day: the second one changes nothing. *)
Lemma complete_twice (now1 now2 : Z) (habitId : string) (habit : Habit.t) :
  civil_range now1 -> localDay now2 = localDay now1 ->
  history_ok (Habit.history habit) = true ->
  exists habit1,
    complete (startOfDay (Some now1)) (todayIso now1) habitId habit = Ok habit1
    /\ complete (startOfDay (Some now2)) (todayIso now2) habitId habit1
       = Ok habit1
    /\ (List.length (Habit.history habit1)
        <= List.length (Habit.history habit) + 1)%nat
    /\ (NoDup (days_of (Habit.history habit)) ->
        List.length (Habit.history habit)
        <= List.length (Habit.history habit1))%nat.
Proof.
  intros Hnow Hday Hok.
  destruct (String.eqb_spec (Habit.id habit) habitId) as [<-|Hne].
  - destruct (complete_at_cases now1 habit)
      as [[Hdone Hc]|[(Hnot & _)|(Hnot & _)]].
    + exists habit. split; [exact Hc|]. split; [|split; intros; lia].
      apply complete_done. now rewrite Hday.
    + pose proof (complete_at_ok now1 habit Hnow Hok Hnot) as Hc.
      pose proof (completed_length now1 habit Hnow Hok Hnot) as [Hl1 Hl2].
      eexists. split; [exact Hc|]. split; [|split; [exact Hl1|]].
      * apply complete_done. rewrite Hday.
        apply completed_on_completed; auto.
      * intros Hnd. rewrite (Hl2 Hnd). lia.
    + pose proof (complete_at_ok now1 habit Hnow Hok Hnot) as Hc.
      pose proof (completed_length now1 habit Hnow Hok Hnot) as [Hl1 Hl2].
      eexists. split; [exact Hc|]. split; [|split; [exact Hl1|]].
      * apply complete_done. rewrite Hday.
        apply completed_on_completed; auto.
      * intros Hnd. rewrite (Hl2 Hnd). lia.
  - exists habit. rewrite !complete_other by exact Hne.
    repeat split; intros; lia.
Qed.

(** C2. Complete is idempotent per calendar day: a habit that has a
    completion entry for today is left entirely unchanged, and two calls of
    Complete on one calendar day change the length of a history by at most
    1. *)
Theorem complete_idempotent_per_day :
  (forall now iso habitId habit,
      completed_on (localDay now) habit ->
      complete (startOfDay (Some now)) iso habitId habit = Ok habit)
  /\ (forall now habitId current,
        (forall habit, In habit current -> Habit.id habit = habitId ->
                       completed_on (localDay now) habit) ->
        completeHabit now habitId current = Ok current)
  /\ (forall now1 now2 habitId current,
        civil_range now1 -> localDay now2 = localDay now1 ->
        (forall habit, In habit current ->
                       history_ok (Habit.history habit) = true) ->
        exists current1,
          completeHabit now1 habitId current = Ok current1
          /\ completeHabit now2 habitId current1 = Ok current1
          /\ Forall2 (fun habit habit1 =>
                        (List.length (Habit.history habit1)
                         <= List.length (Habit.history habit) + 1)%nat
                        /\ (NoDup (days_of (Habit.history habit)) ->
                            List.length (Habit.history habit)
                            <= List.length (Habit.history habit1))%nat)
                     current current1).
Proof.
  split; [|split].
  - intros now iso habitId habit Hdone. now apply complete_done.
  - intros now habitId current Hdone. rewrite completeHabit_mapM.
    rewrite (mapM_ok_map _ (fun habit => habit)); [now rewrite map_id|].
    intros habit Hin.
    destruct (String.eqb_spec (Habit.id habit) habitId) as [Heq|Hne].
    + apply complete_done. now apply Hdone.
    + now apply complete_other.
  - intros now1 now2 habitId current Hnow Hday Hok.
    rewrite !completeHabit_mapM.
    induction current as [|habit current IH].
    + exists []. repeat split. constructor.
    + destruct IH as (current1 & H1 & H2 & HF).
      { intros h Hin. apply Hok. now right. }
      destruct (complete_twice now1 now2 habitId habit Hnow Hday)
        as (habit1 & C1 & C2 & Hlen); [apply Hok; now left|].
      exists (habit1 :: current1). cbn [mapM].
      rewrite C1, H1. cbn [bind].
      rewrite completeHabit_mapM in H2 |- *. cbn [mapM].
      rewrite C2, H2. cbn [bind].
      repeat split. constructor; [exact Hlen|exact HF].
Qed.

End CompleteClaims.

(** ** The reminder tick *)

Lemma option_string_eqb_eq (a b : option string) :
  option_string_eqb a b = true <-> a = b.
Proof.
  destruct a as [x|], b as [y|]; simpl; try (split; congruence).
  rewrite String.eqb_eq. split; congruence.
Qed.

Section Reminder.
Context {E : Engine}.

(** The [map] callback either returns the habit as it is, or marks it and
    pushes it; which one does not depend on [triggered]. *)
Lemma remind_cases (now : Z) (key : string) (habit : Habit.t)
    (triggered : list Habit.t) :
  (remind now key habit triggered = (habit, triggered)
   /\ snd (remind now key habit []) = [])
  \/ (remind now key habit triggered
      = (Habit.with_reminderLastNotified (Some key) habit,
         (triggered ++ [habit])%list)
      /\ snd (remind now key habit []) = [habit]).
Proof.
  unfold remind.
  repeat match goal with
         | |- context [if ?c then _ else _] => destruct c
         end; (left; split; reflexivity) || (right; split; reflexivity).
Qed.

Lemma remind_mark (now : Z) (habit : Habit.t) (triggered : list Habit.t) :
  remind now (format_ms now) habit triggered
  = (mark_fired now habit,
     if fires now habit then (triggered ++ [habit])%list else triggered).
Proof.
  unfold mark_fired, fires.
  destruct (remind_cases now (format_ms now) habit triggered)
    as [[-> ->]|[-> ->]]; reflexivity.
Qed.

Lemma remind_all_spec (now : Z) (current : list Habit.t) :
  forall triggered,
    remind_all now (format_ms now) current triggered
    = (map (mark_fired now) current,
       (triggered ++ filter (fires now) current)%list).
Proof.
  induction current as [|habit current IH]; intros triggered; cbn [remind_all].
  - cbn [map filter]. now rewrite app_nil_r.
  - rewrite remind_mark, IH. cbn [map filter].
    destruct (fires now habit); [|reflexivity].
    now rewrite <- app_assoc.
Qed.

(** The condition of the [if] of the callback, for a reminder time of
    finite hour and minute. *)
Lemma window_iff (now : Z) (hours minutes : Q) (habit : Habit.t) :
  match
    option_map (fun tg => now - tg)
      (setHours (Some now) (Some (Finite hours)) (Some (Finite minutes)))
  with
  | Some d => (0 <=? d) && (d <=? 60 * 1000)
  | None => false
  end
  && negb (option_string_eqb (Habit.reminderLastNotified habit)
             (Some (format_ms now)))
  && negb (hasCompletedToday now habit) = true
  <-> (let target :=
         midnight (localDay now)
         + truncate hours * msPerHour + truncate minutes * msPerMinute in
       0 <= now - target <= 60000)
      /\ Habit.reminderLastNotified habit <> Some (format_ms now)
      /\ ~ completed_on (localDay now) habit.
Proof.
  cbn [setHours option_map].
  rewrite !andb_true_iff, !negb_true_iff, Z.leb_le, Z.leb_le.
  rewrite <- !not_true_iff_false, option_string_eqb_eq, hasCompletedToday_iff.
  unfold midnight, localDay. cbv zeta. intuition lia.
Qed.

Lemma fires_Qualifies (now : Z) (habit : Habit.t) :
  fires now habit = true <-> Qualifies now habit.
Proof.
  unfold fires, remind, Qualifies.
  destruct (Habit.reminderTime habit) as [rt|] eqn:Hrt; cbn [truthy negb];
    [|split; [discriminate|];
      intros (? & ? & ? & ? & ? & ? & H1 & _); discriminate].
  destruct (String.eqb_spec rt "") as [->|Hne]; cbn [negb];
    [split; [discriminate|];
     intros (? & ? & ? & ? & ? & ? & H1 & H2 & _);
     injection H1 as <-; discriminate|].
  destruct (split ":" rt) as [|hh [|mm rest]] eqn:Hsplit; cbn [map nth_error].
  - cbn. split; [discriminate|].
    intros (? & ? & ? & ? & ? & ? & H1 & H2 & _); congruence.
  - destruct (StringToNumber hh); cbn; (split; [discriminate|]);
      intros (? & ? & ? & ? & ? & ? & H1 & H2 & _); congruence.
  - destruct (StringToNumber hh) as [| |hours] eqn:Hh;
      destruct (StringToNumber mm) as [| |minutes] eqn:Hm;
      cbn [Number_isNaN orb];
      try (cbn; (split; [discriminate|]);
           intros (? & ? & ? & ? & ? & ? & H1 & H2 & H3 & H4 & _); congruence).
    pose proof (window_iff now hours minutes habit) as Hw.
    destruct (_ && _ && negb (hasCompletedToday now habit)); cbn [snd app].
    + split; [intros _|reflexivity].
      exists rt, hh, mm, rest, hours, minutes.
      repeat split; try assumption; try reflexivity; now apply Hw.
    + split; [discriminate|].
      intros (rt' & hh' & mm' & rest' & hours' & minutes' & H1 & H2 & H3 & H4 & H5).
      assert (rt' = rt) by congruence. subst rt'.
      assert (hh' = hh /\ mm' = mm) as [-> ->] by (split; congruence).
      assert (hours' = hours) by congruence.
      assert (minutes' = minutes) by congruence. subst.
      apply Hw. exact H5.
Qed.

Lemma fires_not_notified (now : Z) (habit : Habit.t) :
  fires now habit = true ->
  Habit.reminderLastNotified habit <> Some (format_ms now).
Proof.
  intros H. apply fires_Qualifies in H.
  destruct H as (? & ? & ? & ? & ? & ? & _ & _ & _ & _ & _ & H & _). exact H.
Qed.

Lemma reminderTick_habits (updater : dispatch) (now : Z) (uuid : string)
    (s : State.t) :
  State.habits (fst (reminderTick updater now uuid s))
  = map (mark_fired now) (State.habits s).
Proof.
  unfold reminderTick. rewrite remind_all_spec. cbn [app].
  destruct updater; [destruct (filter (fires now) (State.habits s))|];
    reflexivity.
Qed.

Lemma complete_reminderLastNotified (today : Date) (iso habitId : string)
    (habit habit' : Habit.t) :
  complete today iso habitId habit = Ok habit' ->
  Habit.reminderLastNotified habit' = Habit.reminderLastNotified habit.
Proof.
  unfold complete.
  destruct (negb (Habit.id habit =? habitId)%string);
    [intros H; now injection H as <-|].
  destruct (existsb _ (Habit.history habit));
    [intros H; now injection H as <-|].
  destruct (uniqueHistory _); cbn [bind]; [|discriminate].
  intros H. now injection H as <-.
Qed.

Lemma notified_at_step (n : Z) (i : nat) (ev : event) (s : State.t)
    (r : State.t * list effect) :
  tick_or_complete ev -> event_on_day n ev -> step ev s = Ok r ->
  notified_at (dayKey n) i s -> notified_at (dayKey n) i (fst r).
Proof.
  unfold notified_at. intros Hk Hd Hs Hn.
  destruct ev; try contradiction; cbn [step event_on_day] in *.
  - destruct (completeHabit now habitId (State.habits s)) as [hs|] eqn:Hc;
      cbn [bind] in Hs; [|discriminate].
    injection Hs as <-. cbn [fst State.with_habits State.habits].
    rewrite completeHabit_mapM in Hc. apply mapM_Forall2 in Hc.
    destruct (nth_error (State.habits s) i) as [habit|] eqn:Hi.
    + destruct (Forall2_nth_error _ _ _ Hc i habit Hi) as (habit' & -> & Hh).
      now rewrite (complete_reminderLastNotified _ _ _ _ _ Hh).
    + apply nth_error_None in Hi.
      rewrite (Forall2_length Hc) in Hi. apply nth_error_None in Hi.
      now rewrite Hi.
  - destruct (State.loaded s && negb (List.length (State.habits s) =? 0)%nat);
      injection Hs as <-; [|exact Hn].
    rewrite reminderTick_habits, nth_error_map.
    destruct (nth_error (State.habits s) i) as [habit|]; [|exact I].
    cbn [option_map]. unfold mark_fired.
    destruct (fires now habit); [|exact Hn].
    cbn [Habit.with_reminderLastNotified Habit.reminderLastNotified].
    now rewrite format_ms_dayKey, Hd.
Qed.

Lemma fire_count_notified (n : Z) (i : nat) (evs : list event) :
  Forall tick_or_complete evs -> Forall (event_on_day n) evs ->
  forall s, notified_at (dayKey n) i s -> fire_count i evs s = 0%nat.
Proof.
  induction evs as [|ev evs IH]; intros Hk Hd s Hn; [reflexivity|].
  inversion Hk as [|? ? Hk1 Hk2]; inversion Hd as [|? ? Hd1 Hd2]; subst.
  cbn [fire_count].
  assert (Hhere : match ev, nth_error (State.habits s) i with
                  | Tick now _ _, Some habit =>
                      if State.loaded s && fires now habit then 1%nat else 0%nat
                  | _, _ => 0%nat
                  end = 0%nat).
  { destruct ev; try reflexivity. unfold notified_at in Hn.
    destruct (nth_error (State.habits s) i) as [habit|]; [|reflexivity].
    destruct (fires now habit) eqn:Hf; [|now rewrite andb_false_r].
    apply fires_not_notified in Hf. cbn [event_on_day] in Hd1.
    rewrite format_ms_dayKey, Hd1 in Hf. contradiction. }
  rewrite Hhere. destruct (step ev s) as [r|] eqn:Hs; [|reflexivity].
  cbn [plus]. apply IH; try assumption.
  now apply (notified_at_step n i ev s r).
Qed.

(** On one calendar day on which the store is changed by ticks and by
    Complete only, a habit is triggered at most once. *)
Lemma fire_count_once (n : Z) (i : nat) (evs : list event) :
  Forall tick_or_complete evs -> Forall (event_on_day n) evs ->
  forall s, (fire_count i evs s <= 1)%nat.
Proof.
  induction evs as [|ev evs IH]; intros Hk Hd s; [cbn; lia|].
  inversion Hk as [|? ? Hk1 Hk2]; inversion Hd as [|? ? Hd1 Hd2]; subst.
  cbn [fire_count].
  destruct ev; try contradiction.
  - destruct (step (CompleteHabit habitId now) s) as [r|]; [|lia].
    cbn [plus]. now apply IH.
  - destruct (nth_error (State.habits s) i) as [habit|] eqn:Hi.
    + destruct (State.loaded s && fires now habit) eqn:Hf.
      * apply andb_true_iff in Hf as [Hl Hf].
        destruct (step (Tick now uuid updater) s) as [r|] eqn:Hs; [|lia].
        rewrite (fire_count_notified n i evs Hk2 Hd2); [lia|].
        cbn [step] in Hs. rewrite Hl in Hs. cbn [andb] in Hs.
        assert (Hlen : (List.length (State.habits s) =? 0)%nat = false).
        { apply Nat.eqb_neq. intros H0. apply length_zero_iff_nil in H0.
          rewrite H0 in Hi. destruct i; discriminate. }
        rewrite Hlen in Hs. cbn [negb] in Hs. injection Hs as <-.
        unfold notified_at. rewrite reminderTick_habits, nth_error_map, Hi.
        cbn [option_map]. unfold mark_fired. rewrite Hf.
        cbn [Habit.with_reminderLastNotified Habit.reminderLastNotified].
        cbn [event_on_day] in Hd1. now rewrite format_ms_dayKey, Hd1.
      * destruct (step (Tick now uuid updater) s) as [r|]; [|lia].
        cbn [plus]. now apply IH.
    + destruct (step (Tick now uuid updater) s) as [r|]; [|lia].
      cbn [plus]. now apply IH.
Qed.

End Reminder.

Section ReminderClaims.
Context {E : Engine} {L : EngineLaws E}.

Lemma localDay_next (now : Z) : localDay (now + msPerDay) = localDay now + 1.
Proof.
  unfold localDay, Day.
  replace (now + msPerDay + tzo) with (now + tzo + 1 * msPerDay) by ring.
  apply Z.div_add. discriminate.
Qed.

Lemma fires_same_day (now later : Z) (habit : Habit.t) :
  fires now habit = true -> localDay later = localDay now ->
  fires later (mark_fired now habit) = false.
Proof.
  intros Hf Hday. unfold mark_fired. rewrite Hf.
  apply not_true_iff_false. intros H. apply fires_not_notified in H.
  cbn [Habit.with_reminderLastNotified Habit.reminderLastNotified] in H.
  apply H. f_equal. now apply format_ms_localDay.
Qed.

Lemma fires_next_day (now : Z) (habit : Habit.t) :
  fires now habit = true ->
  civil_range now -> civil_range (now + msPerDay) ->
  ~ completed_on (localDay now + 1) habit ->
  fires (now + msPerDay) (mark_fired now habit) = true.
Proof.
  intros Hf R0 R1 Hnot. unfold mark_fired. rewrite Hf.
  apply fires_Qualifies in Hf.
  destruct Hf as (rt & hh & mm & rest & hours & minutes
                  & Hrt & Hsplit & Hh & Hm & Hwin & _ & _).
  apply fires_Qualifies.
  exists rt, hh, mm, rest, hours, minutes.
  cbn [Habit.with_reminderLastNotified Habit.reminderTime
       Habit.reminderLastNotified].
  repeat split; try assumption.
  - rewrite localDay_next. cbv zeta in Hwin. unfold midnight in *. lia.
  - rewrite localDay_next. cbv zeta in Hwin. unfold midnight in *. lia.
  - intros Hkey. injection Hkey as Hkey.
    rewrite !format_ms_dayKey, localDay_next in Hkey.
    apply dayKey_inj in Hkey.
    + lia.
    + exact R0.
    + unfold civil_range in R1. now rewrite localDay_next in R1.
  - rewrite localDay_next. exact Hnot.
Qed.

End ReminderClaims.

(** C3. At a tick a habit qualifies if and only if its reminder time parses
    to numeric hour and minute, the time elapsed since today's target
    instant lies in [0, 60000] ms, its last-reminder-fired date is not
    today and it has no completion for today. On a day on which the store
    is changed by ticks and by Complete only, a habit qualifies at most
    once: a later tick of the same day does not trigger it again, the
    window of the next day does; so for the reminder time 09:00 and ticks
    at 09:00:30, at 09:00:45 and at 09:00:30 of the next day. *)
Theorem reminder_once_per_day {E : Engine} {L : EngineLaws E} :
  (forall now habit, fires now habit = true <-> Qualifies now habit)
  /\ (forall n i evs s,
        Forall tick_or_complete evs -> Forall (event_on_day n) evs ->
        (fire_count i evs s <= 1)%nat)
  /\ (forall now later habit,
        fires now habit = true -> localDay later = localDay now ->
        fires later (mark_fired now habit) = false)
  /\ (forall now habit,
        fires now habit = true ->
        civil_range now -> civil_range (now + msPerDay) ->
        ~ completed_on (localDay now + 1) habit ->
        fires (now + msPerDay) (mark_fired now habit) = true)
  /\ (forall u1 u2 u3 : dispatch,
      let s := State.mk [reading] true "" "" None default in
      @fire_count (refEngine 0) 0 [Tick jan1_090030 "a" u1] s = 1%nat
      /\ @fire_count (refEngine 0) 0
           [Tick jan1_090030 "a" u1; Tick jan1_090045 "b" u2] s = 1%nat
      /\ @fire_count (refEngine 0) 0
           [Tick jan1_090030 "a" u1; Tick jan1_090045 "b" u2;
            Tick jan2_090030 "c" u3] s
         = 2%nat).
Proof.
  split; [|split; [|split; [|split]]].
  - intros now habit. apply fires_Qualifies.
  - intros n i evs s Hk Hd. exact (fire_count_once n i evs Hk Hd s).
  - intros now later habit. apply fires_same_day.
  - intros now habit. apply fires_next_day.
  - intros [] [] []; vm_compute; repeat split.
Qed.

Lemma with_reminderLastNotified_same (habit : Habit.t) :
  Habit.with_reminderLastNotified (Habit.reminderLastNotified habit) habit
  = habit.
Proof. now destruct habit. Qed.

Lemma with_habits_same (s : State.t) : State.with_habits (State.habits s) s = s.
Proof. now destruct s. Qed.

Section TickClaims.
Context {E : Engine}.

Lemma mark_fired_none (now : Z) (current : list Habit.t) :
  filter (fires now) current = [] -> map (mark_fired now) current = current.
Proof.
  induction current as [|habit current IH]; [reflexivity|].
  cbn [filter map]. unfold mark_fired at 1.
  destruct (fires now habit); [discriminate|].
  intros H. now rewrite (IH H).
Qed.

Lemma filter_fires_none (now : Z) (current : list Habit.t) :
  Forall (fun habit => ~ Qualifies now habit) current ->
  filter (fires now) current = [].
Proof.
  induction 1 as [|habit current Hq _ IH]; [reflexivity|].
  cbn [filter]. destruct (fires now habit) eqn:Hf; [|exact IH].
  apply fires_Qualifies in Hf. contradiction.
Qed.

Lemma filter_fires_first (now : Z) (pre post : list Habit.t) (first : Habit.t) :
  Forall (fun habit => ~ Qualifies now habit) pre -> Qualifies now first ->
  filter (fires now) (pre ++ first :: post)
  = first :: filter (fires now) post.
Proof.
  intros Hpre Hq. rewrite filter_app, (filter_fires_none now pre Hpre).
  cbn [app filter]. now rewrite (proj2 (fires_Qualifies now first) Hq).
Qed.

(** C4. At a tick every qualifying habit has its last-reminder-fired date
    set to today's date key and no other habit changes; when no habit
    qualifies nothing is emitted and nothing changes. When some habit
    qualifies, one notification is emitted (the toast, and the native
    notification when the permission is granted), naming the first
    qualifying habit in the order of the list, if React ran the updater
    inside the call of [setHabits]; if React left the updater for the next
    render, [triggered] is empty when it is tested and the tick emits
    nothing, although it marks the habits. *)
Theorem tick_marks_all_notifies_at_call_only (updater : dispatch) (now : Z)
    (uuid : string) (s : State.t) :
  let r := reminderTick updater now uuid s in
  (List.length (State.habits (fst r)) = List.length (State.habits s)
   /\ forall i habit,
        nth_error (State.habits s) i = Some habit ->
        (Qualifies now habit ->
         nth_error (State.habits (fst r)) i
         = Some (Habit.with_reminderLastNotified (Some (format_ms now)) habit))
        /\ (~ Qualifies now habit ->
            nth_error (State.habits (fst r)) i = Some habit))
  /\ (Forall (fun habit => ~ Qualifies now habit) (State.habits s) ->
      fst r = s /\ snd r = [])
  /\ (forall pre first post,
        State.habits s = (pre ++ first :: post)%list ->
        Forall (fun habit => ~ Qualifies now habit) pre ->
        Qualifies now first ->
        match updater with
        | AtCall =>
            let toast := Toast.mk uuid (reminder_message first) in
            State.toast (fst r) = Some toast
            /\ snd r
               = ShowToast toast ::
                 match State.notificationPermission s with
                 | granted =>
                     [NewNotification "HabitPulse Reminder"
                        (reminder_message first) (Habit.id first)]
                 | _ => []
                 end
        | AtRender => State.toast (fst r) = State.toast s /\ snd r = []
        end).
Proof.
  cbv zeta. split; [|split].
  - rewrite reminderTick_habits. split; [apply length_map|].
    intros i habit Hi. rewrite nth_error_map, Hi. cbn [option_map].
    unfold mark_fired. split; intros Hq.
    + now rewrite (proj2 (fires_Qualifies now habit) Hq).
    + destruct (fires now habit) eqn:Hf; [|reflexivity].
      apply fires_Qualifies in Hf. contradiction.
  - intros Hnone. apply filter_fires_none in Hnone.
    unfold reminderTick. rewrite remind_all_spec. cbn [app]. rewrite Hnone.
    rewrite (mark_fired_none now _ Hnone), with_habits_same.
    now destruct updater.
  - intros pre first post Hs Hpre Hq.
    unfold reminderTick. rewrite remind_all_spec. cbn [app].
    rewrite Hs, (filter_fires_first now pre post first Hpre Hq).
    destruct updater; cbn [fst snd State.toast State.with_toast
                           State.with_habits].
    + split; [reflexivity|].
      destruct (State.notificationPermission s); reflexivity.
    + split; reflexivity.
Qed.

Lemma reset_other (habitId : string) (habit : Habit.t) :
  Habit.id habit <> habitId -> reset habitId habit = habit.
Proof.
  intros Hne. unfold reset. now rewrite (proj2 (String.eqb_neq _ _) Hne).
Qed.

(** C9. Complete and Reset leave every habit of another identifier
    unchanged, at its place in the list; a tick changes no field of a habit
    other than the last-reminder-fired date. *)
Theorem operations_frame :
  (forall now habitId current current',
      completeHabit now habitId current = Ok current' ->
      List.length current' = List.length current
      /\ forall i habit,
           nth_error current i = Some habit -> Habit.id habit <> habitId ->
           nth_error current' i = Some habit)
  /\ (forall habitId current,
        List.length (resetHabit habitId current) = List.length current
        /\ forall i habit,
             nth_error current i = Some habit -> Habit.id habit <> habitId ->
             nth_error (resetHabit habitId current) i = Some habit)
  /\ (forall updater now uuid s,
        List.length (State.habits (fst (reminderTick updater now uuid s)))
        = List.length (State.habits s)
        /\ forall i habit,
             nth_error (State.habits s) i = Some habit ->
             exists habit',
               nth_error
                 (State.habits (fst (reminderTick updater now uuid s))) i
               = Some habit'
               /\ Habit.with_reminderLastNotified
                    (Habit.reminderLastNotified habit) habit' = habit).
Proof.
  split; [|split].
  - intros now habitId current current' Hc.
    rewrite completeHabit_mapM in Hc. apply mapM_Forall2 in Hc.
    split; [symmetry; exact (Forall2_length Hc)|].
    intros i habit Hi Hne.
    destruct (Forall2_nth_error _ _ _ Hc i habit Hi) as (habit' & Hi' & Hh).
    rewrite complete_other in Hh by exact Hne. congruence.
  - intros habitId current. unfold resetHabit. split; [apply length_map|].
    intros i habit Hi Hne. rewrite nth_error_map, Hi. cbn [option_map].
    now rewrite reset_other.
  - intros updater now uuid s. rewrite reminderTick_habits.
    split; [apply length_map|].
    intros i habit Hi. rewrite nth_error_map, Hi. cbn [option_map].
    eexists. split; [reflexivity|]. unfold mark_fired.
    destruct (fires now habit); [|apply with_reminderLastNotified_same].
    now destruct habit.
Qed.

Lemma reset_same (habit : Habit.t) : reset (Habit.id habit) habit = cleared habit.
Proof. unfold reset. now rewrite String.eqb_refl. Qed.

Lemma fires_reset (now1 now2 : Z) (habit : Habit.t) :
  fires now2 habit = true ->
  fires now2 (reset (Habit.id habit) (mark_fired now1 habit)) = true.
Proof.
  intros Hf. apply fires_Qualifies in Hf.
  destruct Hf as (rt & hh & mm & rest & hours & minutes
                  & Hrt & Hsplit & Hh & Hm & Hwin & _ & _).
  assert (Hid : Habit.id (mark_fired now1 habit) = Habit.id habit)
    by (unfold mark_fired; now destruct (fires now1 habit)).
  assert (Hrt' : Habit.reminderTime (mark_fired now1 habit) = Some rt)
    by (unfold mark_fired; now destruct (fires now1 habit)).
  rewrite <- Hid, reset_same. apply fires_Qualifies.
  exists rt, hh, mm, rest, hours, minutes.
  unfold cleared, completed_on.
  cbn [Habit.reminderTime Habit.reminderLastNotified Habit.history].
  cbv zeta in *. unfold days_of. cbn [flat_map].
  repeat split; try assumption; try discriminate; try lia.
  intros [].
Qed.

End TickClaims.

(** C10. Reset clears the last-reminder-fired marker, so a habit can be
    triggered twice on one calendar day: a habit that qualified at a tick,
    was marked by it and is then reset qualifies at every later tick at
    which it would have qualified unmarked. In the runs above, which start
    from the first render and stay on one day, the habit is pushed on
    [triggered] at both ticks; each tick whose updater React runs inside
    the call shows a toast for it, so that two toasts name the one habit
    when React does so at both ticks, and a tick whose updater is left for
    the render shows none. *)
Theorem reset_rearms_reminder :
  (forall (E : Engine) now1 now2 habit,
      Qualifies now1 habit -> Qualifies now2 habit ->
      Habit.reminderLastNotified (mark_fired now1 habit)
      = Some (format_ms now1)
      /\ Qualifies now2 (reset (Habit.id habit) (mark_fired now1 habit)))
  /\ (exists s fx,
        @run (refEngine 0) rearmed_run State.initial = Ok (s, fx)
        /\ toasts fx
           = [ Toast.mk "toast-1" ("Time for " ++ quote ++ "Run" ++ quote);
               Toast.mk "toast-2" ("Time for " ++ quote ++ "Run" ++ quote) ]
        /\ List.length (State.habits s) = 1%nat
        /\ Forall (@event_on_day (refEngine 0) 19723) rearmed_run)
  /\ (forall first second,
        exists s fx,
          @run (refEngine 0) (rearmed first second) State.initial = Ok (s, fx)
          /\ @fire_count (refEngine 0) 0 (rearmed first second) State.initial
             = 2%nat
          /\ toasts fx
             = (run_toast "toast-1" first ++ run_toast "toast-2" second)%list).
Proof.
  split; [|split].
  - intros E now1 now2 habit Hq1 Hq2.
    apply fires_Qualifies in Hq1. apply fires_Qualifies in Hq2.
    split; [unfold mark_fired; now rewrite Hq1|].
    apply fires_Qualifies. now apply fires_reset.
  - eexists. eexists. split; [vm_compute; reflexivity|].
    split; [reflexivity|]. split; [reflexivity|].
    repeat constructor.
  - intros [] []; eexists; eexists;
      (split; [vm_compute; reflexivity|]); split; reflexivity.
Qed.

(** ** Counters *)

Section CounterClaims.
Context {E : Engine}.





End CounterClaims.

(** ** Reset and Create *)

(** C7. Reset sets the history of the targeted habit to empty, its streak
    and longest streak to 0, its last-completed and last-reminder-fired
    dates to absent, whatever its state was; the habit stays in the store,
    at its place, with its id, name, reminder time and creation time. *)
Theorem reset_clears_habit :
  (forall habit,
      reset (Habit.id habit) habit
      = {| Habit.id := Habit.id habit;
           Habit.name := Habit.name habit;
           Habit.reminderTime := Habit.reminderTime habit;
           Habit.createdAt := Habit.createdAt habit;
           Habit.history := [];
           Habit.streak := 0;
           Habit.longestStreak := 0;
           Habit.lastCompleted := None;
           Habit.reminderLastNotified := None |})
  /\ (forall habitId current,
        List.length (resetHabit habitId current) = List.length current
        /\ forall i habit,
             nth_error current i = Some habit -> Habit.id habit = habitId ->
             nth_error (resetHabit habitId current) i
             = Some {| Habit.id := Habit.id habit;
                       Habit.name := Habit.name habit;
                       Habit.reminderTime := Habit.reminderTime habit;
                       Habit.createdAt := Habit.createdAt habit;
                       Habit.history := [];
                       Habit.streak := 0;
                       Habit.longestStreak := 0;
                       Habit.lastCompleted := None;
                       Habit.reminderLastNotified := None |}).
Proof.
  split.
  - intros habit. apply reset_same.
  - intros habitId current. unfold resetHabit. split; [apply length_map|].
    intros i habit Hi <-. rewrite nth_error_map, Hi. cbn [option_map].
    now rewrite reset_same.
Qed.

Lemma trimStart_empty (s : string) :
  trimStart s = "" <-> forallb is_white (chars s) = true.
Proof.
  induction s as [|c s IH]; cbn [trimStart chars forallb]; [tauto|].
  destruct (is_white c); cbn [andb]; [exact IH|]. split; discriminate.
Qed.

Lemma trimEnd_empty (s : string) :
  trimEnd s = "" <-> forallb is_white (chars s) = true.
Proof.
  induction s as [|c s IH]; cbn [trimEnd chars forallb]; [tauto|].
  destruct (trimEnd s) as [|c' r].
  - rewrite (proj1 IH eq_refl), andb_true_r.
    destruct (is_white c); split; congruence.
  - split; [discriminate|]. intros H. apply andb_true_iff in H as [_ H].
    apply IH in H. discriminate.
Qed.

Lemma trimStart_head (s : string) :
  match trimStart s with
  | String c _ => is_white c = false
  | EmptyString => True
  end.
Proof.
  induction s as [|c s IH]; cbn [trimStart]; [exact I|].
  destruct (is_white c) eqn:Hc; [exact IH|exact Hc].
Qed.

(** A name is rejected exactly when all its characters are white space. *)
Lemma trim_empty (s : string) :
  trim s = "" <-> forallb is_white (chars s) = true.
Proof.
  unfold trim. split.
  - intros H. apply trimEnd_empty in H. apply trimStart_empty.
    pose proof (trimStart_head s) as Hh.
    destruct (trimStart s) as [|c r]; [reflexivity|].
    cbn [chars forallb] in H. rewrite Hh in H. discriminate.
  - intros H. apply trimStart_empty in H. now rewrite H.
Qed.

(** C8. Create with an empty or whitespace-only name changes nothing; with
    another name it puts one new habit in front of the list: the
    identifier drawn for it, the trimmed name, an empty history, both
    counters 0, no last-completed and no last-reminder-fired date. The
    identifiers stay distinct when the identifier drawn is a new one. *)
Theorem create_prepends_habit (uuid : string) (now : Z) (s : State.t) :
  (trim (State.name s) = "" <-> forallb is_white (chars (State.name s)) = true)
  /\ (trim (State.name s) = "" -> handleAddHabit uuid now s = s)
  /\ (trim (State.name s) <> "" ->
      State.habits (handleAddHabit uuid now s)
      = {| Habit.id := uuid;
           Habit.name := trim (State.name s);
           Habit.reminderTime :=
             if (State.time s =? "")%string then None else Some (State.time s);
           Habit.createdAt := toISOString_ms now;
           Habit.history := [];
           Habit.streak := 0;
           Habit.longestStreak := 0;
           Habit.lastCompleted := None;
           Habit.reminderLastNotified := None |} :: State.habits s)
  /\ (~ In uuid (map Habit.id (State.habits s)) ->
      NoDup (map Habit.id (State.habits s)) ->
      NoDup (map Habit.id (State.habits (handleAddHabit uuid now s)))).
Proof.
  split; [apply trim_empty|]. unfold handleAddHabit.
  destruct (String.eqb_spec (trim (State.name s)) "") as [Heq|Hne].
  - split; [reflexivity|]. split; [contradiction|]. intros _ H. exact H.
  - split; [contradiction|]. split; [reflexivity|].
    intros Hnew Hnd. cbn [State.habits map createHabit Habit.id].
    now constructor.
Qed.

(** ** Load *)

Section LoadClaims.
Context {E : Engine} {L : EngineLaws E}.

Lemma loadStored_ok (parsed : list Habit.t) :
  (forall habit, In habit parsed -> history_ok (Habit.history habit) = true) ->
  loadStored (Some (Json parsed)) = Ok (Some (spec_load parsed)).
Proof.
  intros Hok. unfold loadStored, spec_load.
  rewrite (mapM_ok_map _ (fun habit =>
             Habit.with_history (spec_history (Habit.history habit)) habit));
    [reflexivity|].
  intros habit Hin. now rewrite uniqueHistory_ok by now apply Hok.
Qed.

Lemma loadStored_invalid (parsed : list Habit.t) (habit : Habit.t) (iso : string) :
  In habit parsed -> In iso (Habit.history habit) -> new_Date iso = None ->
  exists e, loadStored (Some (Json parsed)) = Throw e.
Proof.
  intros Hin Hiso Hnone. unfold loadStored.
  destruct (uniqueHistory_invalid _ _ Hiso Hnone) as [e He].
  destruct (mapM_throws
              (fun habit =>
                 history <- uniqueHistory (Habit.history habit) ;;
                 Ok (Habit.with_history history habit))
              parsed habit e Hin) as [e' He'].
  - now rewrite He.
  - exists e'. now rewrite He'.
Qed.

(** C5, as the code has it. When every stored timestamp is a valid date
    on a local day from 0001-01-01 to 9999-12-30, Load keeps every habit
    and normalises its history: the timestamps of one local calendar day
    collapse to a single entry, local midnight of that day. When a stored
    timestamp is no valid date, normalisation throws, the error is caught
    and logged, and no habit is loaded. *)
Theorem load_normalizes_valid_histories :
  (forall parsed s,
      (forall habit, In habit parsed ->
                     history_ok (Habit.history habit) = true) ->
      load (Some (Json parsed)) s
      = (State.with_loaded true (State.with_habits (spec_load parsed) s), []))
  /\ (forall history,
        history_ok history = true ->
        uniqueHistory history = Ok (spec_history history)
        /\ NoDup (days_of (spec_history history))
        /\ (forall n, In n (days_of (spec_history history))
                      <-> In n (days_of history))
        /\ Forall (fun iso => exists n, iso = toISOString_ms (midnight n)
                                        /\ new_Date iso = Some (midnight n))
                  (spec_history history))
  /\ (forall parsed s habit iso,
        In habit parsed -> In iso (Habit.history habit) ->
        new_Date iso = None ->
        load (Some (Json parsed)) s
        = (State.with_loaded true s, [ConsoleError "Failed to load habits"])).
Proof.
  split; [|split].
  - intros parsed s Hok. unfold load. now rewrite loadStored_ok.
  - intros history Hok. split; [now apply uniqueHistory_ok|].
    rewrite days_of_spec_history by exact Hok.
    split; [apply first_days_NoDup|]. split.
    + intros n. rewrite first_days_In. simpl. tauto.
    + unfold spec_history. apply Forall_map, Forall_forall. intros n Hn.
      exists n. split; [reflexivity|]. apply parse_midnight_iso.
      apply first_days_In in Hn as [Hn _].
      exact (proj1 (Forall_forall _ _) (history_ok_days _ Hok) n Hn).
  - intros parsed s habit iso Hin Hiso Hnone. unfold load.
    destruct (loadStored_invalid parsed habit iso Hin Hiso Hnone) as [e ->].
    reflexivity.
Qed.

End LoadClaims.

(** C5 as the specification states it fails: with a text that is no date
    among the stored timestamps, the specification keeps both habits and
    the one entry of 1 January 2024, the code loads no habit. *)
Lemma load_discards_invalid_counterexample :
  let stored := [stored_walk; stored_read] in
  State.habits (fst (@load (refEngine 0) (Some (Json stored)) State.initial))
  = []
  /\ @spec_load (refEngine 0) stored
     = [Habit.with_history ["2024-01-01T00:00:00.000Z"] stored_walk;
        stored_read]
  /\ State.habits (fst (@load (refEngine 0) (Some (Json stored)) State.initial))
     <> @spec_load (refEngine 0) stored.
Proof.
  cbv zeta. split; [vm_compute; reflexivity|].
  split; [vm_compute; reflexivity|]. vm_compute. discriminate.
Qed.

(** Why the days are bounded: two timestamps of 1 June of the year 0
    collapse to midnight of 1 June of the year 1, since [format] writes the
    year of the era; and at an offset of two hours a valid timestamp whose
    local day is in the year 10000 makes [uniqueHistory] throw, since the
    date key with five digits is not read back as a date. *)
Lemma uniqueHistory_outside_years :
  @uniqueHistory (refEngine 0)
    ["0000-06-01T00:00:00Z"; "0000-06-01T05:00:00Z"]
  = Ok ["0001-06-01T00:00:00.000Z"]
  /\ @spec_history (refEngine 0)
       ["0000-06-01T00:00:00Z"; "0000-06-01T05:00:00Z"]
     = ["0000-06-01T00:00:00.000Z"]
  /\ @new_Date (refEngine 7200000) "9999-12-31T23:00:00Z"
     = Some 253402297200000
  /\ @uniqueHistory (refEngine 7200000) ["9999-12-31T23:00:00Z"]
     = Throw RangeError.
Proof. vm_compute. repeat split. Qed.

(** ** Runs from the first render *)

Section Runs.
Context {E : Engine} {L : EngineLaws E}.

Lemma habit_ok_spec_history (habit : Habit.t) :
  history_ok (Habit.history habit) = true ->
  habit_ok (Habit.with_history (spec_history (Habit.history habit)) habit).
Proof.
  intros Hok. unfold habit_ok. cbn [Habit.with_history Habit.history]. split.
  - now apply history_ok_spec_history.
  - rewrite days_of_spec_history by exact Hok. apply first_days_NoDup.
Qed.

Lemma complete_habit_ok (now : Z) (habitId : string) (habit : Habit.t) :
  civil_range now -> habit_ok habit ->
  exists habit',
    complete (startOfDay (Some now)) (todayIso now) habitId habit = Ok habit'
    /\ habit_ok habit'.
Proof.
  intros Hnow [Hok Hnd].
  destruct (String.eqb_spec (Habit.id habit) habitId) as [<-|Hne].
  - destruct (complete_at_cases now habit)
      as [[Hdone Hc]|[(Hnot & _)|(Hnot & _)]].
    + exists habit. split; [exact Hc|now split].
    + eexists. split; [now apply complete_at_ok|]. split.
      * now apply history_ok_completed.
      * cbn [completed Habit.history].
        rewrite days_of_spec_history; [apply first_days_NoDup|].
        rewrite history_ok_app, Hok. unfold history_ok. cbn [forallb andb].
        unfold todayIso. now rewrite entry_ok_today.
    + eexists. split; [now apply complete_at_ok|]. split.
      * now apply history_ok_completed.
      * cbn [completed Habit.history].
        rewrite days_of_spec_history; [apply first_days_NoDup|].
        rewrite history_ok_app, Hok. unfold history_ok. cbn [forallb andb].
        unfold todayIso. now rewrite entry_ok_today.
  - exists habit. split; [now apply complete_other|now split].
Qed.

Lemma completeHabit_ok (now : Z) (habitId : string) (current : list Habit.t) :
  civil_range now -> Forall habit_ok current ->
  exists current',
    completeHabit now habitId current = Ok current'
    /\ Forall habit_ok current'.
Proof.
  intros Hnow Hall. rewrite completeHabit_mapM.
  induction Hall as [|habit current Hh _ IH].
  - exists []. split; [reflexivity|constructor].
  - destruct IH as (current' & Hc & Hall').
    destruct (complete_habit_ok now habitId habit Hnow Hh) as (habit' & Hc' & Hh').
    exists (habit' :: current'). cbn [mapM]. rewrite Hc', Hc. cbn [bind].
    split; [reflexivity|now constructor].
Qed.

(** An event whose clock and stored timestamps are in range is handled
    without exception, and keeps the histories valid and free of
    duplicate days. *)
Lemma step_ok (ev : event) (s : State.t) :
  event_ok ev -> store_ok s ->
  exists r, step ev s = Ok r /\ store_ok (fst r).
Proof.
  unfold store_ok. intros Hev Hs. destruct ev; cbn [step event_ok] in *.
  - destruct stored as [[|parsed]|]; unfold load.
    + cbn [loadStored]. eexists. split; [reflexivity|exact Hs].
    + rewrite loadStored_ok
        by (intros habit Hin; exact (proj1 (Forall_forall _ _) Hev habit Hin)).
      eexists. split; [reflexivity|]. cbn [fst State.habits State.with_loaded
        State.with_habits]. unfold spec_load. apply Forall_map.
      refine (Forall_impl _ _ Hev). intros habit Hh.
      now apply habit_ok_spec_history.
    + cbn [loadStored]. eexists. split; [reflexivity|exact Hs].
  - eexists. split; [reflexivity|exact Hs].
  - eexists. split; [reflexivity|exact Hs].
  - eexists. split; [reflexivity|]. cbn [fst]. unfold handleAddHabit.
    destruct (trim (State.name s) =? "")%string; [exact Hs|].
    cbn [State.habits]. constructor; [|exact Hs].
    split; [reflexivity|constructor].
  - destruct (completeHabit_ok now habitId (State.habits s) Hev Hs)
      as (current' & -> & Hall).
    cbn [bind]. eexists. split; [reflexivity|exact Hall].
  - eexists. split; [reflexivity|].
    cbn [fst State.habits State.with_habits]. unfold resetHabit.
    apply Forall_map. refine (Forall_impl _ _ Hs). intros habit Hh.
    unfold reset. destruct (Habit.id habit =? habitId)%string; [|exact Hh].
    split; [reflexivity|constructor].
  - destruct (State.loaded s && negb (List.length (State.habits s) =? 0)%nat);
      (eexists; split; [reflexivity|]); [|exact Hs].
    rewrite reminderTick_habits. apply Forall_map.
    refine (Forall_impl _ _ Hs). intros habit Hh. unfold mark_fired.
    destruct (fires now habit); exact Hh.
Qed.

(** A run of such events from a store of valid histories does not throw. *)
Lemma run_ok (evs : list event) :
  Forall event_ok evs ->
  forall s, store_ok s -> exists r, run evs s = Ok r /\ store_ok (fst r).
Proof.
  induction 1 as [|ev evs Hev _ IH]; intros s Hs.
  - exists (s, []). split; [reflexivity|exact Hs].
  - destruct (step_ok ev s Hev Hs) as (r & Hr & Hs').
    destruct (IH (fst r) Hs') as (r' & Hr' & Hs'').
    cbn [run]. rewrite Hr. cbn [bind]. rewrite Hr'. cbn [bind].
    eexists. split; [reflexivity|exact Hs''].
Qed.

(** So does every run from the first render. *)
Lemma run_initial_ok (evs : list event) :
  Forall event_ok evs ->
  exists r, run evs State.initial = Ok r /\ store_ok (fst r).
Proof. intros Hevs. apply run_ok; [exact Hevs|constructor]. Qed.

End Runs.

Section CounterRuns.
Context {E : Engine} {L : EngineLaws E}.


End CounterRuns.

(** ** The theorems at concrete inputs *)

(** The reference engine of UTC satisfies the laws. *)
Lemma utc_laws : EngineLaws (refEngine 0).
Proof. apply refEngine_laws. unfold msPerDay. lia. Qed.

(** The reference engine two hours ahead of UTC satisfies the laws. *)
Lemma east_laws : EngineLaws (refEngine 7200000).
Proof. apply refEngine_laws. unfold msPerDay. lia. Qed.

Ltac by_computation :=
  vm_compute;
  repeat match goal with
         | |- _ /\ _ => split
         | |- _ = _ => reflexivity
         | |- _ \/ _ => (left; reflexivity) || right
         | |- _ -> False => let H := fresh in intros H
         | H : _ = _ |- False => discriminate H
         | H : _ \/ _ |- False => destruct H
         | H : False |- _ => destruct H
         end.

Lemma complete_streak_rule_witness :
  (exists habit',
      nth_error
        (match @completeHabit (refEngine 0) jan1_1000 "habit-1" [reading] with
         | Ok current' => current'
         | Throw _ => []
         end) 0 = Some habit'
      /\ Habit.streak habit' = 1)
  /\ (exists h1 h2 h3,
        @complete_at (refEngine 0) jan1_1000 reading = Ok h1
        /\ @complete_at (refEngine 0) (jan1_1000 + msPerDay) h1 = Ok h2
        /\ @complete_at (refEngine 0) (jan1_1000 + 2 * msPerDay) h2 = Ok h3
        /\ Habit.streak h1 = 1 /\ Habit.streak h2 = 2 /\ Habit.streak h3 = 3)
  /\ (exists h1 h3,
        @complete_at (refEngine 0) jan1_1000 reading = Ok h1
        /\ @complete_at (refEngine 0) (jan1_1000 + 2 * msPerDay) h1 = Ok h3
        /\ Habit.streak h3 = 1).
Proof.
  destruct (@complete_streak_rule (refEngine 0) utc_laws) as (T1 & T2 & T3).
  split; [|split].
  - apply (T1 jan1_1000 "habit-1" [reading] _ 0%nat reading); by_computation.
  - apply T2; by_computation.
  - apply T3; by_computation.
Defined.

Lemma complete_idempotent_per_day_witness :
  @complete (refEngine 0) (@startOfDay (refEngine 0) (Some jan1_1000))
    "2024-01-01T00:00:00.000Z" "habit-2" walked = Ok walked
  /\ @completeHabit (refEngine 0) jan1_1000 "habit-2" [reading; walked]
     = Ok [reading; walked]
  /\ exists current1,
       @completeHabit (refEngine 0) jan1_1000 "habit-1" [reading; walked]
       = Ok current1
       /\ @completeHabit (refEngine 0) (jan1_1000 + 1000) "habit-1" current1
          = Ok current1
       /\ Forall2 (fun habit habit1 =>
                     (List.length (Habit.history habit1)
                      <= List.length (Habit.history habit) + 1)%nat
                     /\ (NoDup (@days_of (refEngine 0) (Habit.history habit)) ->
                         List.length (Habit.history habit)
                         <= List.length (Habit.history habit1))%nat)
                  [reading; walked] current1.
Proof.
  destruct (@complete_idempotent_per_day (refEngine 0) utc_laws)
    as (T1 & T2 & T3).
  split; [|split].
  - apply T1. by_computation.
  - apply T2. intros habit [<-|[<-|[]]] Hid;
      [vm_compute in Hid; discriminate Hid | by_computation].
  - apply T3; [by_computation|by_computation|].
    intros habit [<-|[<-|[]]]; by_computation.
Defined.

Lemma reminder_once_per_day_witness :
  @Qualifies (refEngine 0) jan1_090030 reading
  /\ (@fire_count (refEngine 0) 0
        [Tick jan1_090030 "a" AtRender; CompleteHabit "habit-2" jan1_090040;
         Tick jan1_090045 "b" AtCall]
        (State.mk [reading; walked] true "" "" None default) <= 1)%nat
  /\ @fires (refEngine 0) jan1_090045
       (@mark_fired (refEngine 0) jan1_090030 reading) = false
  /\ @fires (refEngine 0) (jan1_090030 + msPerDay)
       (@mark_fired (refEngine 0) jan1_090030 reading) = true.
Proof.
  destruct (@reminder_once_per_day (refEngine 0) utc_laws)
    as (T1 & T2 & T3 & T4 & _).
  split; [|split; [|split]].
  - apply T1. by_computation.
  - apply (T2 19723).
    + repeat constructor.
    + repeat constructor.
  - apply T3; by_computation.
  - apply T4; by_computation.
Defined.

Lemma load_normalizes_valid_histories_witness :
  @load (refEngine 0) (Some (Json [stored_run; stored_read])) State.initial
  = (State.with_loaded true
       (State.with_habits (@spec_load (refEngine 0) [stored_run; stored_read])
          State.initial), [])
  /\ @uniqueHistory (refEngine 0) (Habit.history stored_run)
     = Ok (@spec_history (refEngine 0) (Habit.history stored_run))
  /\ @spec_history (refEngine 0) (Habit.history stored_run)
     = ["2024-01-01T00:00:00.000Z"; "2024-01-02T00:00:00.000Z"]
  /\ @uniqueHistory (refEngine 7200000)
       ["2024-01-01T08:00:00Z"; "2024-01-01T21:00:00Z"; "2024-01-01T23:00:00Z"]
     = Ok (@spec_history (refEngine 7200000)
             ["2024-01-01T08:00:00Z"; "2024-01-01T21:00:00Z";
              "2024-01-01T23:00:00Z"])
  /\ @spec_history (refEngine 7200000)
       ["2024-01-01T08:00:00Z"; "2024-01-01T21:00:00Z"; "2024-01-01T23:00:00Z"]
     = ["2023-12-31T22:00:00.000Z"; "2024-01-01T22:00:00.000Z"]
  /\ @load (refEngine 0) (Some (Json [stored_read; stored_walk])) State.initial
     = (State.with_loaded true State.initial,
        [ConsoleError "Failed to load habits"]).
Proof.
  destruct (@load_normalizes_valid_histories (refEngine 0) utc_laws)
    as (T1 & T2 & T3).
  split; [|split; [|split; [|split; [|split]]]].
  - apply T1. intros habit [<-|[<-|[]]]; by_computation.
  - apply (proj1 (T2 (Habit.history stored_run) eq_refl)).
  - by_computation.
  - apply (proj1 (proj1 (proj2 (@load_normalizes_valid_histories
                                  (refEngine 7200000) east_laws))
                        ["2024-01-01T08:00:00Z"; "2024-01-01T21:00:00Z";
                         "2024-01-01T23:00:00Z"] eq_refl)).
  - by_computation.
  - apply (T3 [stored_read; stored_walk] State.initial stored_walk "not a date");
      by_computation.
Defined.


Lemma tick_marks_all_notifies_at_call_only_witness :
  let r := @reminderTick (refEngine 0) AtRender jan1_090030 "toast-1"
             granted_store in
  nth_error (State.habits (fst r)) 0
  = Some (Habit.with_reminderLastNotified
            (Some (@format_ms (refEngine 0) jan1_090030)) reading)
  /\ State.toast (fst r) = State.toast granted_store
  /\ snd r = [].
Proof.
  cbv zeta.
  assert (Hq : @Qualifies (refEngine 0) jan1_090030 reading).
  { exists "09:00", "09", "00", [], (inject_Z 9), (inject_Z 0).
    by_computation. }
  destruct (@tick_marks_all_notifies_at_call_only (refEngine 0) AtRender
              jan1_090030 "toast-1" granted_store) as ((_ & T1) & _ & T3).
  split.
  - exact (proj1 (T1 0%nat reading eq_refl) Hq).
  - exact (T3 [] reading [walked] eq_refl (Forall_nil _) Hq).
Defined.

Lemma reset_clears_habit_witness :
  nth_error (resetHabit "habit-2" [reading; walked]) 1
  = Some {| Habit.id := "habit-2";
            Habit.name := "Walk";
            Habit.reminderTime := None;
            Habit.createdAt := "2023-12-31T18:00:00.000Z";
            Habit.history := [];
            Habit.streak := 0;
            Habit.longestStreak := 0;
            Habit.lastCompleted := None;
            Habit.reminderLastNotified := None |}.
Proof.
  apply (proj2 (proj2 reset_clears_habit "habit-2" [reading; walked]) 1%nat walked);
    reflexivity.
Defined.

Lemma create_prepends_habit_witness :
  handleAddHabit "habit-9" jan1_1000
    (State.mk [reading] true "   " "09:00" None default)
  = State.mk [reading] true "   " "09:00" None default
  /\ State.habits
       (handleAddHabit "habit-9" jan1_1000
          (State.mk [reading] true "  Walk " "" None default))
     = [ {| Habit.id := "habit-9";
            Habit.name := "Walk";
            Habit.reminderTime := None;
            Habit.createdAt := "2024-01-01T10:00:00.000Z";
            Habit.history := [];
            Habit.streak := 0;
            Habit.longestStreak := 0;
            Habit.lastCompleted := None;
            Habit.reminderLastNotified := None |};
         reading ]
  /\ NoDup
       (map Habit.id
          (State.habits
             (handleAddHabit "habit-9" jan1_1000
                (State.mk [reading] true "  Walk " "" None default)))).
Proof.
  split; [|split].
  - apply (create_prepends_habit "habit-9" jan1_1000
             (State.mk [reading] true "   " "09:00" None default)).
    reflexivity.
  - apply (create_prepends_habit "habit-9" jan1_1000
             (State.mk [reading] true "  Walk " "" None default)).
    by_computation.
  - apply (create_prepends_habit "habit-9" jan1_1000
             (State.mk [reading] true "  Walk " "" None default)).
    + by_computation.
    + repeat constructor. by_computation.
Defined.

Lemma operations_frame_witness :
  nth_error
    (match @completeHabit (refEngine 0) jan1_1000 "habit-1" [reading; walked] with
     | Ok current' => current'
     | Throw _ => []
     end) 1 = Some walked
  /\ nth_error (resetHabit "habit-2" [reading; walked]) 0 = Some reading
  /\ exists habit',
       nth_error
         (State.habits
            (fst (@reminderTick (refEngine 0) AtRender jan1_090030 "toast-1"
                    (State.mk [reading; walked] true "" "" None default)))) 0
       = Some habit'
       /\ Habit.with_reminderLastNotified
            (Habit.reminderLastNotified reading) habit' = reading.
Proof.
  destruct (@operations_frame (refEngine 0)) as (T1 & T2 & T3).
  split; [|split].
  - assert (Hc : @completeHabit (refEngine 0) jan1_1000 "habit-1"
                   [reading; walked]
                 = Ok (match @completeHabit (refEngine 0) jan1_1000 "habit-1"
                               [reading; walked] with
                       | Ok current' => current'
                       | Throw _ => []
                       end)) by by_computation.
    assert (H1 : nth_error [reading; walked] 1 = Some walked) by reflexivity.
    assert (H2 : Habit.id walked <> "habit-1") by by_computation.
    exact (proj2 (T1 jan1_1000 "habit-1" [reading; walked]
                     (match @completeHabit (refEngine 0) jan1_1000 "habit-1"
                              [reading; walked] with
                      | Ok current' => current'
                      | Throw _ => []
                      end) Hc)
                 1%nat walked H1 H2).
  - assert (H1 : nth_error [reading; walked] 0 = Some reading) by reflexivity.
    assert (H2 : Habit.id reading <> "habit-2") by by_computation.
    exact (proj2 (T2 "habit-2" [reading; walked]) 0%nat reading H1 H2).
  - assert (H1 : nth_error
                   (State.habits
                      (State.mk [reading; walked] true "" "" None default)) 0
                 = Some reading) by reflexivity.
    exact (proj2 (T3 AtRender jan1_090030 "toast-1"
                     (State.mk [reading; walked] true "" "" None default))
                 0%nat reading H1).
Defined.

Lemma reset_rearms_reminder_witness :
  Habit.reminderLastNotified (@mark_fired (refEngine 0) jan1_090010 reading)
  = Some (@format_ms (refEngine 0) jan1_090010)
  /\ @Qualifies (refEngine 0) jan1_090040
       (reset (Habit.id reading)
              (@mark_fired (refEngine 0) jan1_090010 reading)).
Proof.
  apply (proj1 reset_rearms_reminder (refEngine 0) jan1_090010 jan1_090040
           reading).
  - exists "09:00", "09", "00", [], (inject_Z 9), (inject_Z 0). by_computation.
  - exists "09:00", "09", "00", [], (inject_Z 9), (inject_Z 0). by_computation.
Defined.

(** * Further properties *)

(** ** Runs of consecutive days *)

Lemma trailing_run_snoc (days : list Z) (n : Z) :
  trailing_run (days ++ [n])
  = match last_day days with
    | Some d => if d =? n - 1 then trailing_run days + 1 else 1
    | None => 1
    end.
Proof.
  unfold trailing_run, last_day. rewrite rev_app_distr. cbn [rev app].
  destruct (rev days) as [|d rest]; cbn [run_back]; [reflexivity|].
  destruct (d =? n - 1); lia.
Qed.

Lemma longest_run_snoc (days : list Z) (n : Z) :
  longest_run (days ++ [n])
  = Z.max (trailing_run (days ++ [n])) (longest_run days).
Proof.
  unfold longest_run, trailing_run. rewrite rev_app_distr. reflexivity.
Qed.

Lemma last_day_snoc (days : list Z) (n : Z) : last_day (days ++ [n]) = Some n.
Proof. unfold last_day. now rewrite rev_app_distr. Qed.

Lemma run_back_bounds (days_back : list Z) :
  forall next, 0 <= run_back next days_back <= Z.of_nat (List.length days_back).
Proof.
  induction days_back as [|d rest IH]; intros next; cbn [run_back List.length].
  - lia.
  - destruct (d =? next - 1); [specialize (IH d)|]; lia.
Qed.

Lemma trailing_run_bounds (days : list Z) :
  0 <= trailing_run days <= Z.of_nat (List.length days)
  /\ (trailing_run days = 0 <-> days = []).
Proof.
  unfold trailing_run. rewrite <- (length_rev days).
  destruct (rev days) as [|d rest] eqn:Hrev.
  - split; [cbn; lia|]. split; [intros _|reflexivity].
    rewrite <- (rev_involutive days), Hrev. reflexivity.
  - pose proof (run_back_bounds rest d). cbn [List.length]. split; [lia|].
    split; [lia|]. intros ->. discriminate.
Qed.

Lemma longest_back_bounds (days_back : list Z) :
  0 <= longest_back days_back <= Z.of_nat (List.length days_back).
Proof.
  induction days_back as [|d rest IH]; cbn [longest_back List.length]; [lia|].
  pose proof (run_back_bounds rest d). lia.
Qed.

Lemma trailing_le_longest (days : list Z) : trailing_run days <= longest_run days.
Proof.
  unfold trailing_run, longest_run.
  destruct (rev days) as [|d rest]; cbn [longest_back]; lia.
Qed.

(** ** Sound habits *)

Section SoundHabits.
Context {E : Engine} {L : EngineLaws E}.

Lemma sound_history_ok (habit : Habit.t) :
  habit_sound habit -> history_ok (Habit.history habit) = true.
Proof.
  intros (Hr & _ & Hh & _). rewrite Hh. now apply history_ok_midnights.
Qed.

Lemma sound_habit_ok (habit : Habit.t) : habit_sound habit -> habit_ok habit.
Proof.
  intros Hs. split; [now apply sound_history_ok|]. now destruct Hs as (_ & Hnd & _).
Qed.

Lemma spec_history_sound (habit : Habit.t) :
  habit_sound habit -> spec_history (Habit.history habit) = Habit.history habit.
Proof.
  intros (Hr & Hnd & Hh & _). unfold spec_history.
  rewrite first_days_NoDup_id by (auto; intros ? ? []). now rewrite Hh at 2.
Qed.

(** A sound history is a fixed point of [uniqueHistory]. *)
Lemma uniqueHistory_sound (habit : Habit.t) :
  habit_sound habit ->
  uniqueHistory (Habit.history habit) = Ok (Habit.history habit).
Proof.
  intros Hs. rewrite uniqueHistory_ok by now apply sound_history_ok.
  now rewrite spec_history_sound.
Qed.

Lemma with_history_same (habit : Habit.t) :
  Habit.with_history (Habit.history habit) habit = habit.
Proof. now destruct habit. Qed.

Lemma iso_midnight_today (now : Z) : iso_midnight (localDay now) = todayIso now.
Proof. unfold iso_midnight, todayIso. now rewrite startOfDay_ms_midnight. Qed.

Lemma follows_sound (now : Z) (habit : Habit.t) :
  habit_sound habit ->
  follows_previous_day now habit
  = match last_day (days_of (Habit.history habit)) with
    | Some d => d =? localDay now - 1
    | None => false
    end.
Proof.
  intros (Hr & _ & _ & Hl & _). unfold follows_previous_day. rewrite Hl.
  unfold last_day in *.
  destruct (rev (days_of (Habit.history habit))) as [|d rest] eqn:Hrev;
    [reflexivity|].
  cbn [option_map]. unfold iso_midnight.
  assert (Hd : day_range d).
  { apply (proj1 (Forall_forall _ _) Hr). apply in_rev. rewrite Hrev. now left. }
  rewrite parse_midnight_iso by exact Hd. now rewrite localDay_midnight.
Qed.

Lemma spec_history_snoc_today (now : Z) (habit : Habit.t) :
  civil_range now -> habit_sound habit ->
  ~ In (localDay now) (days_of (Habit.history habit)) ->
  spec_history (Habit.history habit ++ [todayIso now])%list
  = map iso_midnight (days_of (Habit.history habit) ++ [localDay now])%list.
Proof.
  intros Hnow (Hr & Hnd & _) Hnot. unfold spec_history.
  rewrite days_of_app. unfold days_of at 2. cbn [flat_map].
  rewrite parse_todayIso by exact Hnow. cbn [app].
  rewrite localDay_startOfDay.
  rewrite first_days_snoc by (auto; intros []).
  now rewrite first_days_NoDup_id by (auto; intros ? ? []).
Qed.

(** The habit that Complete builds from a sound habit not completed today
    is sound; today is added at the end of its days. *)
Lemma completed_sound (now : Z) (habit : Habit.t) :
  civil_range now -> habit_sound habit ->
  ~ In (localDay now) (days_of (Habit.history habit)) ->
  let habit' :=
    completed now (spec_history (Habit.history habit ++ [todayIso now])%list)
              habit in
  habit_sound habit'
  /\ days_of (Habit.history habit')
     = (days_of (Habit.history habit) ++ [localDay now])%list.
Proof.
  intros Hnow Hs Hnot. cbv zeta.
  pose proof (follows_sound now habit Hs) as Hf.
  pose proof (spec_history_snoc_today now habit Hnow Hs Hnot) as Hh'.
  destruct Hs as (Hr & Hnd & Hh & Hl & Hst & Hlo).
  assert (Hr' : Forall day_range
                  (days_of (Habit.history habit) ++ [localDay now])%list).
  { apply Forall_app. split; [exact Hr|]. constructor; [exact Hnow|constructor]. }
  assert (Hd : days_of (map iso_midnight
                          (days_of (Habit.history habit) ++ [localDay now])%list)
               = (days_of (Habit.history habit) ++ [localDay now])%list)
    by now apply days_of_midnights.
  unfold habit_sound.
  cbn [completed Habit.history Habit.lastCompleted Habit.streak
       Habit.longestStreak].
  rewrite Hh', Hd. split; [|reflexivity].
  split; [exact Hr'|]. split.
  { apply NoDup_app; [exact Hnd|repeat constructor; intros []|].
    intros d Hin [<-|[]]. now apply Hnot. }
  split; [reflexivity|]. split.
  { rewrite last_day_snoc. cbn [option_map]. now rewrite iso_midnight_today. }
  rewrite longest_run_snoc, trailing_run_snoc, Hf, Hst, Hlo.
  destruct (last_day (days_of (Habit.history habit))) as [d|];
    [destruct (d =? localDay now - 1)|]; split; reflexivity.
Qed.

(** Complete on a sound habit: nothing changes, or today is added at the
    end of the days of the history. *)
Lemma complete_sound (now : Z) (habitId : string) (habit : Habit.t) :
  civil_range now -> habit_sound habit ->
  exists habit',
    complete (startOfDay (Some now)) (todayIso now) habitId habit = Ok habit'
    /\ habit_sound habit'
    /\ (habit' = habit
        \/ Habit.id habit = habitId
           /\ ~ In (localDay now) (days_of (Habit.history habit))
           /\ days_of (Habit.history habit')
              = (days_of (Habit.history habit) ++ [localDay now])%list).
Proof.
  intros Hnow Hs.
  destruct (String.eqb_spec (Habit.id habit) habitId) as [<-|Hne];
    [|exists habit; rewrite complete_other by exact Hne; auto].
  destruct (in_dec Z.eq_dec (localDay now) (days_of (Habit.history habit)))
    as [Hin|Hnot].
  - exists habit. rewrite complete_done by exact Hin. auto.
  - pose proof (completed_sound now habit Hnow Hs Hnot) as [Hs' Hd].
    eexists. split; [apply complete_at_ok; auto using sound_history_ok|].
    split; [exact Hs'|]. right. auto.
Qed.

End SoundHabits.

Section SoundRuns.
Context {E : Engine} {L : EngineLaws E}.

Lemma created_sound (uuid : string) (now : Z) (name : string)
    (reminderTime : option string) :
  habit_sound (createHabit uuid now name reminderTime).
Proof. unfold habit_sound. cbn. repeat split; constructor. Qed.

Lemma reset_sound (habitId : string) (habit : Habit.t) :
  habit_sound habit -> habit_sound (reset habitId habit).
Proof.
  intros Hs. unfold reset. destruct (Habit.id habit =? habitId)%string;
    [|exact Hs].
  unfold habit_sound. cbn. repeat split; constructor.
Qed.

Lemma mark_fired_history (now : Z) (habit : Habit.t) :
  Habit.history (mark_fired now habit) = Habit.history habit
  /\ Habit.lastCompleted (mark_fired now habit) = Habit.lastCompleted habit
  /\ Habit.streak (mark_fired now habit) = Habit.streak habit
  /\ Habit.longestStreak (mark_fired now habit) = Habit.longestStreak habit.
Proof. unfold mark_fired. destruct (fires now habit); repeat split. Qed.

Lemma mark_fired_sound (now : Z) (habit : Habit.t) :
  habit_sound habit -> habit_sound (mark_fired now habit).
Proof.
  unfold habit_sound. destruct (mark_fired_history now habit) as (-> & -> & -> & ->).
  trivial.
Qed.

Lemma loadStored_sound (parsed : list Habit.t) :
  Forall habit_sound parsed -> loadStored (Some (Json parsed)) = Ok (Some parsed).
Proof.
  intros Hall. unfold loadStored.
  rewrite (mapM_ok_map _ (fun habit => habit)); [now rewrite map_id|].
  intros habit Hin.
  rewrite uniqueHistory_sound by exact (proj1 (Forall_forall _ _) Hall habit Hin).
  cbn [bind]. now rewrite with_history_same.
Qed.

Lemma completeHabit_sound (now : Z) (habitId : string) (current : list Habit.t) :
  civil_range now -> Forall habit_sound current ->
  exists current',
    completeHabit now habitId current = Ok current'
    /\ Forall habit_sound current'.
Proof.
  intros Hnow Hall. rewrite completeHabit_mapM.
  induction Hall as [|habit current Hh _ IH].
  - exists []. split; [reflexivity|constructor].
  - destruct IH as (current' & Hc & Hall').
    destruct (complete_sound now habitId habit Hnow Hh) as (habit' & Hc' & Hh' & _).
    exists (habit' :: current'). cbn [mapM]. rewrite Hc', Hc. cbn [bind].
    split; [reflexivity|now constructor].
Qed.

(** An event in range, reading sound habits, is handled without exception
    and keeps the habits sound. *)
Lemma step_sound (ev : event) (s : State.t) :
  event_sound ev -> Forall habit_sound (State.habits s) ->
  exists r, step ev s = Ok r /\ Forall habit_sound (State.habits (fst r)).
Proof.
  intros Hev Hs. destruct ev; cbn [step event_sound] in *.
  - destruct stored as [[|parsed]|]; unfold load.
    + cbn [loadStored]. eexists. split; [reflexivity|exact Hs].
    + rewrite loadStored_sound by exact Hev.
      eexists. split; [reflexivity|exact Hev].
    + cbn [loadStored]. eexists. split; [reflexivity|exact Hs].
  - eexists. split; [reflexivity|exact Hs].
  - eexists. split; [reflexivity|exact Hs].
  - eexists. split; [reflexivity|]. cbn [fst]. unfold handleAddHabit.
    destruct (trim (State.name s) =? "")%string; [exact Hs|].
    cbn [State.habits]. constructor; [apply created_sound|exact Hs].
  - destruct (completeHabit_sound now habitId (State.habits s) Hev Hs)
      as (current' & -> & Hall).
    cbn [bind]. eexists. split; [reflexivity|exact Hall].
  - eexists. split; [reflexivity|].
    cbn [fst State.habits State.with_habits]. unfold resetHabit.
    apply Forall_map. refine (Forall_impl _ _ Hs). intros habit.
    apply reset_sound.
  - destruct (State.loaded s && negb (List.length (State.habits s) =? 0)%nat);
      (eexists; split; [reflexivity|]); [|exact Hs].
    rewrite reminderTick_habits. apply Forall_map.
    refine (Forall_impl _ _ Hs). intros habit. apply mark_fired_sound.
Qed.

Lemma run_sound (evs : list event) :
  Forall event_sound evs ->
  forall s, Forall habit_sound (State.habits s) ->
  exists r, run evs s = Ok r /\ Forall habit_sound (State.habits (fst r)).
Proof.
  induction 1 as [|ev evs Hev _ IH]; intros s Hs.
  - exists (s, []). split; [reflexivity|exact Hs].
  - destruct (step_sound ev s Hev Hs) as (r & Hr & Hs').
    destruct (IH (fst r) Hs') as (r' & Hr' & Hs'').
    cbn [run]. rewrite Hr. cbn [bind]. rewrite Hr'. cbn [bind].
    eexists. split; [reflexivity|exact Hs''].
Qed.

Lemma sound_counters (habit : Habit.t) :
  habit_sound habit ->
  (Habit.streak habit = 0 <-> Habit.history habit = [])
  /\ 0 <= Habit.streak habit <= Habit.longestStreak habit
  /\ Habit.longestStreak habit <= Z.of_nat (List.length (Habit.history habit)).
Proof.
  intros (_ & _ & Hh & _ & Hst & Hlo).
  pose proof (trailing_run_bounds (days_of (Habit.history habit))) as [Hb Hz].
  pose proof (trailing_le_longest (days_of (Habit.history habit))) as Hle.
  pose proof (longest_back_bounds (rev (days_of (Habit.history habit)))) as Hlb.
  rewrite length_rev in Hlb. fold (longest_run (days_of (Habit.history habit))) in Hlb.
  rewrite Hst, Hlo. split; [|split; [lia|]].
  - rewrite Hz. split; [intros H0; now rewrite Hh, H0|].
    intros H0. now rewrite H0.
  - rewrite Hh at 2. rewrite length_map. lia.
Qed.

End SoundRuns.

Lemma StronglySorted_snoc (l : list Z) (x : Z) :
  StronglySorted Z.lt l -> Forall (fun d => d < x) l ->
  StronglySorted Z.lt (l ++ [x]).
Proof.
  induction 1 as [|d l Hs IH Hd]; intros Hx; cbn [app].
  - repeat constructor.
  - inversion Hx; subst. constructor; [now apply IH|].
    apply Forall_app. split; [exact Hd|now repeat constructor].
Qed.

Section ChronoRuns.
Context {E : Engine} {L : EngineLaws E}.

Lemma localDay_mono (a b : Z) : a <= b -> localDay a <= localDay b.
Proof.
  intros Hab. unfold localDay, Day. apply Z.div_le_mono; [reflexivity|lia].
Qed.

Lemma habit_chrono_mono (t t' : Z) (habit : Habit.t) :
  t <= t' -> habit_chrono t habit -> habit_chrono t' habit.
Proof.
  intros Ht (Hs & Hso & Hle). split; [exact Hs|]. split; [exact Hso|].
  refine (Forall_impl _ _ Hle). intros d Hd.
  pose proof (localDay_mono t t' Ht). lia.
Qed.

Lemma complete_chrono (t now : Z) (habitId : string) (habit : Habit.t) :
  civil_range now -> t <= now -> habit_chrono t habit ->
  exists habit',
    complete (startOfDay (Some now)) (todayIso now) habitId habit = Ok habit'
    /\ habit_chrono now habit'.
Proof.
  intros Hnow Ht Hc. pose proof (habit_chrono_mono t now habit Ht Hc) as Hc'.
  destruct Hc' as (Hs & Hso & Hle).
  destruct (complete_sound now habitId habit Hnow Hs)
    as (habit' & Hok & Hs' & [->|(_ & Hnot & Hd)]).
  - exists habit. split; [exact Hok|]. split; [exact Hs|]. now split.
  - exists habit'. split; [exact Hok|]. split; [exact Hs'|]. rewrite Hd.
    assert (Hlt : Forall (fun d => d < localDay now)
                    (days_of (Habit.history habit))).
    { apply Forall_forall. intros d Hin.
      pose proof (proj1 (Forall_forall _ _) Hle d Hin) as Hdle.
      cbv beta in Hdle.
      assert (d <> localDay now) by (intros ->; contradiction). lia. }
    split; [now apply StronglySorted_snoc|].
    apply Forall_app. split; [exact Hle|]. repeat constructor. lia.
Qed.

Lemma completeHabit_chrono (t now : Z) (habitId : string)
    (current : list Habit.t) :
  civil_range now -> t <= now -> Forall (habit_chrono t) current ->
  exists current',
    completeHabit now habitId current = Ok current'
    /\ Forall (habit_chrono now) current'.
Proof.
  intros Hnow Ht Hall. rewrite completeHabit_mapM.
  induction Hall as [|habit current Hh _ IH].
  - exists []. split; [reflexivity|constructor].
  - destruct IH as (current' & Hc & Hall').
    destruct (complete_chrono t now habitId habit Hnow Ht Hh) as (habit' & Hc' & Hh').
    exists (habit' :: current'). cbn [mapM]. rewrite Hc', Hc. cbn [bind].
    split; [reflexivity|now constructor].
Qed.

Lemma empty_chrono (t : Z) (habit : Habit.t) :
  habit_sound habit -> Habit.history habit = [] -> habit_chrono t habit.
Proof.
  intros Hs Hh. split; [exact Hs|]. rewrite Hh. split; constructor.
Qed.

Lemma step_chrono (t : Z) (ev : event) (s : State.t) :
  event_sound ev -> no_stored ev ->
  match clock_of ev with Some now => t <= now | None => True end ->
  Forall (habit_chrono t) (State.habits s) ->
  exists r,
    step ev s = Ok r
    /\ Forall (habit_chrono (last_clock t [ev])) (State.habits (fst r)).
Proof.
  intros Hev Hns Ht Hs.
  destruct ev; cbn [step event_sound no_stored clock_of last_clock] in *.
  - destruct stored as [[|parsed]|]; [|contradiction|]; unfold load;
      cbn [loadStored]; eexists; (split; [reflexivity|exact Hs]).
  - eexists. split; [reflexivity|exact Hs].
  - eexists. split; [reflexivity|exact Hs].
  - eexists. split; [reflexivity|]. cbn [fst]. unfold handleAddHabit.
    assert (Hs' : Forall (habit_chrono now) (State.habits s))
      by (refine (Forall_impl _ _ Hs); intros h; now apply habit_chrono_mono).
    destruct (trim (State.name s) =? "")%string; [exact Hs'|].
    cbn [State.habits]. constructor; [|exact Hs'].
    apply empty_chrono; [apply created_sound|reflexivity].
  - destruct (completeHabit_chrono t now habitId (State.habits s) Hev Ht Hs)
      as (current' & -> & Hall).
    cbn [bind]. eexists. split; [reflexivity|exact Hall].
  - eexists. split; [reflexivity|].
    cbn [fst State.habits State.with_habits]. unfold resetHabit.
    apply Forall_map. refine (Forall_impl _ _ Hs). intros habit Hh.
    unfold reset. destruct (Habit.id habit =? habitId)%string eqn:Hid;
      [|exact Hh].
    apply empty_chrono; [|reflexivity].
    pose proof (reset_sound habitId habit (proj1 Hh)) as Hr.
    unfold reset in Hr. now rewrite Hid in Hr.
  - assert (Hs' : Forall (habit_chrono now) (State.habits s))
      by (refine (Forall_impl _ _ Hs); intros h; now apply habit_chrono_mono).
    destruct (State.loaded s && negb (List.length (State.habits s) =? 0)%nat);
      (eexists; split; [reflexivity|]); [|exact Hs'].
    rewrite reminderTick_habits. apply Forall_map.
    refine (Forall_impl _ _ Hs'). intros habit (Hh & Hso & Hle).
    unfold habit_chrono.
    destruct (mark_fired_history now habit) as (Hhist & _).
    rewrite Hhist. split; [now apply mark_fired_sound|now split].
Qed.

Lemma run_chrono (evs : list event) :
  forall t s,
    chronological t evs -> Forall event_sound evs -> Forall no_stored evs ->
    Forall (habit_chrono t) (State.habits s) ->
    exists r,
      run evs s = Ok r
      /\ Forall (habit_chrono (last_clock t evs)) (State.habits (fst r)).
Proof.
  induction evs as [|ev evs IH]; intros t s Hch Hev Hns Hs.
  - exists (s, []). split; [reflexivity|exact Hs].
  - inversion Hev as [|? ? Hev1 Hev2]; inversion Hns as [|? ? Hns1 Hns2]; subst.
    pose proof (step_chrono t ev s Hev1 Hns1) as Hstep.
    cbn [chronological last_clock] in *.
    destruct (clock_of ev) as [now|].
    + destruct Hch as [Ht Hch].
      destruct (Hstep Ht Hs) as (r & Hr & Hs').
      destruct (IH now (fst r) Hch Hev2 Hns2 Hs') as (r' & Hr' & Hs'').
      cbn [run]. rewrite Hr. cbn [bind]. rewrite Hr'. cbn [bind].
      eexists. split; [reflexivity|exact Hs''].
    + destruct (Hstep I Hs) as (r & Hr & Hs').
      destruct (IH t (fst r) Hch Hev2 Hns2 Hs') as (r' & Hr' & Hs'').
      cbn [run]. rewrite Hr. cbn [bind]. rewrite Hr'. cbn [bind].
      eexists. split; [reflexivity|exact Hs''].
Qed.

(** X1. In every run from the first render whose clock readings are in
    the years 1..9999 and whose stored habits are sound, no handler throws
    and every habit stays sound: its streak is the length of the run of
    consecutive days that ends its history, its longest streak the length
    of the longest run in it, its last-completed date its last entry. So
    the streak is 0 exactly when the history is empty, and
    0 <= streak <= longestStreak <= number of entries. *)
Theorem streak_counts_consecutive_days (evs : list event) :
  Forall event_sound evs ->
  exists r,
    run evs State.initial = Ok r
    /\ Forall (fun habit =>
                 habit_sound habit
                 /\ (Habit.streak habit = 0 <-> Habit.history habit = [])
                 /\ 0 <= Habit.streak habit <= Habit.longestStreak habit
                 /\ Habit.longestStreak habit
                    <= Z.of_nat (List.length (Habit.history habit)))
              (State.habits (fst r)).
Proof.
  intros Hevs.
  destruct (run_sound evs Hevs State.initial) as (r & Hr & Hs); [constructor|].
  exists r. split; [exact Hr|]. refine (Forall_impl _ _ Hs).
  intros habit Hh. split; [exact Hh|]. now apply sound_counters.
Qed.

(** X2. In a run from the first render that reads no habit from storage
    and whose clock readings do not go back, the days of every history
    increase strictly along the history and are not after the day of the
    last clock reading. *)
Theorem history_in_chronological_order (t : Z) (evs : list event) :
  chronological t evs -> Forall event_sound evs -> Forall no_stored evs ->
  exists r,
    run evs State.initial = Ok r
    /\ Forall (fun habit =>
                 StronglySorted Z.lt (days_of (Habit.history habit))
                 /\ Forall (fun d => d <= localDay (last_clock t evs))
                           (days_of (Habit.history habit)))
              (State.habits (fst r)).
Proof.
  intros Hch Hev Hns.
  destruct (run_chrono evs t State.initial Hch Hev Hns) as (r & Hr & Hs);
    [constructor|].
  exists r. split; [exact Hr|]. refine (Forall_impl _ _ Hs).
  now intros habit (_ & H).
Qed.

(** X3. [uniqueHistory] is idempotent on histories whose entries are
    valid dates on local days from 0001-01-01 to 9999-12-30: its result is
    a history that it returns unchanged. *)
Theorem uniqueHistory_idempotent (history : list string) :
  history_ok history = true ->
  exists history',
    uniqueHistory history = Ok history'
    /\ uniqueHistory history' = Ok history'.
Proof.
  intros Hok. exists (spec_history history).
  split; [now apply uniqueHistory_ok|].
  rewrite uniqueHistory_ok by now apply history_ok_spec_history.
  f_equal. unfold spec_history at 1.
  rewrite days_of_spec_history by exact Hok.
  rewrite first_days_NoDup_id
    by (try apply first_days_NoDup; intros ? ? []).
  reflexivity.
Qed.


End ChronoRuns.

(** ** The history grid and the views *)

Section ViewProperties.
Context {E : Engine}.

Lemma completion_cells_spec (today : Date) (habit : Habit.t) (k : nat) :
  forall cells,
    completion_cells today habit k cells
    = (cells ++ map (cell_before today habit) (rev (seq 0 k)))%list.
Proof.
  induction k as [|i IH]; intros cells; cbn [completion_cells].
  - cbn. now rewrite app_nil_r.
  - rewrite IH, seq_S, rev_app_distr, <- app_assoc. reflexivity.
Qed.

Lemma nth_error_rev_seq (k j : nat) :
  (j < k)%nat -> nth_error (rev (seq 0 k)) j = Some (k - 1 - j)%nat.
Proof.
  intros Hj.
  rewrite (nth_error_nth' _ 0%nat) by (rewrite length_rev, length_seq; exact Hj).
  rewrite rev_nth by (rewrite length_seq; exact Hj).
  rewrite length_seq, seq_nth by lia. f_equal. lia.
Qed.

Lemma addDays_midnight (now : Z) (i : nat) :
  addDays (Some (startOfDay_ms now)) (- Z.of_nat i)
  = Some (midnight (localDay now - Z.of_nat i)).
Proof.
  cbn [option_map addDays]. rewrite startOfDay_ms_midnight.
  unfold midnight. f_equal. ring.
Qed.

(** X5. [getCompletionHistory] returns one cell per day for the [days]
    days that end today, the oldest first: the cell at position [j] is
    local midnight of the day [days - 1 - j] days before today, and it is
    active exactly when the history has an entry on that day; the last
    cell is today's and is active exactly when [hasCompletedToday]. *)
Theorem completion_history_cells (now : Z) (habit : Habit.t) (days : nat) :
  List.length (getCompletionHistory now habit days) = days
  /\ (forall j, (j < days)%nat ->
        exists cell,
          nth_error (getCompletionHistory now habit days) j = Some cell
          /\ Cell.day cell
             = Some (midnight (localDay now - Z.of_nat (days - 1 - j)))
          /\ (Cell.active cell = true
              <-> completed_on (localDay now - Z.of_nat (days - 1 - j)) habit))
  /\ (forall cell,
        nth_error (getCompletionHistory now habit days) (days - 1) = Some cell ->
        Cell.active cell = hasCompletedToday now habit).
Proof.
  unfold getCompletionHistory. rewrite completion_cells_spec. cbn [app].
  split; [now rewrite length_map, length_rev, length_seq|].
  assert (Hcell : forall j, (j < days)%nat ->
            nth_error (map (cell_before (startOfDay (Some now)) habit)
                           (rev (seq 0 days))) j
            = Some (cell_before (startOfDay (Some now)) habit (days - 1 - j))).
  { intros j Hj. now rewrite nth_error_map, nth_error_rev_seq. }
  split.
  - intros j Hj. eexists. split; [now apply Hcell|].
    unfold cell_before. cbn [Cell.day Cell.active startOfDay option_map].
    rewrite addDays_midnight. split; [reflexivity|].
    unfold completed_on. rewrite existsb_sameDay, localDay_midnight. reflexivity.
  - intros cell Hc.
    destruct days as [|d]; [discriminate Hc|].
    rewrite Hcell in Hc by lia.
    replace (S d - 1 - (S d - 1))%nat with 0%nat in Hc by lia.
    injection Hc as Hc. subst cell.
    unfold cell_before, hasCompletedToday, isToday. cbn [Cell.active].
    apply eq_true_iff_eq. rewrite !existsb_exists.
    split; intros (iso & Hin & Hsame); exists iso; (split; [exact Hin|]);
      rewrite (addDays_midnight now 0) in *; cbn [Z.of_nat] in *;
      rewrite Z.sub_0_r in *;
      destruct (new_Date iso) as [t|]; try discriminate;
      rewrite isSameDay_Some in *; now rewrite localDay_midnight in *.
Qed.

Lemma filteredHabits_In (filter : Filter.t) (now : Z)
    (habits : list Habit.t) (habit : Habit.t) :
  In habit (filteredHabits filter now habits)
  <-> In habit habits
      /\ match filter with
         | Filter.all => True
         | Filter.today => ~ completed_on (localDay now) habit
         | Filter.reminders =>
             exists reminderTime,
               Habit.reminderTime habit = Some reminderTime
               /\ reminderTime <> ""
         end.
Proof.
  destruct filter; cbn [filteredHabits].
  - tauto.
  - rewrite filter_In, negb_true_iff, <- not_true_iff_false,
      hasCompletedToday_iff. reflexivity.
  - rewrite filter_In. unfold truthy.
    destruct (Habit.reminderTime habit) as [rt|].
    + rewrite negb_true_iff, String.eqb_neq. split.
      * intros [Hin Hne]. split; [exact Hin|]. now exists rt.
      * intros [Hin (rt' & Heq & Hne)]. injection Heq as <-. now split.
    + split; [intros [_ H]; discriminate|].
      intros [_ (rt & Heq & _)]. discriminate.
Qed.

(** X6. A view shows habits of the store only: a habit is in the view
    [today] exactly when it is in the store and has no completion today, in
    the view [reminders] exactly when it is in the store and has a
    non-empty reminder time; the view [all] is the store. *)
Theorem filtered_view_membership (filter : Filter.t) (now : Z)
    (habits : list Habit.t) (habit : Habit.t) :
  In habit (filteredHabits filter now habits)
  <-> In habit habits
      /\ match filter with
         | Filter.all => True
         | Filter.today => ~ completed_on (localDay now) habit
         | Filter.reminders =>
             exists reminderTime,
               Habit.reminderTime habit = Some reminderTime
               /\ reminderTime <> ""
         end.
Proof.
  exact (filteredHabits_In filter now habits habit).
Qed.

(** X7. A habit that a tick triggers is shown in the view [today] and in
    the view [reminders] at that moment. *)
Theorem triggered_habit_in_views (now : Z) (habits : list Habit.t)
    (habit : Habit.t) :
  In habit habits -> fires now habit = true ->
  In habit (filteredHabits Filter.today now habits)
  /\ In habit (filteredHabits Filter.reminders now habits).
Proof.
  intros Hin Hf. apply fires_Qualifies in Hf.
  destruct Hf as (rt & hh & mm & rest & hours & minutes
                  & Hrt & Hsplit & _ & _ & _ & _ & Hnot).
  split; apply filteredHabits_In; (split; [exact Hin|]); [exact Hnot|].
  exists rt. split; [exact Hrt|]. intros ->. discriminate.
Qed.

End ViewProperties.

Lemma Forall2_In_r {A B : Type} (R : A -> B -> Prop) (l : list A) (l' : list B) :
  Forall2 R l l' -> forall b, In b l' -> exists a, In a l /\ R a b.
Proof.
  induction 1 as [|x y l l' Hxy _ IH]; intros b Hb; [contradiction|].
  destruct Hb as [<-|Hb]; [exists x; split; [now left|exact Hxy]|].
  destruct (IH b Hb) as (a & Ha & Hab). exists a. split; [now right|exact Hab].
Qed.

Section Compositions.
Context {E : Engine} {L : EngineLaws E}.

Lemma fires_completed (now : Z) (habit : Habit.t) :
  completed_on (localDay now) habit -> fires now habit = false.
Proof.
  intros Hdone. apply not_true_iff_false. intros Hf.
  apply fires_Qualifies in Hf.
  destruct Hf as (? & ? & ? & ? & ? & ? & _ & _ & _ & _ & _ & _ & Hnot).
  contradiction.
Qed.

Lemma complete_id (today : Date) (iso habitId : string) (habit habit' : Habit.t) :
  complete today iso habitId habit = Ok habit' -> Habit.id habit' = Habit.id habit.
Proof.
  unfold complete.
  destruct (negb (Habit.id habit =? habitId)%string);
    [intros H; now injection H as <-|].
  destruct (existsb _ (Habit.history habit));
    [intros H; now injection H as <-|].
  destruct (uniqueHistory _); cbn [bind]; [|discriminate].
  intros H. now injection H as <-.
Qed.

(** X8. After Complete on a store of valid histories, every habit of the
    completed identifier has a completion for that day: until the end of
    the day it is not in the view [today] and no tick triggers it. *)
Theorem complete_silences_reminder (now later : Z) (habitId : string)
    (current current' : list Habit.t) (habit' : Habit.t) :
  civil_range now ->
  (forall habit, In habit current -> history_ok (Habit.history habit) = true) ->
  completeHabit now habitId current = Ok current' ->
  localDay later = localDay now ->
  In habit' current' -> Habit.id habit' = habitId ->
  hasCompletedToday later habit' = true
  /\ fires later habit' = false
  /\ ~ In habit' (filteredHabits Filter.today later current').
Proof.
  intros Hnow Hok Hc Hday Hin Hid.
  assert (Hdone : completed_on (localDay later) habit').
  { rewrite completeHabit_mapM in Hc. apply mapM_Forall2 in Hc.
    destruct (Forall2_In_r _ _ _ Hc habit' Hin) as (habit & Hh & Hch).
    pose proof (complete_id _ _ _ _ _ Hch) as Hid'.
    assert (Heq : habitId = Habit.id habit) by congruence.
    clear Hid Hid'. subst habitId. rewrite Hday.
    rewrite complete_as_complete_at in Hch.
    destruct (complete_at_cases now habit)
      as [[Hd Hc']|[(Hnot & _)|(Hnot & _)]].
    - rewrite Hc' in Hch. now injection Hch as <-.
    - rewrite (complete_at_ok now habit Hnow (Hok habit Hh) Hnot) in Hch.
      injection Hch as <-. apply completed_on_completed; auto.
    - rewrite (complete_at_ok now habit Hnow (Hok habit Hh) Hnot) in Hch.
      injection Hch as <-. apply completed_on_completed; auto. }
  split; [now apply hasCompletedToday_iff|].
  split; [now apply fires_completed|].
  intros Hv. apply filteredHabits_In in Hv as [_ Hnot]. contradiction.
Qed.

(** X9. Complete right after Reset starts the streak again: whatever the
    habit was, its history is today's entry alone, its streak and longest
    streak are 1. *)
Theorem complete_after_reset (now : Z) (habit : Habit.t) :
  civil_range now ->
  complete_at now (reset (Habit.id habit) habit)
  = Ok {| Habit.id := Habit.id habit;
          Habit.name := Habit.name habit;
          Habit.reminderTime := Habit.reminderTime habit;
          Habit.createdAt := Habit.createdAt habit;
          Habit.history := [todayIso now];
          Habit.streak := 1;
          Habit.longestStreak := 1;
          Habit.lastCompleted := Some (todayIso now);
          Habit.reminderLastNotified := None |}.
Proof.
  intros Hnow. rewrite reset_same.
  rewrite complete_at_ok; [|exact Hnow|reflexivity|intros []].
  f_equal. unfold completed, cleared, follows_previous_day.
  cbn [Habit.id Habit.name Habit.reminderTime Habit.createdAt Habit.history
       Habit.streak Habit.longestStreak Habit.lastCompleted
       Habit.reminderLastNotified app].
  f_equal. unfold spec_history, days_of. cbn [flat_map].
  rewrite parse_todayIso by exact Hnow. cbn [app first_days existsb map].
  rewrite localDay_startOfDay. unfold todayIso.
  now rewrite startOfDay_ms_midnight.
Qed.

End Compositions.

(** ** Names *)







(** ** The permission *)

(** X11. A permission that is decided is final: from a permission other
    than [default], requests change nothing and log nothing; and a request
    changes nothing but the permission. *)
Theorem decided_permission_is_final
    (outcomes : list (result NotificationPermission)) (s : State.t) :
  (State.notificationPermission s <> default -> requests outcomes s = (s, []))
  /\ State.habits (fst (requests outcomes s)) = State.habits s
  /\ State.toast (fst (requests outcomes s)) = State.toast s
  /\ State.loaded (fst (requests outcomes s)) = State.loaded s.
Proof.
  revert s. induction outcomes as [|outcome outcomes IH]; intros s;
    cbn [requests]; [repeat split|].
  destruct (requestNotifications outcome s) as [s' fx] eqn:Hr.
  specialize (IH s'). destruct IH as (IH1 & IH2 & IH3 & IH4).
  destruct (requests outcomes s') as [s'' fx'] eqn:Hrs. cbn [fst] in *.
  revert Hr. unfold requestNotifications.
  destruct (State.notificationPermission s) eqn:Hp; intros Hr.
  - injection Hr as <- <-. split; [|now repeat split].
    intros _. assert (Hd : State.notificationPermission s <> default)
      by (rewrite Hp; discriminate).
    now injection (IH1 Hd) as -> ->.
  - injection Hr as <- <-. split; [|now repeat split].
    intros _. assert (Hd : State.notificationPermission s <> default)
      by (rewrite Hp; discriminate).
    now injection (IH1 Hd) as -> ->.
  - split; [intros H; now contradiction H|].
    destruct outcome; injection Hr as <- <-; now repeat split.
  - injection Hr as <- <-. split; [|now repeat split].
    intros _. assert (Hd : State.notificationPermission s <> default)
      by (rewrite Hp; discriminate).
    now injection (IH1 Hd) as -> ->.
Qed.

(** ** What the events emit and keep *)

Section Emissions.
Context {E : Engine}.

Lemma reminderTick_effects (updater : dispatch) (now : Z) (uuid : string)
    (s : State.t) :
  let r := reminderTick updater now uuid s in
  (List.length (toasts (snd r)) <= 1)%nat
  /\ (List.length (natives (snd r)) <= List.length (toasts (snd r)))%nat
  /\ (State.notificationPermission s <> granted -> natives (snd r) = [])
  /\ State.notificationPermission (fst r) = State.notificationPermission s
  /\ State.loaded (fst r) = State.loaded s.
Proof.
  cbv zeta. unfold reminderTick. rewrite remind_all_spec. cbn [app].
  destruct updater;
    [destruct (filter (fires now) (State.habits s)) as [|first rest]|].
  - cbn. repeat split; lia.
  - destruct (State.notificationPermission s) eqn:Hp; cbn;
      rewrite ?Hp; repeat split; try lia; try reflexivity;
      intros H; now contradiction H.
  - cbn. repeat split; lia.
Qed.

Lemma step_effects (ev : event) (s : State.t) (r : State.t * list effect) :
  step ev s = Ok r ->
  (List.length (toasts (snd r)) <= if is_tick ev then 1 else 0)%nat
  /\ (List.length (natives (snd r)) <= List.length (toasts (snd r)))%nat
  /\ (State.notificationPermission s <> granted -> natives (snd r) = [])
  /\ (is_mount ev = false ->
      State.notificationPermission (fst r) = State.notificationPermission s).
Proof.
  destruct ev; cbn [step is_tick is_mount].
  - destruct (load stored s) as [s' fx] eqn:Hl. intros H. injection H as <-.
    cbn [fst snd]. unfold load in Hl.
    destruct (loadStored stored) as [[hs|]|]; injection Hl as <- <-;
      cbn; repeat split; try lia; discriminate.
  - intros H. injection H as <-. cbn. repeat split; lia.
  - intros H. injection H as <-. cbn. repeat split; lia.
  - intros H. injection H as <-. cbn [fst snd toasts natives flat_map filter].
    unfold handleAddHabit. destruct (trim (State.name s) =? "")%string;
      cbn; repeat split; lia.
  - destruct (completeHabit now habitId (State.habits s)); cbn [bind];
      [|discriminate].
    intros H. injection H as <-. cbn. repeat split; lia.
  - intros H. injection H as <-. cbn. repeat split; lia.
  - destruct (State.loaded s && negb (List.length (State.habits s) =? 0)%nat);
      intros H; injection H as <-.
    + destruct (reminderTick_effects updater now uuid s)
        as (H1 & H2 & H3 & H4 & _).
      repeat split; auto.
    + cbn. repeat split; lia.
Qed.

Lemma toasts_app (fx fx' : list effect) :
  toasts (fx ++ fx') = (toasts fx ++ toasts fx')%list.
Proof. unfold toasts. apply flat_map_app. Qed.

Lemma natives_app (fx fx' : list effect) :
  natives (fx ++ fx') = (natives fx ++ natives fx')%list.
Proof. unfold natives. apply filter_app. Qed.

(** X12. A run shows at most one toast per tick and none otherwise, and at
    most one native notification per toast; when the permission is not
    [granted] and the run has no mount, it emits no native notification. *)
Theorem notifications_bounded (evs : list event) :
  forall s r,
    run evs s = Ok r ->
    (List.length (toasts (snd r)) <= List.length (filter is_tick evs))%nat
    /\ (List.length (natives (snd r)) <= List.length (toasts (snd r)))%nat
    /\ (State.notificationPermission s <> granted ->
        existsb is_mount evs = false -> natives (snd r) = []).
Proof.
  induction evs as [|ev evs IH]; intros s r Hr; cbn [run] in Hr.
  - injection Hr as <-. cbn. repeat split; lia.
  - destruct (step ev s) as [r1|] eqn:Hs; cbn [bind] in Hr; [|discriminate].
    destruct (run evs (fst r1)) as [r2|] eqn:Hr2; cbn [bind] in Hr;
      [|discriminate].
    injection Hr as <-. cbn [fst snd].
    destruct (step_effects ev s r1 Hs) as (H1 & H2 & H3 & H4).
    destruct (IH (fst r1) r2 Hr2) as (I1 & I2 & I3).
    rewrite toasts_app, natives_app, !length_app.
    split; [|split].
    + cbn [filter]. destruct (is_tick ev); cbn [List.length] in *; lia.
    + lia.
    + intros Hp Hm. cbn [existsb] in Hm.
      apply orb_false_iff in Hm as [Hm1 Hm2].
      rewrite (H3 Hp). cbn [app]. apply I3; [|exact Hm2].
      now rewrite (H4 Hm1).
Qed.

End Emissions.

Section Kept.
Context {E : Engine}.

Lemma complete_kept (today : Date) (iso habitId : string) (habit habit' : Habit.t) :
  complete today iso habitId habit = Ok habit' ->
  identity habit' = identity habit
  /\ Habit.longestStreak habit <= Habit.longestStreak habit'.
Proof.
  unfold complete.
  destruct (negb (Habit.id habit =? habitId)%string);
    [intros H; injection H as <-; split; [reflexivity|lia]|].
  destruct (existsb _ (Habit.history habit));
    [intros H; injection H as <-; split; [reflexivity|lia]|].
  destruct (uniqueHistory _); cbn [bind]; [|discriminate].
  intros H. injection H as <-. split; [reflexivity|].
  cbn [Habit.longestStreak]. lia.
Qed.

Lemma mark_fired_kept (now : Z) (habit : Habit.t) :
  identity (mark_fired now habit) = identity habit
  /\ Habit.longestStreak habit <= Habit.longestStreak (mark_fired now habit).
Proof.
  unfold mark_fired. destruct (fires now habit); split; (reflexivity || cbn; lia).
Qed.

Lemma reset_identity (habitId : string) (habit : Habit.t) :
  identity (reset habitId habit) = identity habit.
Proof. unfold reset. now destruct (Habit.id habit =? habitId)%string. Qed.

Lemma Forall2_map_eq {A B : Type} (f : A -> B) (l l' : list A) :
  Forall2 (fun a b => f b = f a) l l' -> map f l' = map f l.
Proof. induction 1; cbn; congruence. Qed.

Lemma step_identities (ev : event) (s : State.t) (r : State.t * list effect) :
  is_mount ev = false -> step ev s = Ok r ->
  exists new,
    map identity (State.habits (fst r))
    = (new ++ map identity (State.habits s))%list.
Proof.
  intros Hm. destruct ev; try discriminate; cbn [step]; intros Hs.
  - injection Hs as <-. now exists [].
  - injection Hs as <-. now exists [].
  - injection Hs as <-. cbn [fst]. unfold handleAddHabit.
    destruct (trim (State.name s) =? "")%string; [now exists []|].
    cbn [State.habits map]. eexists [_]. reflexivity.
  - destruct (completeHabit now habitId (State.habits s)) as [hs|] eqn:Hc;
      cbn [bind] in Hs; [|discriminate].
    injection Hs as <-. cbn [fst State.habits State.with_habits].
    exists []. cbn [app]. rewrite completeHabit_mapM in Hc.
    apply mapM_Forall2 in Hc. apply Forall2_map_eq.
    refine (Forall2_impl _ _ Hc). intros a b Hab.
    exact (proj1 (complete_kept _ _ _ _ _ Hab)).
  - injection Hs as <-. cbn [fst State.habits State.with_habits].
    exists []. cbn [app]. unfold resetHabit. rewrite map_map.
    apply map_ext. intros habit. apply reset_identity.
  - exists []. cbn [app].
    destruct (State.loaded s && negb (List.length (State.habits s) =? 0)%nat);
      injection Hs as <-; [|reflexivity].
    rewrite reminderTick_habits, map_map. apply map_ext. intros habit.
    exact (proj1 (mark_fired_kept now habit)).
Qed.

(** X13. No event other than the mount removes a habit or changes its
    identifier, name, reminder time or creation time: after a run without
    mount the habits of the store before it are there in the same order,
    to these four fields, behind the habits that the run has added. *)
Theorem habits_are_never_removed (evs : list event) :
  forall s r,
    existsb is_mount evs = false -> run evs s = Ok r ->
    exists new,
      map identity (State.habits (fst r))
      = (new ++ map identity (State.habits s))%list.
Proof.
  induction evs as [|ev evs IH]; intros s r Hm Hr; cbn [run] in Hr.
  - injection Hr as <-. now exists [].
  - cbn [existsb] in Hm. apply orb_false_iff in Hm as [Hm1 Hm2].
    destruct (step ev s) as [r1|] eqn:Hs; cbn [bind] in Hr; [|discriminate].
    destruct (run evs (fst r1)) as [r2|] eqn:Hr2; cbn [bind] in Hr;
      [|discriminate].
    injection Hr as <-. cbn [fst].
    destruct (step_identities ev s r1 Hm1 Hs) as (new1 & H1).
    destruct (IH (fst r1) r2 Hm2 Hr2) as (new2 & H2).
    exists (new2 ++ new1)%list. now rewrite H2, H1, app_assoc.
Qed.

(** X14. Across ticks and Completes the longest streak of a habit never
    decreases, and the habits keep their places. *)
Theorem longest_streak_never_decreases (evs : list event) :
  forall s r,
    Forall tick_or_complete evs -> run evs s = Ok r ->
    Forall2 (fun habit habit' =>
               identity habit' = identity habit
               /\ Habit.longestStreak habit <= Habit.longestStreak habit')
            (State.habits s) (State.habits (fst r)).
Proof.
  induction evs as [|ev evs IH]; intros s r Hk Hr; cbn [run] in Hr.
  - injection Hr as <-. cbn [fst]. induction (State.habits s); constructor;
      [split; [reflexivity|lia]|assumption].
  - inversion Hk as [|? ? Hk1 Hk2]; subst.
    destruct (step ev s) as [r1|] eqn:Hs; cbn [bind] in Hr; [|discriminate].
    destruct (run evs (fst r1)) as [r2|] eqn:Hr2; cbn [bind] in Hr;
      [|discriminate].
    injection Hr as <-. cbn [fst]. specialize (IH (fst r1) r2 Hk2 Hr2).
    assert (H1 : Forall2 (fun habit habit' =>
                   identity habit' = identity habit
                   /\ Habit.longestStreak habit <= Habit.longestStreak habit')
                   (State.habits s) (State.habits (fst r1))).
    { destruct ev; try contradiction; cbn [step] in Hs.
      - destruct (completeHabit now habitId (State.habits s)) as [hs|] eqn:Hc;
          cbn [bind] in Hs; [|discriminate].
        injection Hs as <-. cbn [fst State.habits State.with_habits].
        rewrite completeHabit_mapM in Hc. apply mapM_Forall2 in Hc.
        refine (Forall2_impl _ _ Hc). intros a b Hab.
        exact (complete_kept _ _ _ _ _ Hab).
      - destruct (State.loaded s && negb (List.length (State.habits s) =? 0)%nat);
          injection Hs as <-.
        + rewrite reminderTick_habits.
          induction (State.habits s); constructor;
            [apply mark_fired_kept|assumption].
        + cbn [fst]. induction (State.habits s); constructor;
            [split; [reflexivity|lia]|assumption]. }
    clear - H1 IH. revert IH. generalize (State.habits (fst r2)).
    induction H1 as [|a b l l' Hab _ IHl]; intros l2 H2;
      inversion H2; subst; constructor.
    + destruct Hab as [Ha Hb].
      match goal with H : _ /\ _ |- _ => destruct H as [Hc Hd] end.
      split; [congruence|lia].
    + now apply IHl.
Qed.

End Kept.

(** ** Polling *)

Section Polling.
Context {E : Engine}.

Lemma due_fires (n target now : Z) (habit : Habit.t) :
  due n target habit -> localDay now = n ->
  fires now habit = true <-> target <= now <= target + 60000.
Proof.
  intros (rt & hh & mm & rest & hours & minutes
          & Hrt & Hsplit & Hh & Hm & Ht & Hn & Hc) Hday.
  rewrite fires_Qualifies. unfold Qualifies. split.
  - intros (rt' & hh' & mm' & rest' & hours' & minutes'
            & Hrt' & Hsplit' & Hh' & Hm' & Hwin & _).
    assert (rt' = rt) by congruence. subst rt'.
    assert (hh' = hh /\ mm' = mm) as [-> ->] by (split; congruence).
    assert (hours' = hours) by congruence.
    assert (minutes' = minutes) by congruence. subst.
    cbv zeta in Hwin. lia.
  - intros Hwin. exists rt, hh, mm, rest, hours, minutes.
    rewrite format_ms_dayKey, Hday. cbv zeta. subst target.
    repeat split; try assumption; lia.
Qed.

Lemma tick_step (now : Z) (uuid : string) (updater : dispatch) (s : State.t)
    (i : nat) (habit : Habit.t) :
  State.loaded s = true -> nth_error (State.habits s) i = Some habit ->
  exists r,
    step (Tick now uuid updater) s = Ok r
    /\ State.loaded (fst r) = true
    /\ nth_error (State.habits (fst r)) i = Some (mark_fired now habit).
Proof.
  intros Hl Hi. cbn [step]. rewrite Hl.
  assert (Hlen : (List.length (State.habits s) =? 0)%nat = false).
  { apply Nat.eqb_neq. intros H0. apply length_zero_iff_nil in H0.
    rewrite H0 in Hi. destruct i; discriminate. }
  rewrite Hlen. cbn [andb negb]. eexists. split; [reflexivity|].
  destruct (reminderTick_effects updater now uuid s) as (_ & _ & _ & _ & Hl').
  split; [now rewrite Hl'|].
  now rewrite reminderTick_habits, nth_error_map, Hi.
Qed.

Lemma tick_fires_once_at_least (n target : Z) (i : nat)
    (times : list (Z * (string * dispatch))) :
  forall s habit,
    State.loaded s = true -> nth_error (State.habits s) i = Some habit ->
    due n target habit ->
    Forall (fun p => localDay (fst p) = n) times ->
    spaced 60000 times ->
    match times with
    | p :: _ => fst p <= target + 60000
    | [] => True
    end ->
    Exists (fun p => target <= fst p) times ->
    (1 <= fire_count i (ticks times) s)%nat.
Proof.
  induction times as [|[now [uuid updater]] times IH];
    intros s habit Hl Hi Hdue Hday Hsp Hhd Hex.
  - inversion Hex.
  - apply Forall_cons_iff in Hday as [Hd1 Hd2]. cbn [fst snd] in *.
    cbn [ticks map fire_count fst snd]. rewrite Hi, Hl. cbn [andb].
    destruct (tick_step now uuid updater s i habit Hl Hi)
      as (r & Hr & Hl' & Hi').
    rewrite Hr.
    destruct (Z_le_gt_dec target now) as [Hge|Hlt].
    + rewrite (proj2 (due_fires _ _ now habit Hdue Hd1)) by lia. lia.
    + assert (Hf : fires now habit = false).
      { apply not_true_iff_false. intros Hf.
        apply (due_fires _ _ now habit Hdue Hd1) in Hf. lia. }
      rewrite Hf. cbn [plus].
      unfold mark_fired in Hi'. rewrite Hf in Hi'.
      apply (IH (fst r) habit Hl' Hi' Hdue Hd2).
      * destruct times as [|q times']; [exact I|]. cbn [spaced] in Hsp. tauto.
      * destruct times as [|q times']; [exact I|]. cbn [spaced] in Hsp.
        cbn [fst] in *. lia.
      * apply Exists_cons in Hex as [Hnow|Hrest]; [cbn [fst] in Hnow; lia|].
        exact Hrest.
Qed.

Lemma ticks_kinds (n : Z) (times : list (Z * (string * dispatch))) :
  Forall (fun p => localDay (fst p) = n) times ->
  Forall tick_or_complete (ticks times)
  /\ Forall (event_on_day n) (ticks times).
Proof.
  induction 1 as [|p times Hp _ [IH1 IH2]]; cbn [ticks map].
  - split; constructor.
  - split; constructor; auto. exact I.
Qed.

Lemma ticks_keep_marked (n : Z) (i : nat)
    (times : list (Z * (string * dispatch))) :
  forall s habit,
    State.loaded s = true -> nth_error (State.habits s) i = Some habit ->
    Habit.reminderLastNotified habit = Some (dayKey n) ->
    Forall (fun p => localDay (fst p) = n) times ->
    exists r,
      run (ticks times) s = Ok r
      /\ nth_error (State.habits (fst r)) i = Some habit.
Proof.
  induction times as [|[now [uuid updater]] times IH];
    intros s habit Hl Hi Hm Hday.
  - eexists. split; [reflexivity|exact Hi].
  - apply Forall_cons_iff in Hday as [Hd1 Hd2]. cbn [fst] in Hd1.
    cbn [ticks map run fst snd].
    destruct (tick_step now uuid updater s i habit Hl Hi)
      as (r & Hr & Hl' & Hi').
    rewrite Hr. cbn [bind].
    assert (Hf : fires now habit = false).
    { apply not_true_iff_false. intros Hf. apply fires_not_notified in Hf.
      rewrite format_ms_dayKey, Hd1 in Hf. contradiction. }
    unfold mark_fired in Hi'. rewrite Hf in Hi'.
    destruct (IH (fst r) habit Hl' Hi' Hm Hd2) as (r' & Hr' & Hi'').
    fold (ticks times). rewrite Hr'. cbn [bind].
    eexists. split; [reflexivity|exact Hi''].
Qed.

Lemma ticks_mark_due (n target : Z) (i : nat)
    (times : list (Z * (string * dispatch))) :
  forall s habit,
    State.loaded s = true -> nth_error (State.habits s) i = Some habit ->
    due n target habit ->
    Forall (fun p => localDay (fst p) = n) times ->
    spaced 60000 times ->
    match times with
    | p :: _ => fst p <= target + 60000
    | [] => True
    end ->
    Exists (fun p => target <= fst p) times ->
    exists r,
      run (ticks times) s = Ok r
      /\ nth_error (State.habits (fst r)) i
         = Some (Habit.with_reminderLastNotified (Some (dayKey n)) habit).
Proof.
  induction times as [|[now [uuid updater]] times IH];
    intros s habit Hl Hi Hdue Hday Hsp Hhd Hex.
  - inversion Hex.
  - apply Forall_cons_iff in Hday as [Hd1 Hd2]. cbn [fst snd] in *.
    cbn [ticks map run fst snd].
    destruct (tick_step now uuid updater s i habit Hl Hi)
      as (r & Hr & Hl' & Hi').
    rewrite Hr. cbn [bind]. fold (ticks times).
    destruct (Z_le_gt_dec target now) as [Hge|Hlt].
    + unfold mark_fired in Hi'.
      rewrite (proj2 (due_fires _ _ now habit Hdue Hd1)) in Hi' by lia.
      rewrite format_ms_dayKey, Hd1 in Hi'.
      destruct (ticks_keep_marked n i times (fst r) _ Hl' Hi' eq_refl Hd2)
        as (r' & Hr' & Hi'').
      rewrite Hr'. cbn [bind]. eexists. split; [reflexivity|exact Hi''].
    + assert (Hf : fires now habit = false).
      { apply not_true_iff_false. intros Hf.
        apply (due_fires _ _ now habit Hdue Hd1) in Hf. lia. }
      unfold mark_fired in Hi'. rewrite Hf in Hi'.
      destruct (IH (fst r) habit Hl' Hi' Hdue Hd2) as (r' & Hr' & Hi'').
      * destruct times as [|q times']; [exact I|]. cbn [spaced] in Hsp. tauto.
      * destruct times as [|q times']; [exact I|]. cbn [spaced] in Hsp.
        cbn [fst] in *. lia.
      * apply Exists_cons in Hex as [Hnow|Hrest]; [cbn [fst] in Hnow; lia|].
        exact Hrest.
      * rewrite Hr'. cbn [bind]. eexists. split; [reflexivity|exact Hi''].
Qed.

(** X15. No habit is skipped by the polling, and none is triggered twice:
    when the ticks of a day are at most 60 seconds apart, the first of
    them is not after the target instant of a habit and one of them is not
    before it, a habit that is due (not marked for the day, not completed)
    is pushed on [triggered] at exactly one of them, whenever React runs
    the updaters, and after them it is the same habit marked with the date
    key of the day. *)
Theorem due_habit_triggered_exactly_once (n target : Z) (i : nat)
    (times : list (Z * (string * dispatch))) (s : State.t) (habit : Habit.t) :
  State.loaded s = true -> nth_error (State.habits s) i = Some habit ->
  due n target habit ->
  Forall (fun p => localDay (fst p) = n) times ->
  spaced 60000 times ->
  match times with
  | p :: _ => fst p <= target
  | [] => True
  end ->
  Exists (fun p => target <= fst p) times ->
  fire_count i (ticks times) s = 1%nat
  /\ exists r,
       run (ticks times) s = Ok r
       /\ nth_error (State.habits (fst r)) i
          = Some (Habit.with_reminderLastNotified (Some (dayKey n)) habit).
Proof.
  intros Hl Hi Hdue Hday Hsp Hhd Hex.
  assert (Hhd' : match times with
                 | p :: _ => fst p <= target + 60000
                 | [] => True
                 end)
    by (destruct times as [|p times']; [exact I|lia]).
  split.
  - destruct (ticks_kinds n times Hday) as [Hk Hd].
    pose proof (fire_count_once n i (ticks times) Hk Hd s) as Hle.
    assert (Hge : (1 <= fire_count i (ticks times) s)%nat)
      by (apply (tick_fires_once_at_least n target i times s habit); auto).
    lia.
  - now apply (ticks_mark_due n target i times s habit).
Qed.

End Polling.

(** ** Create, twice and in the views *)

(** X16. Create empties the form, so that a second submit right after it
    adds nothing: two calls of [handleAddHabit] in a row give the state of
    the first. *)
Theorem double_submit_adds_once (uuid1 uuid2 : string) (now1 now2 : Z)
    (s : State.t) :
  handleAddHabit uuid2 now2 (handleAddHabit uuid1 now1 s)
  = handleAddHabit uuid1 now1 s.
Proof.
  unfold handleAddHabit.
  destruct (trim (State.name s) =? "")%string eqn:Hn.
  - now rewrite Hn.
  - reflexivity.
Qed.

Section CreatedViews.
Context {E : Engine}.

(** X17. A habit that Create adds is the first of the view [all] and of
    the view [today]; it is the first of the view [reminders] when a
    reminder time was entered, and not in it otherwise. *)
Theorem created_habit_in_views (uuid : string) (now later : Z) (s : State.t) :
  trim (State.name s) <> "" ->
  let habit :=
    createHabit uuid now (State.name s)
      (if (State.time s =? "")%string then None else Some (State.time s)) in
  let habits' := State.habits (handleAddHabit uuid now s) in
  filteredHabits Filter.all later habits' = habit :: State.habits s
  /\ filteredHabits Filter.today later habits'
     = habit :: filteredHabits Filter.today later (State.habits s)
  /\ filteredHabits Filter.reminders later habits'
     = if (State.time s =? "")%string
       then filteredHabits Filter.reminders later (State.habits s)
       else habit :: filteredHabits Filter.reminders later (State.habits s).
Proof.
  intros Hne. cbv zeta. unfold handleAddHabit.
  rewrite (proj2 (String.eqb_neq _ _) Hne). cbn [State.habits filteredHabits].
  split; [reflexivity|]. split.
  - cbn [filter]. unfold hasCompletedToday at 1. cbn [createHabit Habit.history existsb negb].
    reflexivity.
  - cbn [filter createHabit Habit.reminderTime].
    destruct (State.time s =? "")%string eqn:Ht; cbn [truthy]; [reflexivity|].
    now rewrite Ht.
Qed.

End CreatedViews.

Section Failure.
Context {E : Engine} {L : EngineLaws E}.

(** X18. Complete fails on a history that holds a text that is no date:
    when a habit of the identifier has no completion today and has such an
    entry, [completeHabit] throws and the store is not updated. *)
Theorem complete_throws_on_invalid_entry (now : Z) (habitId iso : string)
    (s : State.t) (habit : Habit.t) :
  In habit (State.habits s) -> Habit.id habit = habitId ->
  ~ completed_on (localDay now) habit ->
  In iso (Habit.history habit) -> new_Date iso = None ->
  exists e,
    completeHabit now habitId (State.habits s) = Throw e
    /\ step (CompleteHabit habitId now) s = Throw e.
Proof.
  intros Hin Hid Hnot Hiso Hnone.
  assert (Hc : exists e,
             complete (startOfDay (Some now)) (todayIso now) habitId habit
             = Throw e).
  { subst habitId. rewrite complete_as_complete_at.
    destruct (complete_at_cases now habit)
      as [[Hd _]|[(_ & h & Hu & _)|(_ & e & _ & Hc)]].
    - contradiction.
    - destruct (uniqueHistory_invalid
                  (Habit.history habit ++ [todayIso now])%list iso) as [e He];
        [apply in_or_app; now left|exact Hnone|].
      rewrite He in Hu. discriminate.
    - now exists e. }
  destruct Hc as [e He].
  destruct (mapM_throws _ (State.habits s) habit e Hin He) as [e' He'].
  exists e'. cbn [step]. rewrite completeHabit_mapM, He'. now split.
Qed.

End Failure.

(** ** The further properties at concrete inputs *)

Ltac settle := by_computation; try exact I.

Ltac sound_events :=
  repeat (apply Forall_cons; [first [exact I | settle]|]);
  apply Forall_nil.

Lemma streak_counts_consecutive_days_witness :
  exists r,
    @run (refEngine 0) two_day_run State.initial = Ok r
    /\ Forall (fun habit =>
                 @habit_sound (refEngine 0) habit
                 /\ (Habit.streak habit = 0 <-> Habit.history habit = [])
                 /\ 0 <= Habit.streak habit <= Habit.longestStreak habit
                 /\ Habit.longestStreak habit
                    <= Z.of_nat (List.length (Habit.history habit)))
              (State.habits (fst r)).
Proof.
  apply (@streak_counts_consecutive_days (refEngine 0) utc_laws two_day_run).
  sound_events.
Defined.

Lemma history_in_chronological_order_witness :
  exists r,
    @run (refEngine 0) two_day_run State.initial = Ok r
    /\ Forall (fun habit =>
                 StronglySorted Z.lt
                   (@days_of (refEngine 0) (Habit.history habit))
                 /\ Forall (fun d =>
                              d <= @localDay (refEngine 0)
                                     (last_clock jan1_0800 two_day_run))
                           (@days_of (refEngine 0) (Habit.history habit)))
              (State.habits (fst r)).
Proof.
  apply (@history_in_chronological_order (refEngine 0) utc_laws jan1_0800
           two_day_run).
  - settle.
  - sound_events.
  - sound_events.
Defined.

Lemma uniqueHistory_idempotent_witness :
  exists history',
    @uniqueHistory (refEngine 0) (Habit.history stored_run) = Ok history'
    /\ @uniqueHistory (refEngine 0) history' = Ok history'.
Proof.
  apply (@uniqueHistory_idempotent (refEngine 0) utc_laws
           (Habit.history stored_run)).
  by_computation.
Defined.


Lemma completion_history_cells_witness :
  exists cell,
    nth_error (@getCompletionHistory (refEngine 0) jan2_090030 walked 21) 19
    = Some cell
    /\ Cell.day cell
       = Some (@midnight (refEngine 0)
                 (@localDay (refEngine 0) jan2_090030
                  - Z.of_nat (21 - 1 - 19)))
    /\ (Cell.active cell = true
        <-> @completed_on (refEngine 0)
              (@localDay (refEngine 0) jan2_090030 - Z.of_nat (21 - 1 - 19))
              walked).
Proof.
  apply (proj1 (proj2 (@completion_history_cells (refEngine 0) jan2_090030
                         walked 21%nat)) 19%nat).
  lia.
Defined.

Lemma filtered_view_membership_witness :
  In reading
     (@filteredHabits (refEngine 0) Filter.reminders jan1_1000
        [walked; reading]).
Proof.
  apply (proj2 (@filtered_view_membership (refEngine 0) Filter.reminders
                  jan1_1000 [walked; reading] reading)).
  split; [by_computation|]. exists "09:00". by_computation.
Defined.

Lemma triggered_habit_in_views_witness :
  In reading
     (@filteredHabits (refEngine 0) Filter.today jan1_090030 [walked; reading])
  /\ In reading
        (@filteredHabits (refEngine 0) Filter.reminders jan1_090030
           [walked; reading]).
Proof.
  apply (@triggered_habit_in_views (refEngine 0) jan1_090030 [walked; reading]
           reading).
  - by_computation.
  - by_computation.
Defined.

Lemma complete_silences_reminder_witness :
  @hasCompletedToday (refEngine 0) jan1_090030 read_once = true
  /\ @fires (refEngine 0) jan1_090030 read_once = false
  /\ ~ In read_once
         (@filteredHabits (refEngine 0) Filter.today jan1_090030
            read_once_store).
Proof.
  apply (@complete_silences_reminder (refEngine 0) utc_laws jan1_0800
           jan1_090030 "habit-1" [reading; walked] read_once_store read_once).
  - settle.
  - intros habit [<-|[<-|[]]]; by_computation.
  - by_computation.
  - by_computation.
  - by_computation.
  - by_computation.
Defined.

Lemma complete_after_reset_witness :
  @complete_at (refEngine 0) jan2_090030 (reset (Habit.id walked) walked)
  = Ok {| Habit.id := Habit.id walked;
          Habit.name := Habit.name walked;
          Habit.reminderTime := Habit.reminderTime walked;
          Habit.createdAt := Habit.createdAt walked;
          Habit.history := [@todayIso (refEngine 0) jan2_090030];
          Habit.streak := 1;
          Habit.longestStreak := 1;
          Habit.lastCompleted := Some (@todayIso (refEngine 0) jan2_090030);
          Habit.reminderLastNotified := None |}.
Proof.
  apply (@complete_after_reset (refEngine 0) utc_laws jan2_090030 walked).
  settle.
Defined.


Lemma decided_permission_is_final_witness :
  requests [Ok denied; Throw RangeError; Ok granted] granted_store
  = (granted_store, []).
Proof.
  apply (proj1 (decided_permission_is_final
                  [Ok denied; Throw RangeError; Ok granted] granted_store)).
  by_computation.
Defined.

Lemma notifications_bounded_witness :
  let r := value_or (@run (refEngine 0) later_run two_habits)
                    (State.initial, []) in
  (List.length (toasts (snd r)) <= List.length (filter is_tick later_run))%nat
  /\ (List.length (natives (snd r)) <= List.length (toasts (snd r)))%nat
  /\ natives (snd r) = [].
Proof.
  cbv zeta.
  assert (Hr : @run (refEngine 0) later_run two_habits
               = Ok (value_or (@run (refEngine 0) later_run two_habits)
                              (State.initial, [])))
    by by_computation.
  destruct (@notifications_bounded (refEngine 0) later_run two_habits
              (value_or (@run (refEngine 0) later_run two_habits)
                        (State.initial, [])) Hr) as (H1 & H2 & H3).
  split; [exact H1|]. split; [exact H2|].
  apply H3; by_computation.
Defined.

Lemma habits_are_never_removed_witness :
  let r := value_or (@run (refEngine 0) busy_day two_habits)
                    (State.initial, []) in
  exists new,
    map identity (State.habits (fst r))
    = (new ++ map identity (State.habits two_habits))%list.
Proof.
  cbv zeta.
  apply (@habits_are_never_removed (refEngine 0) busy_day two_habits
           (value_or (@run (refEngine 0) busy_day two_habits)
                     (State.initial, []))).
  - by_computation.
  - by_computation.
Defined.

Lemma longest_streak_never_decreases_witness :
  let r := value_or (@run (refEngine 0) later_run two_habits)
                    (State.initial, []) in
  Forall2 (fun habit habit' =>
             identity habit' = identity habit
             /\ Habit.longestStreak habit <= Habit.longestStreak habit')
          (State.habits two_habits) (State.habits (fst r)).
Proof.
  cbv zeta.
  apply (@longest_streak_never_decreases (refEngine 0) later_run two_habits
           (value_or (@run (refEngine 0) later_run two_habits)
                     (State.initial, []))).
  - repeat (apply Forall_cons; [exact I|]). apply Forall_nil.
  - by_computation.
Defined.

Lemma due_habit_triggered_exactly_once_witness :
  @fire_count (refEngine 0) 0 (ticks morning_ticks) two_habits = 1%nat
  /\ exists r,
       @run (refEngine 0) (ticks morning_ticks) two_habits = Ok r
       /\ nth_error (State.habits (fst r)) 0
          = Some (Habit.with_reminderLastNotified
                    (Some (@dayKey (refEngine 0) 19723)) reading).
Proof.
  apply (@due_habit_triggered_exactly_once (refEngine 0) 19723 jan1_0900 0%nat
           morning_ticks two_habits reading).
  - reflexivity.
  - reflexivity.
  - exists "09:00", "09", "00", [], (inject_Z 9), (inject_Z 0). by_computation.
  - repeat (apply Forall_cons; [by_computation|]). apply Forall_nil.
  - settle.
  - settle.
  - apply Exists_cons_tl, Exists_cons_hd. settle.
Defined.

Lemma created_habit_in_views_witness :
  let habit :=
    createHabit "habit-1" jan1_0800 (State.name typed_read)
      (if (State.time typed_read =? "")%string then None
       else Some (State.time typed_read)) in
  let habits' :=
    State.habits (handleAddHabit "habit-1" jan1_0800 typed_read)
  in
  @filteredHabits (refEngine 0) Filter.all jan1_1000 habits'
  = habit :: State.habits typed_read
  /\ @filteredHabits (refEngine 0) Filter.today jan1_1000 habits'
     = habit
       :: @filteredHabits (refEngine 0) Filter.today jan1_1000
            (State.habits typed_read)
  /\ @filteredHabits (refEngine 0) Filter.reminders jan1_1000 habits'
     = if (State.time typed_read =? "")%string
       then @filteredHabits (refEngine 0) Filter.reminders jan1_1000
              (State.habits typed_read)
       else habit
            :: @filteredHabits (refEngine 0) Filter.reminders jan1_1000
                 (State.habits typed_read).
Proof.
  apply (@created_habit_in_views (refEngine 0) "habit-1" jan1_0800 jan1_1000
           typed_read).
  by_computation.
Defined.

Lemma complete_throws_on_invalid_entry_witness :
  exists e,
    @completeHabit (refEngine 0) jan2_090030 "habit-1"
      (State.habits unchecked_store) = Throw e
    /\ @step (refEngine 0) (CompleteHabit "habit-1" jan2_090030)
         unchecked_store = Throw e.
Proof.
  apply (@complete_throws_on_invalid_entry (refEngine 0) utc_laws jan2_090030
           "habit-1" "not a date" unchecked_store stored_walk).
  - by_computation.
  - reflexivity.
  - by_computation.
  - by_computation.
  - reflexivity.
Defined.
